(** * Drift-detection engine of valueprops-etl: a shallow embedding

    The development follows the Python sources under [src/load]:

    - [load/drift_detectors/numerical_data.py]   (KSTest, PSICalculator,
      ZTest, CUSUM, KLDivergence),
    - [load/drift_detectors/categorical_data.py] (ChiSquaredTest,
      CramersVTest),
    - [load/drift_detectors/__init__.py]         (get_drift_detector),
    - [load/main.py]                             (drift_monitoring),

    and, for the further properties at the end of the file,

    - [utils/logging/logger.py] and [utils/logging/handlers]
      (setup_logging, get_handler, ConsoleHandler, FileHandler),
    - [extract/data_validation.py]   (DynamicSchema.from_config),
    - [transform/data_cleansing.py]  (remove_duplicates, remove_outliers,
      remove_negatives),
    - [main.py]                      (main).

    Modelling conventions.

    - A Python call either returns or raises: [Py.result].
    - Column values read from a CSV file are exact rationals ([Q]); bin
      edges and bin counts are computed exactly.
    - A [numpy.float64] statistic is an extended real ([Float64.xreal]):
      a real number, one of the two infinities, or NaN.  Rounding and the
      sign of zero are not modelled; the special values are, because the
      code branches on them ([np.isnan], [np.isinf]) and produces them
      (0/0, x/0, [rel_entr]).
    - The numerical routines of SciPy that have no closed form here (the
      p-value of the two-sample KS test, the normal CDF and quantile, the
      chi-squared test) are the fields of the class [SciPy]; every
      definition is stated for an arbitrary instance.
    - The file system and the random source of one monitoring run are the
      fields of the record [World]. *)

From Stdlib Require Import Reals QArith Qminmax Qreals Qround Psatz Lia List String ZArith Permutation Sorted.
From stdpp Require Import base gmap strings list.

Local Open Scope Z_scope.

(** ** Python outcomes *)

Module Py.

Inductive exn : Type :=
| ValueError (msg : string)
| AttributeError (msg : string)
| KeyError (msg : string)
| TypeError (msg : string)
| ZeroDivisionError (msg : string)
| FileNotFoundError (msg : string)
| OSError (msg : string).

Inductive result (A : Type) : Type :=
| Return (a : A)
| Raise (e : exn).

Arguments Return {A} a.
Arguments Raise {A} e.

Definition bind {A B : Type} (r : result A) (k : A -> result B) : result B :=
  match r with
  | Return a => k a
  | Raise e => Raise e
  end.

Definition returns {A : Type} (r : result A) : Prop := exists a, r = Return a.
Definition raises {A : Type} (r : result A) : Prop := exists e, r = Raise e.

End Py.

Import Py.

(** Sequencing of calls: an exception raised by one call skips the rest
    of the block. *)
#[global] Instance result_ret : MRet Py.result := @Py.Return.
#[global] Instance result_bind : MBind Py.result := fun A B k r => Py.bind r k.

(** ** numpy.float64, idealised *)

Module Float64.

Inductive xreal : Type :=
| Fin (r : R)
| PInf
| NInf
| NaN.

Definition isnan (x : xreal) : bool :=
  match x with NaN => true | _ => false end.

Definition isinf (x : xreal) : bool :=
  match x with PInf | NInf => true | _ => false end.

Definition of_Q (q : Q) : xreal := Fin (Q2R q).
Definition of_Z (z : Z) : xreal := Fin (IZR z).

(** The sign of a real, as the three-way test the IEEE rules need. *)
Definition Rsign (r : R) : comparison :=
  match total_order_T r 0 with
  | inleft (left _) => Lt
  | inleft (right _) => Eq
  | inright _ => Gt
  end.

Definition neg (x : xreal) : xreal :=
  match x with
  | Fin r => Fin (- r)
  | PInf => NInf
  | NInf => PInf
  | NaN => NaN
  end.

Definition add (x y : xreal) : xreal :=
  match x, y with
  | NaN, _ | _, NaN => NaN
  | PInf, NInf | NInf, PInf => NaN
  | PInf, _ | _, PInf => PInf
  | NInf, _ | _, NInf => NInf
  | Fin a, Fin b => Fin (a + b)
  end.

Definition sub (x y : xreal) : xreal := add x (neg y).

(** An infinity of the sign [s]; the sign [Eq] (a zero factor) is the
    invalid operation. *)
Definition signed_inf (s : comparison) : xreal :=
  match s with Gt => PInf | Lt => NInf | Eq => NaN end.

Definition sign (x : xreal) : option comparison :=
  match x with
  | Fin r => Some (Rsign r)
  | PInf => Some Gt
  | NInf => Some Lt
  | NaN => None
  end.

Definition sign_mul (s t : comparison) : comparison :=
  match s, t with
  | Eq, _ | _, Eq => Eq
  | Gt, u | u, Gt => u
  | Lt, Lt => Gt
  end.

Definition mul (x y : xreal) : xreal :=
  match x, y with
  | NaN, _ | _, NaN => NaN
  | Fin a, Fin b => Fin (a * b)
  | Fin a, PInf | PInf, Fin a => signed_inf (Rsign a)
  | Fin a, NInf | NInf, Fin a => signed_inf (sign_mul Lt (Rsign a))
  | PInf, PInf | NInf, NInf => PInf
  | PInf, NInf | NInf, PInf => NInf
  end.

(** Division never raises on float64: a zero divisor gives an infinity
    of the dividend's sign, and 0/0 gives NaN. *)
Definition div (x y : xreal) : xreal :=
  match x, y with
  | NaN, _ | _, NaN => NaN
  | Fin a, Fin b =>
      match Rsign b with
      | Eq => signed_inf (Rsign a)
      | _ => Fin (a / b)
      end
  | Fin _, (PInf | NInf) => Fin 0
  | PInf, Fin b => match Rsign b with Lt => NInf | _ => PInf end
  | NInf, Fin b => match Rsign b with Lt => PInf | _ => NInf end
  | (PInf | NInf), (PInf | NInf) => NaN
  end.

Definition abs (x : xreal) : xreal :=
  match x with
  | Fin r => Fin (Rabs r)
  | PInf | NInf => PInf
  | NaN => NaN
  end.

(** [np.sqrt] *)
Definition sqrt (x : xreal) : xreal :=
  match x with
  | Fin r => match Rsign r with Lt => NaN | _ => Fin (R_sqrt.sqrt r) end
  | PInf => PInf
  | NInf | NaN => NaN
  end.

(** [np.log] *)
Definition log (x : xreal) : xreal :=
  match x with
  | Fin r => match Rsign r with Lt => NaN | Eq => NInf | Gt => Fin (ln r) end
  | PInf => PInf
  | NInf | NaN => NaN
  end.

(** [x > y]; any comparison with NaN is false. *)
Definition gtb (x y : xreal) : bool :=
  match x, y with
  | NaN, _ | _, NaN => false
  | PInf, PInf | NInf, _ | _, PInf => false
  | PInf, _ | _, NInf => true
  | Fin a, Fin b => if Rlt_dec b a then true else false
  end.

Definition ltb (x y : xreal) : bool := gtb y x.

(** Python's [sum] over an array: left to right from the integer 0. *)
Definition sum (l : list xreal) : xreal := fold_left add l (Fin 0).

End Float64.

Import Float64.

(** ** pandas: frames, column selection, sampling *)

Module Pandas.

(** A cell of a frame: a number or a category label.  Missing values
    (the NaN cells of a CSV file with holes) are outside the model. *)
Inductive cell : Type :=
| Num (q : Q)
| Str (s : string).

#[global] Instance cell_inhabited : Inhabited cell := populate (Num 0).

(** A Series keeps the row label of every value. *)
Definition Series : Type := list (Z * cell).

Record DataFrame : Type := {
  columns : list string;
  rows : list (Z * gmap string cell)
}.

(** [df.index] *)
Definition index (df : DataFrame) : list Z := fst <$> rows df.

(** [len(df)] *)
Definition len (df : DataFrame) : Z := Z.of_nat (length (rows df)).

(** [df[column_name]] *)
Definition getitem (df : DataFrame) (column_name : string) : result Series :=
  if decide (column_name ∈ columns df)
  then Return ((fun r => (fst r, snd r !!! column_name)) <$> rows df)
  else Raise (KeyError column_name).

Definition values (s : Series) : list cell := snd <$> s.

(** The values of a numeric column; the numeric routines reject a column
    of labels. *)
Fixpoint numbers (l : list cell) : result (list Q) :=
  match l with
  | [] => Return []
  | Num q :: t => qs ← numbers t; Return (q :: qs)
  | Str _ :: _ => Raise (TypeError "could not convert string to float")
  end.

(** Python's [round] on a float: to the nearest integer, a tie going to
    the even neighbour. *)
Definition py_round (q : Q) : Z :=
  let f := Qfloor q in
  match Qcompare (q - inject_Z f) (1 # 2) with
  | Lt => f
  | Gt => f + 1
  | Eq => if Z.even f then f else f + 1
  end.

(** [df.take(locs)]: the rows at the given positions, in that order. *)
Definition take (locs : list nat) (df : DataFrame) : DataFrame :=
  {| columns := columns df;
     rows := omap (fun i => rows df !! i) locs |}.

(** [df.sample(frac=frac)]: [round(frac * len(df))] positions are drawn
    without replacement by [choice population size] (the random state's
    [choice(population, size=size, replace=False)]) and taken. *)
Definition sample (choice : nat -> nat -> list nat) (frac : Q) (df : DataFrame)
  : DataFrame :=
  let obj_len := length (rows df) in
  let size := py_round (frac * inject_Z (Z.of_nat obj_len)) in
  take (choice obj_len (Z.to_nat size)) df.

(** [df.drop(labels)]: every row carrying one of the labels is removed;
    a label that is not in the index is a KeyError. *)
Definition drop (labels : list Z) (df : DataFrame) : result DataFrame :=
  if decide (Forall (fun l => l ∈ index df) labels)
  then Return {| columns := columns df;
                 rows := filter (fun r => fst r ∉ labels) (rows df) |}
  else Raise (KeyError "labels not found in axis").

(** The parsed content of a CSV file: header and records. *)
Record csv : Type := {
  header : list string;
  records : list (gmap string cell)
}.

(** [pd.read_csv(path)] labels the records 0, 1, 2, ... (a RangeIndex). *)
Definition RangeIndex (n : nat) : list Z := Z.of_nat <$> seq 0 n.

Definition from_csv (c : csv) : DataFrame :=
  {| columns := header c;
     rows := zip (RangeIndex (length (records c))) (records c) |}.

(** [Series.mean()]; NaN for an empty Series. *)
Definition Qsum (l : list Q) : Q := fold_right Qplus 0%Q l.

Definition mean (l : list Q) : xreal :=
  match l with
  | [] => NaN
  | _ => of_Q (Qsum l / inject_Z (Z.of_nat (length l)))
  end.

(** [Series.std()], the sample standard deviation (ddof = 1); NaN when
    there are fewer than two values. *)
Definition std (l : list Q) : xreal :=
  match l with
  | [] | [_] => NaN
  | _ =>
      let n := inject_Z (Z.of_nat (length l)) in
      let m := (Qsum l / n)%Q in
      let sq := Qsum (map (fun x => (x - m) * (x - m))%Q l) in
      Float64.sqrt (of_Q (sq / (n - 1)))
  end.

(** [series.concat]: pandas.Series defines no attribute of that name
    (concatenation is the module-level function [pandas.concat]), and the
    integer row labels of a Series cannot stand for an attribute either,
    so the attribute lookup raises. *)
Definition getattr_concat (s : Series) : result (Series -> result Series) :=
  Raise (AttributeError "'Series' object has no attribute 'concat'").

(** [pd.crosstab(a, b)] joins the two Series on their row labels: a pair
    of values is counted for every label carried by both.  (Labels are
    unique within a Series read from a file.) *)
Definition crosstab_pairs (a b : Series) : list (cell * cell) :=
  omap (fun r => match list_find (fun r' => fst r' = fst r) b with
                 | Some (_, r') => Some (snd r, snd r')
                 | None => None
                 end) a.

Definition cell_eqb (a b : cell) : bool :=
  match a, b with
  | Num x, Num y => Qeq_bool x y
  | Str s, Str t => String.eqb s t
  | _, _ => false
  end.

(** The distinct values of a list, in the order of their first
    occurrence. *)
Fixpoint categories (l : list cell) : list cell :=
  match l with
  | [] => []
  | c :: t => c :: List.filter (fun d => negb (cell_eqb c d)) (categories t)
  end.

(** The contingency table of the joined pairs: one row per category of
    the first Series, one column per category of the second.  (pandas
    sorts the categories, which permutes the rows and the columns; the
    size of the table does not depend on it.) *)
Definition crosstab (a b : Series) : list (list Z) :=
  let pairs := crosstab_pairs a b in
  map (fun r =>
         map (fun c =>
                Z.of_nat (length (List.filter
                  (fun p => cell_eqb (fst p) r && cell_eqb (snd p) c) pairs)))
             (categories (map snd pairs)))
      (categories (map fst pairs)).

End Pandas.

(** ** numpy: histograms *)

Module Numpy.

(** [a.min()], [a.max()] of a non-empty array [x :: t]. *)
Definition amin (x : Q) (t : list Q) : Q := fold_left Qmin t x.
Definition amax (x : Q) (t : list Q) : Q := fold_left Qmax t x.

(** The range of the bins when none is given: the extent of the data,
    (0, 1) for an empty array, and half a unit on either side of a
    single-valued one. *)
Definition outer_edges (a : list Q) : Q * Q :=
  match a with
  | [] => (0, 1)%Q
  | x :: t =>
      let first_edge := amin x t in
      let last_edge := amax x t in
      if Qeq_bool first_edge last_edge
      then (first_edge - (1 # 2), last_edge + (1 # 2))%Q
      else (first_edge, last_edge)
  end.

(** [np.linspace(start, stop, div + 1)]: [start + i * step] with
    [step = (stop - start) / div], the last point set to [stop]. *)
Definition linspace (start stop : Q) (div : nat) : list Q :=
  let step := ((stop - start) / inject_Z (Z.of_nat div))%Q in
  map (fun i => (start + inject_Z (Z.of_nat i) * step)%Q) (seq 0 div) ++ [stop].

Definition Qltb (x y : Q) : bool := negb (Qle_bool y x).

(** The number of elements of [a] that satisfy [p]. *)
Definition count (p : Q -> bool) (a : list Q) : Z :=
  Z.of_nat (length (List.filter p a)).

(** One count per pair of consecutive edges.  Every bin is half-open,
    [lo <= x < hi], except the last one, which is closed; values outside
    the outermost edges are not counted. *)
Fixpoint bin_counts (a : list Q) (edges : list Q) : list Z :=
  match edges with
  | [] => []
  | lo :: tl =>
      match tl with
      | [] => []
      | hi :: rest =>
          let inside x :=
            Qle_bool lo x &&
            match rest with [] => Qle_bool x hi | _ => Qltb x hi end in
          count inside a :: bin_counts a tl
      end
  end.

Fixpoint monotonic (edges : list Q) : bool :=
  match edges with
  | [] => true
  | x :: tl =>
      match tl with
      | [] => true
      | y :: _ => Qle_bool x y && monotonic tl
      end
  end.

(** [np.histogram(a, bins=n)] for an integer [n]. *)
Definition histogram (a : list Q) (bins : Z) : result (list Z * list Q) :=
  if bins <? 1
  then Raise (ValueError "`bins` must be positive, when an integer")
  else
    let '(first_edge, last_edge) := outer_edges a in
    let bin_edges := linspace first_edge last_edge (Z.to_nat bins) in
    Return (bin_counts a bin_edges, bin_edges).

(** [np.histogram(a, bins=bin_edges)] for an array of edges. *)
Definition histogram_edges (a : list Q) (bin_edges : list Q)
  : result (list Z * list Q) :=
  if monotonic bin_edges
  then Return (bin_counts a bin_edges, bin_edges)
  else Raise (ValueError "`bins` must increase monotonically, when an array").

(** Python's [sum] over an integer array. *)
Definition Zsum (l : list Z) : Z := fold_left Z.add l 0.

End Numpy.

(** ** scipy.stats *)

(** The routines whose values are not computed here.  [ks_2samp] returns
    (statistic, p-value); [chi2_contingency_table] is the chi-squared test
    on a table that holds data and returns (chi2, p-value).  Both may
    raise.  [norm_cdf] and [norm_ppf] are total on float64. *)
Class SciPy : Type := {
  ks_2samp : list Q -> list Q -> result (xreal * xreal);
  norm_cdf : xreal -> xreal;
  norm_ppf : xreal -> xreal;
  chi2_contingency_table : list (list Z) -> result (xreal * xreal);
  (** on two non-empty samples the KS test returns *)
  ks_2samp_nonempty : forall a b, a <> [] -> b <> [] -> Py.returns (ks_2samp a b)
}.

Module Scipy.

(** [scipy.special.rel_entr(x, y)]: NaN if an argument is NaN,
    [x * log(x / y)] if [x > 0] and [y > 0], 0 if [x = 0] and [y >= 0],
    and infinity otherwise. *)
Definition rel_entr (x y : xreal) : xreal :=
  match sign x, sign y with
  | None, _ | _, None => NaN
  | Some Gt, Some Gt => mul x (log (div x y))
  | Some Eq, Some (Eq | Gt) => Fin 0
  | _, _ => PInf
  end.

(** Division of an array by a number. *)
Definition scale (l : list xreal) (s : xreal) : list xreal :=
  map (fun x => div x s) l.

(** [scipy.stats.entropy(pk, qk)]: both arguments are normalised to sum
    to 1, then the relative entropies are summed. *)
Definition entropy (pk qk : list xreal) : xreal :=
  let pk := scale pk (Float64.sum pk) in
  let qk := scale qk (Float64.sum qk) in
  let vec := zip_with rel_entr pk qk in
  Float64.sum vec.

(** The size of a table: rows times columns. *)
Definition table_size (t : list (list Z)) : Z :=
  Z.of_nat (length t) *
  match t with [] => 0 | r :: _ => Z.of_nat (length r) end.

(** [scipy.stats.chi2_contingency(observed)] refuses a table without
    data before it computes anything. *)
Definition chi2_contingency `{SciPy} (observed : list (list Z))
  : result (xreal * xreal) :=
  if existsb (existsb (fun c => c <? 0)) observed
  then Raise (ValueError "All values in `observed` must be nonnegative.")
  else if table_size observed =? 0
  then Raise (ValueError "No data; `observed` has size 0.")
  else chi2_contingency_table observed.

End Scipy.

(** ** The detectors of [numerical_data.py] *)

(** The values of a column as numbers, as the numeric routines read
    them. *)
Definition as_array (s : Pandas.Series) : result (list Q) :=
  Pandas.numbers (Pandas.values s).

Module KSTest.

Record t : Type := {
  historical_data : Pandas.DataFrame;
  recent_data : Pandas.DataFrame;
  alpha : Q
}.

(** The dataclass constructor with its defaults. *)
Definition new (historical_data recent_data : Pandas.DataFrame) : t :=
  {| historical_data := historical_data;
     recent_data := recent_data;
     alpha := 5 # 100 |}.

Definition detect_drift `{SciPy} (self : t) (column_name : string)
  : result (bool * xreal) :=
  column_data1 ← Pandas.getitem (historical_data self) column_name;
  column_data2 ← Pandas.getitem (recent_data self) column_name;
  a ← as_array column_data1;
  b ← as_array column_data2;
  '(_, p_value) ← ks_2samp a b;
  let drift_detected := ltb p_value (of_Q (alpha self)) in
  Return (drift_detected, p_value).

End KSTest.

Module PSICalculator.

Record t : Type := {
  historical_data : Pandas.DataFrame;
  recent_data : Pandas.DataFrame;
  bins : Z;
  epsilon : Q;
  threshold : Q
}.

Definition new (historical_data recent_data : Pandas.DataFrame) : t :=
  {| historical_data := historical_data;
     recent_data := recent_data;
     bins := 10;
     epsilon := 1 # 100000;
     threshold := 1 # 10 |}.

(** The part of [detect_drift] after the two histograms. *)
Definition psi_of_counts (epsilon : Q) (hist_counts recent_counts : list Z)
  : xreal :=
  let hist_counts := map (fun c => add (of_Z c) (of_Q epsilon)) hist_counts in
  let recent_counts := map (fun c => add (of_Z c) (of_Q epsilon)) recent_counts in
  let hist_probs := map (fun c => div c (Float64.sum hist_counts)) hist_counts in
  let recent_probs := map (fun c => div c (Float64.sum recent_counts)) recent_counts in
  let psi_values :=
    zip_with (fun r h => mul (sub r h) (log (div r h))) recent_probs hist_probs in
  Float64.sum psi_values.

Definition detect_drift (self : t) (column_name : string)
  : result (bool * xreal) :=
  hist_column ← Pandas.getitem (historical_data self) column_name;
  hist ← as_array hist_column;
  '(hist_counts, bin_edges) ← Numpy.histogram hist (bins self);
  recent_column ← Pandas.getitem (recent_data self) column_name;
  recent ← as_array recent_column;
  '(recent_counts, _) ← Numpy.histogram_edges recent bin_edges;
  let psi := psi_of_counts (epsilon self) hist_counts recent_counts in
  let drift_detected := gtb psi (of_Q (threshold self)) in
  Return (drift_detected, psi).

End PSICalculator.

Module ZTest.

Record t : Type := {
  historical_data : Pandas.DataFrame;
  recent_data : Pandas.DataFrame;
  alpha : Q
}.

Definition new (historical_data recent_data : Pandas.DataFrame) : t :=
  {| historical_data := historical_data;
     recent_data := recent_data;
     alpha := 5 # 100 |}.

(** [std ** 2 / n].  The count [n] is 0 only for a frame without rows;
    the standard deviation of its columns is then the Python float nan
    that pandas returns for an empty reduction, and the division of a
    Python float by the integer 0 raises. *)
Definition variance_over (std : xreal) (n : Z) : result xreal :=
  if n =? 0
  then Raise (ZeroDivisionError "float division by zero")
  else Return (div (mul std std) (of_Z n)).

Definition detect_drift `{SciPy} (self : t) (column_name : string)
  : result (bool * xreal) :=
  hist ← Pandas.getitem (historical_data self) column_name ≫= as_array;
  let mean1 := Pandas.mean hist in
  recent ← Pandas.getitem (recent_data self) column_name ≫= as_array;
  let mean2 := Pandas.mean recent in
  let std1 := Pandas.std hist in
  let std2 := Pandas.std recent in
  let n1 := Pandas.len (historical_data self) in
  let n2 := Pandas.len (recent_data self) in
  v1 ← variance_over std1 n1;
  v2 ← variance_over std2 n2;
  let pooled_std := Float64.sqrt (add v1 v2) in
  let z_score := div (sub mean1 mean2) pooled_std in
  let z_critical := norm_ppf (of_Q (1 - alpha self / 2)) in
  let p_value := mul (Fin 2) (sub (Fin 1) (norm_cdf (Float64.abs z_score))) in
  let drift_detected := gtb (Float64.abs z_score) z_critical in
  Return (drift_detected, p_value).

End ZTest.

Module CUSUM.

Record t : Type := {
  historical_data : Pandas.DataFrame;
  recent_data : Pandas.DataFrame;
  threshold : Q
}.

Definition new (historical_data recent_data : Pandas.DataFrame) : t :=
  {| historical_data := historical_data;
     recent_data := recent_data;
     threshold := 1 # 10 |}.

(** [max(0, v)] and [min(0, v)]: Python keeps the first argument unless
    the second compares beyond it, so a NaN never replaces the 0. *)
Definition max0 (v : xreal) : xreal := if gtb v (Fin 0) then v else Fin 0.
Definition min0 (v : xreal) : xreal := if ltb v (Fin 0) then v else Fin 0.

(** The [for i, x in enumerate(data)] loop, from position [i] on. *)
Fixpoint scan (target_mean : xreal) (threshold : Q) (data : list Q) (i : nat)
  (s_pos s_neg : xreal) (drift_indices : list nat) : list nat :=
  match data with
  | [] => drift_indices
  | x :: data' =>
      let deviation := sub (of_Q x) target_mean in
      let s_pos := max0 (add s_pos deviation) in
      let s_neg := min0 (add s_neg deviation) in
      if gtb s_pos (of_Q threshold) || ltb s_neg (neg (of_Q threshold))
      then scan target_mean threshold data' (S i) (Fin 0) (Fin 0)
             (drift_indices ++ [i])
      else scan target_mean threshold data' (S i) s_pos s_neg drift_indices
  end.

Definition detect_drift (self : t) (column_name : string)
  : result (bool * list nat) :=
  hist ← Pandas.getitem (historical_data self) column_name ≫= as_array;
  let target_mean := Pandas.mean hist in
  recent_column ← Pandas.getitem (recent_data self) column_name;
  concat ← Pandas.getattr_concat recent_column;
  hist_column ← Pandas.getitem (historical_data self) column_name;
  data ← concat hist_column ≫= as_array;
  let drift_indices :=
    scan target_mean (threshold self) data 0 (Fin 0) (Fin 0) [] in
  let drift_detected := (0 <? length drift_indices)%nat in
  Return (drift_detected, drift_indices).

End CUSUM.

Module KLDivergence.

Record t : Type := {
  historical_data : Pandas.DataFrame;
  recent_data : Pandas.DataFrame;
  num_bins : Z;
  threshold : Q
}.

Definition new (historical_data recent_data : Pandas.DataFrame) : t :=
  {| historical_data := historical_data;
     recent_data := recent_data;
     num_bins := 10;
     threshold := 1 # 10 |}.

(** The part of [detect_drift] after the two histograms. *)
Definition kld_of_counts (hist_counts recent_counts : list Z) : xreal :=
  let hist_probs :=
    map (fun c => div (of_Z c) (of_Z (Numpy.Zsum hist_counts))) hist_counts in
  let recent_probs :=
    map (fun c => div (of_Z c) (of_Z (Numpy.Zsum recent_counts))) recent_counts in
  Scipy.entropy hist_probs recent_probs.

Definition detect_drift (self : t) (column_name : string)
  : result (bool * xreal) :=
  hist_column ← Pandas.getitem (historical_data self) column_name;
  hist ← as_array hist_column;
  '(hist_counts, bin_edges) ← Numpy.histogram hist (num_bins self);
  recent_column ← Pandas.getitem (recent_data self) column_name;
  recent ← as_array recent_column;
  '(recent_counts, _) ← Numpy.histogram_edges recent bin_edges;
  let kld := kld_of_counts hist_counts recent_counts in
  let drift_detected := gtb kld (of_Q (threshold self)) in
  Return (drift_detected, kld).

End KLDivergence.

(** ** The detectors of [categorical_data.py] *)

Module ChiSquaredTest.

Record t : Type := {
  historical_data : Pandas.DataFrame;
  recent_data : Pandas.DataFrame;
  alpha : Q
}.

Definition new (historical_data recent_data : Pandas.DataFrame) : t :=
  {| historical_data := historical_data;
     recent_data := recent_data;
     alpha := 5 # 100 |}.

Definition detect_drift `{SciPy} (self : t) (column_name : string)
  : result (bool * xreal) :=
  hist_column ← Pandas.getitem (historical_data self) column_name;
  recent_column ← Pandas.getitem (recent_data self) column_name;
  let contingency_table := Pandas.crosstab hist_column recent_column in
  '(_, p_value) ← Scipy.chi2_contingency contingency_table;
  let drift_detected := ltb p_value (of_Q (alpha self)) in
  Return (drift_detected, p_value).

End ChiSquaredTest.

Module CramersVTest.

Record t : Type := {
  historical_data : Pandas.DataFrame;
  recent_data : Pandas.DataFrame;
  alpha : Q
}.

Definition new (historical_data recent_data : Pandas.DataFrame) : t :=
  {| historical_data := historical_data;
     recent_data := recent_data;
     alpha := 5 # 100 |}.

(** [min(contingency_table.shape)] *)
Definition min_shape (table : list (list Z)) : Z :=
  Z.min (Z.of_nat (length table))
        (match table with [] => 0 | r :: _ => Z.of_nat (length r) end).

Definition detect_drift `{SciPy} (self : t) (column_name : string)
  : result (bool * xreal) :=
  hist_column ← Pandas.getitem (historical_data self) column_name;
  recent_column ← Pandas.getitem (recent_data self) column_name;
  let contingency_table := Pandas.crosstab hist_column recent_column in
  '(chi2, p_value) ← Scipy.chi2_contingency contingency_table;
  let n := Numpy.Zsum (map Numpy.Zsum contingency_table) in
  let min_dim := min_shape contingency_table in
  let cramer_v := Float64.sqrt (div chi2 (of_Z (n * (min_dim - 1)))) in
  let drift_detected := ltb p_value (of_Q (alpha self)) in
  Return (drift_detected, cramer_v).

End CramersVTest.

(** ** The dispatcher of [drift_detectors/__init__.py] *)

(** An instance of one of the seven detector classes. *)
Inductive detector : Type :=
| IsZTest (d : ZTest.t)
| IsPSICalculator (d : PSICalculator.t)
| IsChiSquaredTest (d : ChiSquaredTest.t)
| IsCramersVTest (d : CramersVTest.t)
| IsKSTest (d : KSTest.t)
| IsCUSUM (d : CUSUM.t)
| IsKLDivergence (d : KLDivergence.t).

(** A detector class, as the callable that builds an instance from the
    two frames. *)
Abbreviation detector_class :=
  (Pandas.DataFrame -> Pandas.DataFrame -> detector) (only parsing).

(** The dictionary [detectors]. *)
Definition detectors : gmap string detector_class :=
  list_to_map
    [ ("z_test", fun h r => IsZTest (ZTest.new h r));
      ("psi_calculator", fun h r => IsPSICalculator (PSICalculator.new h r));
      ("chi_squared_test", fun h r => IsChiSquaredTest (ChiSquaredTest.new h r));
      ("cramers_v_test", fun h r => IsCramersVTest (CramersVTest.new h r));
      ("ks_test", fun h r => IsKSTest (KSTest.new h r));
      ("cusum", fun h r => IsCUSUM (CUSUM.new h r));
      ("kl_divergence", fun h r => IsKLDivergence (KLDivergence.new h r)) ].

Definition get_drift_detector (detector_name : string)
  (historical_data recent_data : Pandas.DataFrame) : result detector :=
  match detectors !! detector_name with
  | None =>
      Raise (ValueError ("Handler does not exist: " +:+ detector_name))
  | Some detector_class =>
      Return (detector_class historical_data recent_data)
  end.

(** The statistic a detector hands back: a float for six of the classes,
    the list of crossing positions for CUSUM. *)
Inductive statistic : Type :=
| Float (x : xreal)
| Indices (l : list nat).

Definition as_statistic {A : Type} (f : A -> statistic)
  (r : result (bool * A)) : result (bool * statistic) :=
  match r with
  | Return (drift_detected, stat) => Return (drift_detected, f stat)
  | Raise e => Raise e
  end.

(** [drift_detector.detect_drift(column_name)], by the class of the
    instance. *)
Definition detect_drift `{SciPy} (d : detector) (column_name : string)
  : result (bool * statistic) :=
  match d with
  | IsZTest d => as_statistic Float (ZTest.detect_drift d column_name)
  | IsPSICalculator d =>
      as_statistic Float (PSICalculator.detect_drift d column_name)
  | IsChiSquaredTest d =>
      as_statistic Float (ChiSquaredTest.detect_drift d column_name)
  | IsCramersVTest d =>
      as_statistic Float (CramersVTest.detect_drift d column_name)
  | IsKSTest d => as_statistic Float (KSTest.detect_drift d column_name)
  | IsCUSUM d => as_statistic Indices (CUSUM.detect_drift d column_name)
  | IsKLDivergence d =>
      as_statistic Float (KLDivergence.detect_drift d column_name)
  end.

(** The parameters an instance carries, by name. *)
Definition parameters (d : detector) : list (string * Q) :=
  match d with
  | IsZTest d => [("alpha", ZTest.alpha d)]
  | IsPSICalculator d =>
      [("bins", inject_Z (PSICalculator.bins d));
       ("epsilon", PSICalculator.epsilon d);
       ("threshold", PSICalculator.threshold d)]
  | IsChiSquaredTest d => [("alpha", ChiSquaredTest.alpha d)]
  | IsCramersVTest d => [("alpha", CramersVTest.alpha d)]
  | IsKSTest d => [("alpha", KSTest.alpha d)]
  | IsCUSUM d => [("threshold", CUSUM.threshold d)]
  | IsKLDivergence d =>
      [("num_bins", inject_Z (KLDivergence.num_bins d));
       ("threshold", KLDivergence.threshold d)]
  end.

(** ** The orchestrator of [load/main.py] *)

(** The entries of [config["drift_detection"]["tables"]]. *)
Module Config.

(** Modelled from the spec: the file [config.toml] that holds the
    configuration is not among the sources.  A column entry is the
    per-column configuration of the specification: column name, test
    method identifier, and method-specific parameters (significance level,
    bin count, epsilon, threshold) by name.  The code reads
    [column["name"]] and [column["method"]]. *)
Record column : Type := {
  name : string;
  method : string;
  parameters : list (string * Q)
}.

(** A table entry, of which the code reads [table["current_table"]] and
    [table["columns"]]. *)
Record table : Type := {
  current_table : string;
  columns : list column
}.

End Config.

(** What a monitoring run finds outside itself: the CSV files by path,
    and the random source, whose [k]-th draw of [size] positions out of
    [population] is [choice k population size]. *)
Record World : Type := {
  files : string -> result Pandas.csv;
  choice : nat -> nat -> nat -> list nat
}.

Definition report : Type := gmap string (gmap string (bool * statistic)).

Inductive log_record : Type :=
| Started
| StartedTable (current_table : string)
| StartedColumn (name : string)
| DriftStatus (drift_status : report).

(** The local variables of [drift_monitoring], the log sink, and the
    number of draws taken from the random source. *)
Record run : Type := {
  drift_status : report;
  tables : list string;
  columns : list string;
  status_list : list bool;
  stat_list : list statistic;
  log : list log_record;
  draws : nat
}.

Definition initial : run :=
  {| drift_status := ∅; tables := []; columns := []; status_list := [];
     stat_list := []; log := []; draws := 0 |}.

(** A step of the run: it changes the state and returns or raises. *)
Definition M (A : Type) : Type := run -> run * result A.

#[global] Instance M_ret : MRet M := fun A a st => (st, Return a).
#[global] Instance M_bind : MBind M := fun A B k m st =>
  match m st with
  | (st', Return a) => k a st'
  | (st', Raise e) => (st', Raise e)
  end.

Definition call {A : Type} (r : result A) : M A := fun st => (st, r).

Definition modify (f : run -> run) : M unit := fun st => (f st, Return tt).

Definition get : M run := fun st => (st, Return st).

Definition with_drift_status (f : report -> report) (st : run) : run :=
  {| drift_status := f (drift_status st); tables := tables st;
     columns := columns st; status_list := status_list st;
     stat_list := stat_list st; log := log st; draws := draws st |}.

Definition info (r : log_record) : M unit :=
  modify (fun st =>
    {| drift_status := drift_status st; tables := tables st;
       columns := columns st; status_list := status_list st;
       stat_list := stat_list st; log := log st ++ [r]; draws := draws st |}).

Definition tables_append (x : string) : M unit :=
  modify (fun st =>
    {| drift_status := drift_status st; tables := tables st ++ [x];
       columns := columns st; status_list := status_list st;
       stat_list := stat_list st; log := log st; draws := draws st |}).

(** The three appends that close the body of the column loop. *)
Definition lists_append (c : string) (d : bool) (s : statistic) : M unit :=
  modify (fun st =>
    {| drift_status := drift_status st; tables := tables st;
       columns := columns st ++ [c]; status_list := status_list st ++ [d];
       stat_list := stat_list st ++ [s]; log := log st; draws := draws st |}).

(** [pd.read_csv(path)] *)
Definition read_csv (w : World) (path : string) : M Pandas.DataFrame :=
  call (c ← files w path; Return (Pandas.from_csv c)).

(** [initial_table.sample(frac=0.8)], which takes one draw. *)
Definition sample (w : World) (frac : Q) (df : Pandas.DataFrame)
  : M Pandas.DataFrame :=
  fun st =>
    ({| drift_status := drift_status st; tables := tables st;
        columns := columns st; status_list := status_list st;
        stat_list := stat_list st; log := log st; draws := S (draws st) |},
     Return (Pandas.sample (choice w (draws st)) frac df)).

(** [if np.isnan(stat) | np.isinf(stat)].  On a float the test is the
    disjunction.  On a list numpy answers with an array of booleans, all
    False for integers, and the [if] asks for its truth value: that of its
    element for one element, False for none, an error for more. *)
Definition isnan_or_isinf (stat : statistic) : result bool :=
  match stat with
  | Float x => Return (isnan x || isinf x)
  | Indices [] | Indices [_] => Return false
  | Indices _ =>
      Raise (ValueError
        "The truth value of an array with more than one element is ambiguous")
  end.

(** [drift_status[table].update({column: value})] *)
Definition status_update (table column : string) (value : bool * statistic)
  : M unit :=
  fun st =>
    match drift_status st !! table with
    | None => (st, Raise (KeyError table))
    | Some entry =>
        (with_drift_status (<[table := <[column := value]> entry]>) st,
         Return tt)
    end.

Fixpoint for_each {A : Type} (body : A -> M unit) (l : list A) : M unit :=
  match l with
  | [] => mret tt
  | x :: l' => body x ≫= fun _ => for_each body l'
  end.

(** The body of [for column in table["columns"]].  The replacement value
    of an invalid statistic is the integer 0 of the source, which Python
    holds equal to the float 0.0; the model has the one zero. *)
Definition column_body `{SciPy} (table : Config.table)
  (historical_data current_data : Pandas.DataFrame) (column : Config.column)
  : M unit :=
  tables_append (Config.current_table table);;
  drift_detector ← call (get_drift_detector (Config.method column)
                           historical_data current_data);
  info (StartedColumn (Config.name column));;
  '(drift_detected, stat) ← call (detect_drift drift_detector
                                    (Config.name column));
  invalid ← call (isnan_or_isinf stat);
  let stat := if invalid : bool then Float (Fin 0) else stat in
  status_update (Config.current_table table) (Config.name column)
    (drift_detected, stat);;
  lists_append (Config.name column) drift_detected stat.

(** The body of [for table in config["drift_detection"]["tables"]]. *)
Definition table_body `{SciPy} (w : World) (table : Config.table) : M unit :=
  modify (with_drift_status (<[Config.current_table table := ∅]>));;
  info (StartedTable (Config.current_table table));;
  initial_table ← read_csv w (Config.current_table table);
  historical_data ← sample w (8 # 10) initial_table;
  current_data ← call (Pandas.drop (Pandas.index historical_data) initial_table);
  for_each (column_body table historical_data current_data)
    (Config.columns table).

(** [drift_monitoring()]; [config] is the list
    [config["drift_detection"]["tables"]] that the module loads when it is
    imported. *)
Definition drift_monitoring `{SciPy} (w : World) (config : list Config.table)
  : M unit :=
  info Started;;
  for_each (table_body w) config;;
  st ← get;
  info (DriftStatus (drift_status st)).

(** ** Vocabulary of the statements *)

(** The method identifiers the specification lists. *)
Definition method_identifiers : list string :=
  ["z_test"; "psi_calculator"; "chi_squared_test"; "cramers_v_test";
   "ks_test"; "cusum"; "kl_divergence"].

(** [msg] contains [identifier]. *)
Definition mentions (msg identifier : string) : Prop :=
  exists before after, msg = before +:+ identifier +:+ after.

(** The default of a detector parameter, by name. *)
Definition parameter_default (p : string) : option Q :=
  if decide (p = "alpha") then Some (5 # 100)
  else if decide (p = "bins") then Some (inject_Z 10)
  else if decide (p = "num_bins") then Some (inject_Z 10)
  else if decide (p = "epsilon") then Some (1 # 100000)
  else if decide (p = "threshold") then Some (1 # 10)
  else None.

(** A column entry overrides the defaults of an instance when every
    parameter it configures, and the instance has, is carried by the
    instance with the configured value. *)
Definition overrides_defaults (column : Config.column) (d : detector) : Prop :=
  forall p v,
    (p, v) ∈ Config.parameters column ->
    p ∈ map fst (parameters d) ->
    (p, v) ∈ parameters d.

(** A statistic that is a finite float. *)
Definition finite_statistic (s : statistic) : Prop :=
  exists r : R, s = Float (Fin r).

(** Every statistic of a report is a finite float. *)
Definition finite_report (ds : report) : Prop :=
  map_Forall (fun _ entry =>
    map_Forall (fun _ (v : bool * statistic) => finite_statistic (snd v)) entry)
    ds.

(** What the orchestrator stores for a float statistic. *)
Definition sanitized (x : xreal) : xreal :=
  if isnan x || isinf x then Fin 0 else x.

(** No drift status has been emitted to the log. *)
Definition is_drift_status (r : log_record) : bool :=
  match r with DriftStatus _ => true | _ => false end.

Definition report_emitted (st : run) : bool := existsb is_drift_status (log st).

(** What the random source owes its caller: [size] distinct positions
    below [population]. *)
Definition without_replacement (population size : nat) (locs : list nat)
  : Prop :=
  NoDup locs /\ Forall (fun i => (i < population)%nat) locs
  /\ length locs = size.

(** ** Binned distributions, as the specification words them *)

(** The lower edge of the [i]-th of [B] equal-width bins over
    [lo, hi]. *)
Definition bin_edge (lo hi : Q) (B : nat) (i : nat) : Q :=
  (lo + inject_Z (Z.of_nat i) * ((hi - lo) / inject_Z (Z.of_nat B)))%Q.

(** [x] falls in the [i]-th bin: from its lower edge (included) to the
    lower edge of the next bin (excluded); the last bin includes the upper
    end [hi] of the range. *)
Definition in_bin (lo hi : Q) (B : nat) (i : nat) (x : Q) : bool :=
  Qle_bool (bin_edge lo hi B i) x &&
  (if (S i =? B)%nat then Qle_bool x hi
   else Numpy.Qltb x (bin_edge lo hi B (S i))).

(** The number of values of a sample in each of the [B] bins. *)
Definition equal_width_counts (lo hi : Q) (B : nat) (a : list Q) : list Z :=
  map (fun i => Numpy.count (in_bin lo hi B i) a) (seq 0 B).

Definition Rsum (l : list R) : R := fold_right Rplus 0%R l.


(** A vector of weights divided by its total. *)
Definition normalized (l : list R) : list R :=
  map (fun c => (c / Rsum l)%R) l.


(** KL(p || q) = sum of p * ln (p / q), a bin without mass in [p]
    contributing 0. *)
Definition kl_formula (p q : list R) : R :=
  Rsum (zip_with (fun x y =>
                    if Req_dec_T x 0 then 0%R else (x * ln (x / y))%R) p q).

(** Two masses of the same bin. *)
Definition nonneg_pair (x y : R) : Prop := (0 <= x /\ 0 <= y)%R.

(** The bins that hold a value of the sample (the support of its binned
    distribution) are those with a positive count; the support of
    [counts] is within that of [counts'] when every bin with a value in
    the first has one in the second. *)
Definition support_within (counts counts' : list Z) : Prop :=
  Forall2 (fun c c' => 0 < c -> 0 < c') counts counts'.

#[global] Instance support_within_dec (counts counts' : list Z) :
  Decision (support_within counts counts') :=
  Forall2_dec (fun c c' => 0 < c -> 0 < c') counts counts'.

(** ** Concrete settings for the examples *)

(** An instance of the SciPy interface: a KS test without a p-value
    (NaN), the identity for the normal CDF and quantile, and a chi-squared
    test that answers (0, 1). *)
Definition example_scipy : SciPy :=
  {| ks_2samp := fun _ _ => Return (Fin 0, NaN);
     norm_cdf := fun x => x;
     norm_ppf := fun x => x;
     chi2_contingency_table := fun _ => Return (Fin 0, Fin 1);
     ks_2samp_nonempty := fun _ _ _ _ => ex_intro _ (Fin 0, NaN) eq_refl |}.

(** A file of five records with the column [amount]. *)
Definition orders_csv : Pandas.csv :=
  {| Pandas.header := ["amount"];
     Pandas.records :=
       map (fun q : Q => {[ "amount" := Pandas.Num q ]})
           [1; 2; 3; 4; 5]%Q |}.

(** A world that holds [orders.csv] only, and whose random source draws
    the first positions. *)
Definition example_world : World :=
  {| files := fun path =>
       if decide (path = "orders.csv") then Return orders_csv
       else Raise (FileNotFoundError path);
     choice := fun _ _ size => seq 0 size |}.

Definition ks_column : Config.column :=
  {| Config.name := "amount"; Config.method := "ks_test";
     Config.parameters := [] |}.

(** A column entry that asks for PSI with a threshold of 0.5. *)
Definition psi_column_half : Config.column :=
  {| Config.name := "amount";
     Config.method := "psi_calculator";
     Config.parameters := [("threshold", 1 # 2)] |}.

Definition orders_table : Config.table :=
  {| Config.current_table := "orders.csv"; Config.columns := [ks_column] |}.

Definition missing_table : Config.table :=
  {| Config.current_table := "missing.csv"; Config.columns := [ks_column] |}.

(** A small frame with one numeric column, used in the examples. *)
Definition frame_of (column_name : string) (labelled : list (Z * Q))
  : Pandas.DataFrame :=
  {| Pandas.columns := [column_name];
     Pandas.rows :=
       map (fun r => (fst r, {[ column_name := Pandas.Num (snd r) ]})) labelled |}.

(** Two frames with disjoint row labels over the column [amount]. *)
Definition amount_historical : Pandas.DataFrame :=
  frame_of "amount" [(0, 1%Q); (1, 2%Q)].

Definition amount_recent : Pandas.DataFrame :=
  frame_of "amount" [(2, 3%Q)].

(** A historical column at 0 and a recent value of 5: a shift of the
    mean far beyond the default CUSUM threshold. *)
Definition shift_historical : Pandas.DataFrame :=
  frame_of "amount" [(0, 0%Q); (1, 0%Q)].

Definition shift_recent : Pandas.DataFrame :=
  frame_of "amount" [(2, 5%Q)].

(** A single-valued column, present in both frames. *)
Definition constant_historical : Pandas.DataFrame :=
  frame_of "amount" [(0, 7%Q); (1, 7%Q)].

Definition constant_recent : Pandas.DataFrame :=
  frame_of "amount" [(2, 7%Q)].

(** A frame that has the column and no row: the recent slice of a table
    of one or two rows. *)
Definition empty_recent : Pandas.DataFrame :=
  frame_of "amount" [].




(** ** Proof automation *)

(** Case analysis on the next call of a block of sequenced calls. *)
Ltac next_call :=
  match goal with
  | |- context [Py.bind ?r _] =>
      let E := fresh "E" in destruct r eqn:E; simpl
  end.

(** Case analysis on the comparisons of a goal. *)
Ltac compare_cases :=
  unfold Numpy.Qltb;
  repeat match goal with
         | |- context [Qle_bool ?a ?b] =>
             let E := fresh "E" in
             destruct (Qle_bool a b) eqn:E;
             [apply Qle_bool_iff in E
             | assert (b < a)%Q
                 by (apply Qnot_le_lt; intros Hle;
                     apply Qle_bool_iff in Hle; congruence);
               clear E]
         end;
  simpl; try reflexivity; try lra.

(** ** Vocabulary of the further properties *)

(** The two frames an instance was built from. *)
Definition historical_of (d : detector) : Pandas.DataFrame :=
  match d with
  | IsZTest d => ZTest.historical_data d
  | IsPSICalculator d => PSICalculator.historical_data d
  | IsChiSquaredTest d => ChiSquaredTest.historical_data d
  | IsCramersVTest d => CramersVTest.historical_data d
  | IsKSTest d => KSTest.historical_data d
  | IsCUSUM d => CUSUM.historical_data d
  | IsKLDivergence d => KLDivergence.historical_data d
  end.

Definition recent_of (d : detector) : Pandas.DataFrame :=
  match d with
  | IsZTest d => ZTest.recent_data d
  | IsPSICalculator d => PSICalculator.recent_data d
  | IsChiSquaredTest d => ChiSquaredTest.recent_data d
  | IsCramersVTest d => CramersVTest.recent_data d
  | IsKSTest d => KSTest.recent_data d
  | IsCUSUM d => CUSUM.recent_data d
  | IsKLDivergence d => KLDivergence.recent_data d
  end.

(** [x] is within the closed range from [lo] to [hi]. *)
Definition within (lo hi : Q) (x : Q) : bool := Qle_bool lo x && Qle_bool x hi.

(** The methods whose detector can return on the two slices of a
    table. *)
Definition returning_methods : list string :=
  ["z_test"; "psi_calculator"; "ks_test"; "kl_divergence"].

(** The column [column_name] of a frame holds numbers only. *)
Definition numeric_column (df : Pandas.DataFrame) (column_name : string)
  : Prop :=
  column_name ∈ Pandas.columns df
  /\ Forall (fun r => exists q, snd r !!! column_name = Pandas.Num q)
       (Pandas.rows df).

(** The methods that bin the two samples. *)
Definition binned_methods : list string := ["psi_calculator"; "kl_divergence"].

(** A table entry that asks for PSI on the column [amount] of
    [orders.csv]. *)
Definition orders_psi_table : Config.table :=
  {| Config.current_table := "orders.csv";
     Config.columns := [psi_column_half] |}.

(** ** The logging set-up of [utils/logging] *)

(** A value of a TOML document, as far as the set-up reads one: a string,
    an array or a table.  (Numbers, booleans and dates are outside the
    model.) *)
Module Toml.

#[warnings="-register-all"] Inductive value : Type :=
| Str (s : string)
| Array (l : list value)
| Table (t : list (string * value)).

(** The value of [key] in the items of a table. *)
Fixpoint assoc (key : string) (t : list (string * value)) : option value :=
  match t with
  | [] => None
  | (k, v) :: t' => if decide (k = key) then Some v else assoc key t'
  end.

(** [d[key]] for a key that is a string: a dict looks the key up, a
    string or a list refuses it. *)
Definition getitem (d : value) (key : string) : result value :=
  match d with
  | Table t =>
      match assoc key t with
      | Some v => Return v
      | None => Raise (KeyError key)
      end
  | Str _ => Raise (TypeError "string indices must be integers")
  | Array _ =>
      Raise (TypeError "list indices must be integers or slices, not str")
  end.

(** [d[k]] for a key that is itself read from the document: a list or a
    dict is no key and no index. *)
Definition getitem_value (d k : value) : result value :=
  match k with
  | Str key => getitem d key
  | Array _ =>
      match d with
      | Table _ => Raise (TypeError "unhashable type: 'list'")
      | Str _ => Raise (TypeError "string indices must be integers")
      | Array _ =>
          Raise (TypeError "list indices must be integers or slices, not list")
      end
  | Table _ =>
      match d with
      | Table _ => Raise (TypeError "unhashable type: 'dict'")
      | Str _ => Raise (TypeError "string indices must be integers")
      | Array _ =>
          Raise (TypeError "list indices must be integers or slices, not dict")
      end
  end.

(** The elements a [for] loop takes from a value: the elements of a
    list, the keys of a dict, the characters of a string. *)
Definition iterate (v : value) : list value :=
  match v with
  | Array l => l
  | Table t => map (fun kv => Str (fst kv)) t
  | Str s => map (fun c => Str (String c EmptyString)) (list_ascii_of_string s)
  end.

End Toml.

(** loguru's [logger], as the list of the handlers it holds, in the order
    they were added. *)
Module Loguru.

Inductive target : Type :=
| Stdout
| File (path : Toml.value).

(** The arguments of one call of [logger.add]. *)
Record sink : Type := {
  sink_target : target;
  format : Toml.value;
  level : Toml.value;
  rotation : option Toml.value;
  retention : option Toml.value
}.

End Loguru.

(** [logger.add] checks its arguments (the level must exist, the format
    must be a string, the file must open) before it registers the
    handler; what it accepts is not modelled here. *)
Class LoguruChecks : Type := {
  add_checks : Loguru.sink -> result unit
}.

Module Logging.

(** A step of the set-up: it changes the handlers of the logger and
    returns or raises. *)
Definition L (A : Type) : Type := list Loguru.sink -> list Loguru.sink * result A.

(** [logger.add(...)] *)
Definition add `{LoguruChecks} (s : Loguru.sink) : L unit := fun handlers =>
  match add_checks s with
  | Return _ => (handlers ++ [s], Return tt)
  | Raise e => (handlers, Raise e)
  end.

(** [logger.remove()]: every handler is removed. *)
Definition remove : L unit := fun _ => ([], Return tt).

(** An instance of one of the two handler classes; [BaseHandler.__init__]
    keeps the configuration. *)
Inductive handler : Type :=
| ConsoleHandler (config : Toml.value)
| FileHandler (config : Toml.value).

(** [self.config["logging"][section][key]] *)
Definition setting (config : Toml.value) (section key : string)
  : result Toml.value :=
  logging ← Toml.getitem config "logging";
  section ← Toml.getitem logging section;
  Toml.getitem section key.

(** [self.config["logging"]["formats"][self.config["logging"][section]["format"]]]:
    the table of the formats is looked up first, then the name of the
    format, then the format under that name. *)
Definition selected_format (config : Toml.value) (section : string)
  : result Toml.value :=
  logging ← Toml.getitem config "logging";
  formats ← Toml.getitem logging "formats";
  name ← setting config section "format";
  Toml.getitem_value formats name.

(** The arguments of the call of [logger.add] in [ConsoleHandler.setup],
    in the order the method reads them from the configuration. *)
Definition console_arguments (config : Toml.value) : result Loguru.sink :=
  selected_format ← selected_format config "console";
  level ← setting config "console" "level";
  Return {| Loguru.sink_target := Loguru.Stdout;
            Loguru.format := selected_format;
            Loguru.level := level;
            Loguru.rotation := None;
            Loguru.retention := None |}.

(** The same for [FileHandler.setup]. *)
Definition file_arguments (config : Toml.value) : result Loguru.sink :=
  selected_format ← selected_format config "file";
  level ← setting config "file" "level";
  path ← setting config "file" "path";
  rotation ← setting config "file" "rotation";
  retention ← setting config "file" "retention";
  Return {| Loguru.sink_target := Loguru.File path;
            Loguru.format := selected_format;
            Loguru.level := level;
            Loguru.rotation := Some rotation;
            Loguru.retention := Some retention |}.

(** [handler.setup()], by the class of the handler. *)
Definition setup `{LoguruChecks} (h : handler) : L unit := fun handlers =>
  let arguments :=
    match h with
    | ConsoleHandler config => console_arguments config
    | FileHandler config => file_arguments config
    end in
  match arguments with
  | Return s => add s handlers
  | Raise e => (handlers, Raise e)
  end.

(** The dictionary [handlers] of [get_handler]. *)
Definition handlers : gmap string (Toml.value -> handler) :=
  list_to_map [("console", ConsoleHandler); ("file", FileHandler)].

Definition get_handler (handler_name : string) (config : Toml.value)
  : result handler :=
  match handlers !! handler_name with
  | None => Raise (ValueError ("Handler does not exist: " +:+ handler_name))
  | Some handler_class => Return (handler_class config)
  end.

(** [get_handler(logger_name, config)] for a name taken from the
    document: a list or a dict cannot be looked up in a dict. *)
Definition get_handler_value (logger_name : Toml.value) (config : Toml.value)
  : result handler :=
  match logger_name with
  | Toml.Str handler_name => get_handler handler_name config
  | Toml.Array _ => Raise (TypeError "unhashable type: 'list'")
  | Toml.Table _ => Raise (TypeError "unhashable type: 'dict'")
  end.

(** The loop [for logger_name in selected_loggers]. *)
Fixpoint setup_handlers `{LoguruChecks} (config : Toml.value)
  (selected_loggers : list Toml.value) : L unit := fun handlers =>
  match selected_loggers with
  | [] => (handlers, Return tt)
  | logger_name :: rest =>
      match get_handler_value logger_name config with
      | Raise e => (handlers, Raise e)
      | Return handler =>
          match setup handler handlers with
          | (handlers', Return _) => setup_handlers config rest handlers'
          | (handlers', Raise e) => (handlers', Raise e)
          end
      end
  end.

(** [setup_logging(config_path, current_dir)]; [load] is the outcome of
    opening and parsing the configuration file. *)
Definition setup_logging `{LoguruChecks} (load : result Toml.value) : L unit :=
  fun handlers =>
    match load with
    | Raise e => (handlers, Raise e)
    | Return config =>
        let '(handlers, _) := remove handlers in
        match (selection ← Toml.getitem config "loggers_selection";
               Toml.getitem selection "loggers") with
        | Raise e => (handlers, Raise e)
        | Return selected_loggers =>
            setup_handlers config (Toml.iterate selected_loggers) handlers
        end
    end.

End Logging.

(** A configuration that selects the console, and an instance of loguru
    that accepts every handler. *)
Definition console_config : Toml.value :=
  Toml.Table
    [ ("loggers_selection",
       Toml.Table [("loggers", Toml.Array [Toml.Str "console"])]);
      ("logging",
       Toml.Table
         [ ("formats", Toml.Table [("simple", Toml.Str "{message}")]);
           ("console",
            Toml.Table [("format", Toml.Str "simple");
                        ("level", Toml.Str "INFO")]) ]) ].

(** The same configuration with a second, misspelt logger selected. *)
Definition misspelt_config : Toml.value :=
  Toml.Table
    [ ("loggers_selection",
       Toml.Table
         [("loggers", Toml.Array [Toml.Str "console"; Toml.Str "consol"])]);
      ("logging",
       Toml.Table
         [ ("formats", Toml.Table [("simple", Toml.Str "{message}")]);
           ("console",
            Toml.Table [("format", Toml.Str "simple");
                        ("level", Toml.Str "INFO")]) ]) ].

Definition example_loguru : LoguruChecks :=
  {| add_checks := fun _ => Return tt |}.

(** The name of the handler class that adds a sink: the console handler
    writes to the standard output, the file handler to a file. *)
Definition sink_handler (s : Loguru.sink) : string :=
  match Loguru.sink_target s with
  | Loguru.Stdout => "console"
  | Loguru.File _ => "file"
  end.

(** ** The schemas of [extract/data_validation.py] *)

(** Whether the module [pandera] has an attribute of a given name, and
    whether the evaluation of an expression raises (and what); neither is
    modelled here. *)
Class Pandera : Type := {
  hasattr : string -> bool;
  eval_raises : string -> option exn
}.

Module Schema.

(** The configuration of a field, as [from_config] reads it: the keys
    [type], [checks] and [coerce], each of which may be missing; the
    values are strings, and a boolean for [coerce]. *)
Record field_config : Type := {
  type : option string;
  checks : option string;
  coerce : option bool
}.

(** The table [config["schemas"]]: the fields of every schema, in the
    order of the file. *)
Definition schemas : Type := list (string * list (string * field_config)).

Fixpoint assoc {A : Type} (key : string) (t : list (string * A)) : option A :=
  match t with
  | [] => None
  | (k, v) :: t' => if decide (k = key) then Some v else assoc key t'
  end.

(** The data type of a column: an attribute of the module, or the value
    of the expression that instantiates one. *)
Inductive pandera_type : Type :=
| Attribute (name : string)
| Instance (expression : string).

(** The variable [check_expr] of a call of [from_config] is a cell that
    the lambda of every check of that call refers to: the lambda reads
    the cell when it is called, not when it is made.  A store holds the
    cell of every call. *)
Abbreviation store := (list (option string)) (only parsing).

(** [pa.Check(lambda x: eval(check_expr), error=..., element_wise=True)]:
    the lambda, by the cell it reads, and the error message. *)
Record Check : Type := {
  fn : nat;
  error : string;
  element_wise : bool
}.

Record Column : Type := {
  dtype : pandera_type;
  column_checks : list Check;
  column_coerce : bool
}.

Record DataFrameSchema : Type := {
  fields : list (string * Column)
}.

(** The [try] block: the type named by the configuration. *)
Definition pandera_type_of `{Pandera} (field : field_config)
  : result pandera_type :=
  match type field with
  | None => Raise (KeyError "type")
  | Some type =>
      if String.prefix "Datetime" type
      then
        match eval_raises ("pa." +:+ type +:+ "()") with
        | None => Return (Instance ("pa." +:+ type +:+ "()"))
        | Some (AttributeError _) =>
            Raise (ValueError ("Invalid type specified: " +:+ type))
        | Some e => Raise e
        end
      else
        if hasattr type then Return (Attribute type)
        else Raise (ValueError ("Invalid type specified: " +:+ type))
  end.

(** The loop [for field_name, field_config in schema_config.items()] of
    the call whose cell is [frame]. *)
Fixpoint fields_loop `{Pandera} (frame : nat)
  (items : list (string * field_config)) (cells : store)
  (fields : list (string * Column))
  : store * result (list (string * Column)) :=
  match items with
  | [] => (cells, Return fields)
  | (field_name, field) :: items' =>
      match pandera_type_of field with
      | Raise e => (cells, Raise e)
      | Return pandera_type =>
          let '(cells, checks) :=
            match checks field with
            | Some check_expr =>
                (<[frame := Some check_expr]> cells,
                 [ {| fn := frame;
                      error := "Check failed: " +:+ check_expr;
                      element_wise := true |} ])
            | None => (cells, [])
            end in
          let coerce := default false (coerce field) in
          fields_loop frame items' cells
            (fields ++ [(field_name,
                         {| dtype := pandera_type;
                            column_checks := checks;
                            column_coerce := coerce |})])
      end
  end.

(** [DynamicSchema.from_config(schema_name)] *)
Definition from_config `{Pandera} (config : schemas) (schema_name : string)
  (cells : store) : store * result DataFrameSchema :=
  match assoc schema_name config with
  | None => (cells, Raise (KeyError schema_name))
  | Some schema_config =>
      match fields_loop (length cells) schema_config (cells ++ [None]) [] with
      | (cells', Return fields) => (cells', Return {| fields := fields |})
      | (cells', Raise e) => (cells', Raise e)
      end
  end.

(** The expression a check evaluates when it is called. *)
Definition evaluated (cells : store) (check : Check) : option string :=
  mjoin (cells !! fn check).

(** The expressions of the checks a schema configures, in the order of
    its fields. *)
Definition configured_checks (items : list (string * field_config))
  : list string :=
  omap (fun item => checks (snd item)) items.

End Schema.

(** An instance of the interface in which every type exists, and a
    schema of two fields with a check each. *)
Definition example_pandera : Pandera :=
  {| hasattr := fun _ => true; eval_raises := fun _ => None |}.

Definition payments_schemas : Schema.schemas :=
  [ ("pays",
     [ ("total",
        {| Schema.type := Some "Float"; Schema.checks := Some "x >= 0";
           Schema.coerce := None |});
       ("user_id",
        {| Schema.type := Some "Int"; Schema.checks := Some "x < 100000";
           Schema.coerce := Some true |}) ]) ].

(** The schema that [from_config] returns for [pays]. *)
Definition payments_schema : Schema.DataFrameSchema :=
  {| Schema.fields :=
       [ ("total",
          {| Schema.dtype := Schema.Attribute "Float";
             Schema.column_checks :=
               [ {| Schema.fn := 0;
                    Schema.error := "Check failed: x >= 0";
                    Schema.element_wise := true |} ];
             Schema.column_coerce := false |});
         ("user_id",
          {| Schema.dtype := Schema.Attribute "Int";
             Schema.column_checks :=
               [ {| Schema.fn := 0;
                    Schema.error := "Check failed: x < 100000";
                    Schema.element_wise := true |} ];
             Schema.column_coerce := true |}) ] |}.

(** ** The pipeline of [src/main.py] *)

Module Pipeline.

(** The stages [main] calls before the drift monitoring: the readers of
    [extract], the merge and the metrics of [transform], and the writing of
    a frame to a file.  Each may raise; what they compute is not modelled
    here. *)
Class Stages : Type := {
  reader : Type;
  reader_factory : string -> result reader;
  read_data : reader -> result Pandas.DataFrame;
  (** [df.to_csv(path, index=index)] *)
  to_csv : Pandas.DataFrame -> string -> bool -> result unit;
  (** [DataMerger(prints, taps, pays).merge()] *)
  merge : Pandas.DataFrame -> Pandas.DataFrame -> Pandas.DataFrame
          -> result Pandas.DataFrame;
  (** [BusinessMetrics(merged_df).calculate_metrics()] *)
  calculate_metrics : Pandas.DataFrame -> result Pandas.DataFrame
}.

(** The lines [main] writes to the log. *)
Inductive message : Type :=
| Processing (source : string)
| Loaded (source : string) (rows columns : Z)
| Failed (source : string) (e : exn)
| Traceback (e : exn)
| Saved (output_path : string)
| MetricsSaved (output_path : string).

(** The dictionary [dataframes] (in the order of insertion), the files
    written, the log, and the state of the drift monitoring once it has
    been started. *)
Record state : Type := {
  dataframes : list (string * Pandas.DataFrame);
  written : list (string * Pandas.DataFrame);
  messages : list message;
  monitoring : option run
}.

Definition start : state :=
  {| dataframes := []; written := []; messages := []; monitoring := None |}.

Definition info (m : message) (st : state) : state :=
  {| dataframes := dataframes st; written := written st;
     messages := messages st ++ [m]; monitoring := monitoring st |}.

(** [dataframes[source] = data] *)
Fixpoint setitem (source : string) (data : Pandas.DataFrame)
  (d : list (string * Pandas.DataFrame)) : list (string * Pandas.DataFrame) :=
  match d with
  | [] => [(source, data)]
  | (k, v) :: d' =>
      if decide (k = source) then (k, data) :: d'
      else (k, v) :: setitem source data d'
  end.

(** [dataframes[source]] *)
Fixpoint getitem (d : list (string * Pandas.DataFrame)) (source : string)
  : result Pandas.DataFrame :=
  match d with
  | [] => Raise (KeyError source)
  | (k, v) :: d' => if decide (k = source) then Return v else getitem d' source
  end.

Definition data_sources : list string := ["pays"; "prints"; "taps"].

(** The body of [for source in data_sources]: whatever the reader
    raises is logged, and the loop goes on. *)
Definition load_source `{Stages} (source : string) (st : state) : state :=
  let st := info (Processing source) st in
  match reader_factory source ≫= read_data with
  | Return data =>
      info (Loaded source (Pandas.len data)
              (Z.of_nat (length (Pandas.columns data))))
        {| dataframes := setitem source data (dataframes st);
           written := written st; messages := messages st;
           monitoring := monitoring st |}
  | Raise e => info (Traceback e) (info (Failed source e) st)
  end.

(** The loop [for source, df in dataframes.items()]. *)
Fixpoint save_all `{Stages} (items : list (string * Pandas.DataFrame))
  (st : state) : state * result unit :=
  match items with
  | [] => (st, Return tt)
  | (source, df) :: items' =>
      let output_path := "../data/validated_" +:+ source +:+ ".csv" in
      match to_csv df output_path false with
      | Raise e => (st, Raise e)
      | Return _ =>
          save_all items'
            (info (Saved output_path)
               {| dataframes := dataframes st;
                  written := written st ++ [(output_path, df)];
                  messages := messages st; monitoring := monitoring st |})
      end
  end.

(** The rest of [main], after the validated files are saved. *)
Definition merge_and_monitor `{Stages} `{SciPy} (w : World)
  (config : list Config.table) (st : state) : state * result unit :=
  match (prints ← getitem (dataframes st) "prints";
         taps ← getitem (dataframes st) "taps";
         pays ← getitem (dataframes st) "pays";
         merged_df ← merge prints taps pays;
         metrics_df ← calculate_metrics merged_df;
         to_csv metrics_df "../data/business_metrics.csv" true;;
         Return metrics_df) with
  | Raise e => (st, Raise e)
  | Return metrics_df =>
      let st :=
        info (MetricsSaved "../data/business_metrics.csv")
          {| dataframes := dataframes st;
             written :=
               written st ++ [("../data/business_metrics.csv", metrics_df)];
             messages := messages st; monitoring := monitoring st |} in
      let out := drift_monitoring w config initial in
      ({| dataframes := dataframes st; written := written st;
          messages := messages st; monitoring := Some (fst out) |},
       snd out)
  end.

(** [main()] *)
Definition main `{Stages} `{SciPy} (w : World) (config : list Config.table)
  : state * result unit :=
  let st := fold_left (fun st source => load_source source st) data_sources
              start in
  match save_all (dataframes st) st with
  | (st, Raise e) => (st, Raise e)
  | (st, Return _) => merge_and_monitor w config st
  end.

(** The sources whose reader returned. *)
Definition loaded `{Stages} (source : string) : Prop :=
  Py.returns (reader_factory source ≫= read_data).

End Pipeline.

(** Stages in which the file of the payments cannot be read and
    everything else succeeds. *)
Definition stages_without_pays : Pipeline.Stages :=
  {| Pipeline.reader := string;
     Pipeline.reader_factory := fun source => Return source;
     Pipeline.read_data := fun source =>
       if decide (source = "pays") then Raise (FileNotFoundError "pays.csv")
       else Return amount_historical;
     Pipeline.to_csv := fun _ _ _ => Return tt;
     Pipeline.merge := fun prints _ _ => Return prints;
     Pipeline.calculate_metrics := fun merged_df => Return merged_df |}.

(** ** The cleansing steps of [transform/data_cleansing.py] *)

Module DataCleansing.

(** [data[mask]] for a Series of booleans over the rows of [data]: the
    rows where the mask is True, with their labels and in their order. *)
Definition boolean_index (data : Pandas.DataFrame) (mask : list bool)
  : Pandas.DataFrame :=
  {| Pandas.columns := Pandas.columns data;
     Pandas.rows := fst <$> filter (fun rm => snd rm = true)
                              (zip (Pandas.rows data) mask) |}.

(** [series >= 0], value by value; a string does not compare with a
    number. *)
Fixpoint ge_zero (l : list Pandas.cell) : result (list bool) :=
  match l with
  | [] => Return []
  | Pandas.Num q :: t => mask ← ge_zero t; Return (Qle_bool 0 q :: mask)
  | Pandas.Str _ :: _ =>
      Raise (TypeError
               "'>=' not supported between instances of 'str' and 'int'")
  end.

Definition remove_negatives (data : Pandas.DataFrame) (column : string)
  : result Pandas.DataFrame :=
  s ← Pandas.getitem data column;
  mask ← ge_zero (Pandas.values s);
  Return (boolean_index data mask).

(** [remove_outliers(data, column, threshold)]: the z-scores of the
    column, and the rows whose score is below the threshold in absolute
    value. *)
Definition remove_outliers (data : Pandas.DataFrame) (column : string)
  (threshold : Q) : result Pandas.DataFrame :=
  xs ← Pandas.getitem data column ≫= as_array;
  let mean := Pandas.mean xs in
  let std := Pandas.std xs in
  let z_scores := map (fun x => div (sub (of_Q x) mean) std) xs in
  let mask := map (fun z => ltb (Float64.abs z) (of_Q threshold)) z_scores in
  Return (boolean_index data mask).

(** Two rows hold the same values in every column. *)
Definition row_eqb (columns : list string) (r r' : gmap string Pandas.cell)
  : bool :=
  forallb (fun c => Pandas.cell_eqb (r !!! c) (r' !!! c)) columns.

(** The rows that equal no row kept before them. *)
Fixpoint first_occurrences (columns : list string)
  (kept : list (gmap string Pandas.cell))
  (rows : list (Z * gmap string Pandas.cell))
  : list (Z * gmap string Pandas.cell) :=
  match rows with
  | [] => []
  | r :: rows' =>
      if existsb (row_eqb columns (snd r)) kept
      then first_occurrences columns kept rows'
      else r :: first_occurrences columns (snd r :: kept) rows'
  end.

(** [data.drop_duplicates()]; a frame without columns or without rows is
    returned as it is. *)
Definition remove_duplicates (data : Pandas.DataFrame) : Pandas.DataFrame :=
  match Pandas.columns data with
  | [] => data
  | _ =>
      {| Pandas.columns := Pandas.columns data;
         Pandas.rows :=
           first_occurrences (Pandas.columns data) [] (Pandas.rows data) |}
  end.

End DataCleansing.

(** The value of a row in a column is a number that is not negative. *)
Definition nonnegative_at (column : string) (r : Z * gmap string Pandas.cell)
  : bool :=
  match snd r !!! column with
  | Pandas.Num q => Qle_bool 0 q
  | Pandas.Str _ => false
  end.

(** A float that is a real number. *)
Definition is_finite (x : xreal) : Prop := exists r : R, x = Fin r.



(** * Theorems *)

(** ** The dispatcher *)

Lemma append_empty (s : string) : s +:+ "" = s.
Proof.
  induction s as [| c s IH]; [reflexivity |].
  change (String c (s +:+ "") = String c s). now f_equal.
Qed.

Lemma detectors_lookup_unknown (detector_name : string) :
  detector_name ∉ method_identifiers -> detectors !! detector_name = None.
Proof.
  intros Hout. unfold detectors.
  apply not_elem_of_list_to_map_1. simpl.
  exact Hout.
Qed.

(** C2.  An identifier outside the seven registered ones makes
    [get_drift_detector] raise a ValueError whose message contains the
    identifier (so no detector is returned, default or otherwise); each of
    the seven registered identifiers returns an instance of its own
    class. *)
Theorem get_drift_detector_registry (h r : Pandas.DataFrame) :
  (forall detector_name,
     detector_name ∉ method_identifiers ->
     exists msg,
       get_drift_detector detector_name h r = Raise (ValueError msg)
       /\ mentions msg detector_name)
  /\ get_drift_detector "z_test" h r = Return (IsZTest (ZTest.new h r))
  /\ get_drift_detector "psi_calculator" h r
     = Return (IsPSICalculator (PSICalculator.new h r))
  /\ get_drift_detector "chi_squared_test" h r
     = Return (IsChiSquaredTest (ChiSquaredTest.new h r))
  /\ get_drift_detector "cramers_v_test" h r
     = Return (IsCramersVTest (CramersVTest.new h r))
  /\ get_drift_detector "ks_test" h r = Return (IsKSTest (KSTest.new h r))
  /\ get_drift_detector "cusum" h r = Return (IsCUSUM (CUSUM.new h r))
  /\ get_drift_detector "kl_divergence" h r
     = Return (IsKLDivergence (KLDivergence.new h r)).
Proof.
  split; [| repeat split; reflexivity].
  intros detector_name Hout.
  exists ("Handler does not exist: " +:+ detector_name). split.
  - unfold get_drift_detector.
    now rewrite (detectors_lookup_unknown _ Hout).
  - exists "Handler does not exist: ", "".
    now rewrite append_empty.
Qed.

(** C8, as stated, fails: a column entry that configures the PSI
    threshold 0.5 is dispatched to an instance whose threshold is the
    default 0.1, because the entry's parameters never reach the
    dispatcher. *)
Lemma configured_threshold_not_applied :
  let h := amount_historical in
  let r := amount_recent in
  exists d,
    get_drift_detector (Config.method psi_column_half) h r = Return d
    /\ ("threshold", 1 # 10) ∈ parameters d
    /\ ~ overrides_defaults psi_column_half d.
Proof.
  intros h r. eexists. split; [reflexivity |]. split.
  - simpl. set_solver.
  - intros Hov.
    specialize (Hov "threshold" (1 # 2)).
    assert (Hin : ("threshold", 1 # 2) ∈ parameters
                    (IsPSICalculator (PSICalculator.new h r))).
    { apply Hov; simpl; set_solver. }
    simpl in Hin.
    repeat (apply elem_of_cons in Hin as [Hin | Hin]; [discriminate Hin |]).
    inversion Hin.
Qed.

(** C8, amended.  Whatever a column entry configures, the instance the
    dispatcher builds for it carries the defaults: alpha = 0.05,
    bins = 10, epsilon = 1e-5, threshold = 0.1.  The instance is fixed by
    the method identifier and the two frames alone. *)
Theorem dispatched_instance_defaults (column : Config.column)
  (h r : Pandas.DataFrame) (d : detector) :
  get_drift_detector (Config.method column) h r = Return d ->
  Forall (fun pv => parameter_default (fst pv) = Some (snd pv)) (parameters d)
  /\ forall column' : Config.column,
       Config.method column' = Config.method column ->
       get_drift_detector (Config.method column') h r = Return d.
Proof.
  intros Hd. split; [| intros column' ->; exact Hd].
  destruct (decide (Config.method column ∈ method_identifiers)) as [Hin | Hout].
  - unfold method_identifiers in Hin.
    repeat (apply elem_of_cons in Hin as [Hin | Hin];
            [rewrite Hin in Hd; injection Hd as <-;
             repeat constructor |]).
    inversion Hin.
  - unfold get_drift_detector in Hd.
    rewrite (detectors_lookup_unknown _ Hout) in Hd. discriminate Hd.
Qed.

Lemma dispatched_instance_defaults_witness :
  let h := amount_historical in
  let r := amount_recent in
  Forall (fun pv => parameter_default (fst pv) = Some (snd pv))
    (parameters (IsPSICalculator (PSICalculator.new h r)))
  /\ forall column' : Config.column,
       Config.method column' = Config.method psi_column_half ->
       get_drift_detector (Config.method column') h r
       = Return (IsPSICalculator (PSICalculator.new h r)).
Proof.
  intros h r.
  apply (dispatched_instance_defaults psi_column_half h r). reflexivity.
Defined.

(** ** The orchestrator: what one pass of the column loop stores *)

Lemma CUSUM_detect_drift_raises (self : CUSUM.t) (column_name : string) :
  Py.raises (CUSUM.detect_drift self column_name).
Proof.
  unfold CUSUM.detect_drift, Py.raises, mbind, result_bind.
  repeat (next_call; try (eexists; reflexivity)).
Qed.

(** A statistic that a detector returns is a float: the only detector
    with another kind of statistic never returns. *)
Lemma detect_drift_float `{SciPy} (det : detector) (column_name : string)
  (d : bool) (s : statistic) :
  detect_drift det column_name = Return (d, s) -> exists x, s = Float x.
Proof.
  destruct det as [z | p | c | v | k | u | l]; simpl; unfold as_statistic.
  all: try (match goal with
            | |- context [match ?r with Return _ => _ | Raise _ => _ end] =>
                destruct r as [[d' x] | e]
            end; intros E; [injection E as _ <-; now eexists | discriminate E]).
  destruct (CUSUM_detect_drift_raises u column_name) as [e ->].
  intros E. discriminate E.
Qed.

(** The steps of the run that leave the report alone. *)
Lemma column_body_cases `{SciPy} (table : Config.table)
  (h cur : Pandas.DataFrame) (column : Config.column) (st : run) :
  let st' := fst (column_body table h cur column st) in
  (drift_status st' = drift_status st
   /\ Py.raises (snd (column_body table h cur column st)))
  \/ (exists det d x entry,
        get_drift_detector (Config.method column) h cur = Return det
        /\ detect_drift det (Config.name column) = Return (d, Float x)
        /\ drift_status st !! Config.current_table table = Some entry
        /\ drift_status st'
           = <[Config.current_table table :=
                 <[Config.name column := (d, Float (sanitized x))]> entry]>
               (drift_status st)
        /\ snd (column_body table h cur column st) = Return tt).
Proof.
  unfold column_body, mbind, M_bind, tables_append, info, modify, call,
    status_update, lists_append. simpl.
  destruct (get_drift_detector (Config.method column) h cur) as [det | e];
    [| left; split; [reflexivity | now eexists]].
  simpl.
  destruct (detect_drift det (Config.name column)) as [[d s] | e] eqn:Edet;
    [| left; split; [reflexivity | now eexists]].
  destruct (detect_drift_float _ _ _ _ Edet) as [x ->].
  simpl.
  destruct (drift_status st !! Config.current_table table) as [entry |] eqn:Est;
    [| left; split; [reflexivity | now eexists]].
  simpl. right. exists det, d, x, entry.
  repeat split; try reflexivity; try assumption.
  unfold sanitized. now destruct (isnan x || isinf x).
Qed.

Lemma for_each_cons {A : Type} (body : A -> M unit) (x : A) (l : list A)
  (st : run) :
  for_each body (x :: l) st
  = match body x st with
    | (st', Return _) => for_each body l st'
    | (st', Raise e) => (st', Raise e)
    end.
Proof. reflexivity. Qed.

(** An invariant of the state that every pass of a loop body keeps is
    kept by the loop. *)
Lemma for_each_invariant {A : Type} (P : run -> Prop) (body : A -> M unit)
  (l : list A) :
  (forall x st, P st -> P (fst (body x st))) ->
  forall st, P st -> P (fst (for_each body l st)).
Proof.
  intros Hbody. induction l as [| x l IH]; intros st Hst; [exact Hst |].
  rewrite for_each_cons. specialize (Hbody x st Hst).
  destruct (body x st) as [st' [[] | e]]; simpl in *; [now apply IH | exact Hbody].
Qed.

Lemma finite_report_insert (ds : report) (table : string)
  (entry : gmap string (bool * statistic)) :
  finite_report ds ->
  map_Forall (fun _ (v : bool * statistic) => finite_statistic (snd v)) entry ->
  finite_report (<[table := entry]> ds).
Proof. intros Hds Hentry. now apply map_Forall_insert_2. Qed.

Lemma column_body_finite `{SciPy} (table : Config.table)
  (h cur : Pandas.DataFrame) (column : Config.column) (st : run) :
  finite_report (drift_status st) ->
  finite_report (drift_status (fst (column_body table h cur column st))).
Proof.
  intros Hst.
  destruct (column_body_cases table h cur column st)
    as [[-> _] | (det & d & x & entry & _ & _ & Hentry & -> & _)];
    [exact Hst |].
  apply finite_report_insert; [exact Hst |].
  apply map_Forall_insert_2.
  - unfold finite_statistic, sanitized. simpl.
    destruct x; simpl; eauto.
  - exact (Hst _ _ Hentry).
Qed.

Lemma table_body_finite `{SciPy} (w : World) (table : Config.table) (st : run) :
  finite_report (drift_status st) ->
  finite_report (drift_status (fst (table_body w table st))).
Proof.
  intros Hst.
  assert (Hst1 : finite_report
            (<[Config.current_table table := ∅]> (drift_status st))).
  { apply finite_report_insert; [exact Hst | apply map_Forall_empty]. }
  unfold table_body, mbind, M_bind, modify, info, read_csv, call, sample.
  simpl.
  destruct (files w (Config.current_table table)) as [c | e]; simpl;
    [| exact Hst1].
  match goal with
  | |- context [Pandas.drop ?l ?df] => destruct (Pandas.drop l df) as [current | e]
  end; simpl; [| exact Hst1].
  apply (for_each_invariant (fun st => finite_report (drift_status st))).
  - intros column st'. apply column_body_finite.
  - exact Hst1.
Qed.

Lemma drift_monitoring_finite `{SciPy} (w : World) (config : list Config.table) :
  finite_report (drift_status (fst (drift_monitoring w config initial))).
Proof.
  unfold drift_monitoring, mbind, M_bind, info, modify, get. simpl.
  match goal with
  | |- context [for_each ?b ?l ?s] =>
      pose proof (for_each_invariant
                    (fun st => finite_report (drift_status st)) b l
                    (fun x st => table_body_finite w x st) s) as Hinv;
      destruct (for_each b l s) as [st' [[] | e]]
  end; simpl in *; apply Hinv; apply map_Forall_empty.
Qed.

(** C1.  When the detector dispatched for a column returns the statistic
    [s], that statistic is a float [x], and the pass of the column loop
    stores under [table][column] the pair of the detector's decision and
    of 0 if [x] is NaN or an infinity, of [x] itself otherwise.  At the end
    of a monitoring run, completed or not, every statistic in the report
    is a finite float. *)
Theorem report_statistics_finite `{SciPy} (w : World)
  (config : list Config.table) (table : Config.table)
  (h cur : Pandas.DataFrame) (column : Config.column) (st : run)
  (det : detector) (d : bool) (s : statistic)
  (entry : gmap string (bool * statistic)) :
  get_drift_detector (Config.method column) h cur = Return det ->
  detect_drift det (Config.name column) = Return (d, s) ->
  drift_status st !! Config.current_table table = Some entry ->
  (exists x,
     s = Float x
     /\ drift_status (fst (column_body table h cur column st))
        = <[Config.current_table table :=
              <[Config.name column :=
                  (d, Float (if isnan x || isinf x then Fin 0 else x))]> entry]>
            (drift_status st)
     /\ finite_statistic (Float (if isnan x || isinf x then Fin 0 else x)))
  /\ finite_report (drift_status (fst (drift_monitoring w config initial))).
Proof.
  intros Hdet Hs Hentry. split; [| apply drift_monitoring_finite].
  destruct (detect_drift_float _ _ _ _ Hs) as [x ->]. exists x.
  split; [reflexivity |].
  destruct (column_body_cases table h cur column st)
    as [[_ [e He]] | (det' & d' & x' & entry' & Hdet' & Hs' & Hentry' & E & _)].
  - exfalso. revert He.
    unfold column_body, mbind, M_bind, tables_append, info, modify, call,
      status_update, lists_append. simpl.
    rewrite Hdet. simpl. rewrite Hs. simpl. rewrite Hentry. simpl.
    discriminate.
  - rewrite Hdet in Hdet'. injection Hdet' as <-.
    rewrite Hs in Hs'. injection Hs' as <- <-.
    rewrite Hentry in Hentry'. injection Hentry' as <-.
    split; [exact E |].
    unfold finite_statistic. destruct x; simpl; eauto.
Qed.

Lemma report_statistics_finite_witness :
  (exists x,
     Float NaN = Float x
     /\ drift_status
          (fst (column_body (H := example_scipy) orders_table
                  amount_historical amount_recent ks_column
                  (with_drift_status (<["orders.csv" := ∅]>) initial)))
        = <[Config.current_table orders_table :=
              <[Config.name ks_column :=
                  (false, Float (if isnan x || isinf x then Fin 0 else x))]> ∅]>
            (drift_status (with_drift_status (<["orders.csv" := ∅]>) initial))
     /\ finite_statistic (Float (if isnan x || isinf x then Fin 0 else x)))
  /\ finite_report
       (drift_status
          (fst (drift_monitoring (H := example_scipy) example_world
                  [orders_table] initial))).
Proof.
  apply (report_statistics_finite (H := example_scipy) example_world
           [orders_table] orders_table amount_historical amount_recent
           ks_column (with_drift_status (<["orders.csv" := ∅]>) initial)
           (IsKSTest (KSTest.new amount_historical amount_recent))
           false (Float NaN) ∅); reflexivity.
Defined.

(** ** The orchestrator: a table that cannot be loaded *)

Lemma for_each_app {A : Type} (body : A -> M unit) (l1 l2 : list A) (st : run) :
  for_each body (l1 ++ l2) st
  = match for_each body l1 st with
    | (st', Return _) => for_each body l2 st'
    | (st', Raise e) => (st', Raise e)
    end.
Proof.
  revert st. induction l1 as [| x l1 IH]; intros st; [reflexivity |].
  simpl app. rewrite !for_each_cons.
  destruct (body x st) as [st' [[] | e]]; [apply IH | reflexivity].
Qed.

Lemma column_body_log `{SciPy} (table : Config.table)
  (h cur : Pandas.DataFrame) (column : Config.column) (st : run) :
  report_emitted st = false ->
  report_emitted (fst (column_body table h cur column st)) = false.
Proof.
  intros Hst.
  assert (Hst1 : existsb is_drift_status
                   (log st ++ [StartedColumn (Config.name column)]) = false).
  { rewrite existsb_app. unfold report_emitted in Hst. now rewrite Hst. }
  unfold column_body, mbind, M_bind, tables_append, info, modify, call,
    status_update, lists_append, report_emitted. simpl.
  destruct (get_drift_detector (Config.method column) h cur) as [det | e];
    simpl; [| exact Hst].
  destruct (detect_drift det (Config.name column)) as [[d s] | e];
    simpl; [| exact Hst1].
  destruct (isnan_or_isinf s) as [b | e]; simpl; [| exact Hst1].
  destruct (drift_status st !! Config.current_table table); simpl; exact Hst1.
Qed.

Lemma table_body_log `{SciPy} (w : World) (table : Config.table) (st : run) :
  report_emitted st = false ->
  report_emitted (fst (table_body w table st)) = false.
Proof.
  intros Hst.
  assert (Hst1 : existsb is_drift_status
                   (log st ++ [StartedTable (Config.current_table table)])
                 = false).
  { rewrite existsb_app. unfold report_emitted in Hst. now rewrite Hst. }
  unfold table_body, mbind, M_bind, modify, info, read_csv, call, sample.
  simpl.
  destruct (files w (Config.current_table table)) as [c | e]; simpl;
    [| exact Hst1].
  match goal with
  | |- context [Pandas.drop ?l ?df] => destruct (Pandas.drop l df) as [current | e]
  end; simpl; [| exact Hst1].
  apply (for_each_invariant (fun st => report_emitted st = false)).
  - intros column st'. apply column_body_log.
  - exact Hst1.
Qed.

Lemma table_body_load_failure `{SciPy} (w : World) (table : Config.table)
  (st : run) (e : exn) :
  files w (Config.current_table table) = Raise e ->
  table_body w table st
  = (fst (info (StartedTable (Config.current_table table))
            (with_drift_status (<[Config.current_table table := ∅]>) st)),
     Raise e).
Proof.
  intros Hfile.
  unfold table_body, mbind, M_bind, modify, info, read_csv, call. simpl.
  now rewrite Hfile.
Qed.

(** C9, as stated, fails: with a first table whose file is missing and a
    second one whose file is there, the run ends with the loader's
    exception; no drift status is emitted and the second table is never
    reached. *)
Lemma missing_table_aborts_run :
  let out := drift_monitoring (H := example_scipy) example_world
               [missing_table; orders_table] initial in
  snd out = Raise (FileNotFoundError "missing.csv")
  /\ report_emitted (fst out) = false
  /\ drift_status (fst out) !! "orders.csv" = None
  /\ log (fst out) = [Started; StartedTable "missing.csv"].
Proof. repeat split; reflexivity. Qed.

(** C9, amended.  If loading a configured table fails, the exception of
    the loader leaves [drift_monitoring]: the run stops in the state it
    had when that table was started (the tables before it processed, an
    empty entry and a log line for the failing one), it takes no further
    draw, processes no later table and emits no drift status. *)
Theorem load_failure_aborts_run `{SciPy} (w : World)
  (before after : list Config.table) (table : Config.table)
  (st1 : run) (e : exn) :
  for_each (table_body w) before (fst (info Started initial))
    = (st1, Return tt) ->
  files w (Config.current_table table) = Raise e ->
  let out := drift_monitoring w (before ++ table :: after) initial in
  snd out = Raise e
  /\ fst out
     = fst (info (StartedTable (Config.current_table table))
              (with_drift_status (<[Config.current_table table := ∅]>) st1))
  /\ draws (fst out) = draws st1
  /\ report_emitted (fst out) = false.
Proof.
  intros Hbefore Hfile out.
  assert (Hout : out
    = (fst (info (StartedTable (Config.current_table table))
              (with_drift_status (<[Config.current_table table := ∅]>) st1)),
       Raise e)).
  { unfold out, drift_monitoring.
    unfold mbind at 1 2, M_bind at 1 2.
    change (info Started initial) with (fst (info Started initial), Return tt).
    cbv iota beta.
    rewrite for_each_app, Hbefore, for_each_cons.
    now rewrite (table_body_load_failure w table st1 e Hfile). }
  rewrite Hout. simpl. repeat split.
  pose proof (for_each_invariant (fun st => report_emitted st = false)
                (table_body w) before
                (fun x st => table_body_log w x st)
                (fst (info Started initial)) eq_refl) as Hlog.
  rewrite Hbefore in Hlog. simpl in Hlog.
  unfold report_emitted in *. simpl. rewrite existsb_app, Hlog. reflexivity.
Qed.

Lemma load_failure_aborts_run_witness :
  let out := drift_monitoring (H := example_scipy) example_world
               ([] ++ missing_table :: [orders_table]) initial in
  snd out = Raise (FileNotFoundError "missing.csv")
  /\ fst out
     = fst (info (StartedTable (Config.current_table missing_table))
              (with_drift_status (<[Config.current_table missing_table := ∅]>)
                 (fst (info Started initial))))
  /\ draws (fst out) = draws (fst (info Started initial))
  /\ report_emitted (fst out) = false.
Proof.
  apply (load_failure_aborts_run (H := example_scipy) example_world []
           [orders_table] missing_table (fst (info Started initial))
           (FileNotFoundError "missing.csv")); reflexivity.
Defined.

(** ** The split of a table *)

Lemma py_round_near (q : Q) :
  (inject_Z (Pandas.py_round q) - (1 # 2) <= q
   /\ q <= inject_Z (Pandas.py_round q) + (1 # 2))%Q.
Proof.
  unfold Pandas.py_round.
  pose proof (Qfloor_le q) as Hlo. pose proof (Qlt_floor q) as Hhi.
  rewrite inject_Z_plus in Hhi. change (inject_Z 1) with 1%Q in Hhi.
  destruct (Qcompare_spec (q - inject_Z (Qfloor q)) (1 # 2)) as [E | E | E].
  - destruct (Z.even (Qfloor q)); rewrite ?inject_Z_plus;
      change (inject_Z 1) with 1%Q; lra.
  - lra.
  - rewrite inject_Z_plus. change (inject_Z 1) with 1%Q. lra.
Qed.

(** The size of the sample of a table of [n] rows is four fifths of [n]
    to the nearest integer; four fifths of an integer is never half-way
    between two integers. *)
Lemma sample_size_near (n : nat) :
  let r := Pandas.py_round ((8 # 10) * inject_Z (Z.of_nat n)) in
  -2 <= 5 * r - 4 * Z.of_nat n <= 2 /\ 0 <= r <= Z.of_nat n.
Proof.
  intros r.
  destruct (py_round_near ((8 # 10) * inject_Z (Z.of_nat n))) as [Hlo Hhi].
  fold r in Hlo, Hhi.
  unfold Qle, Qplus, Qminus, Qopp, Qmult, inject_Z in Hlo, Hhi.
  simpl in Hlo, Hhi. lia.
Qed.

Lemma take_elem_of (locs : list nat) (df : Pandas.DataFrame)
  (x : Z * gmap string Pandas.cell) :
  x ∈ Pandas.rows (Pandas.take locs df) -> x ∈ Pandas.rows df.
Proof.
  unfold Pandas.take. cbn [Pandas.rows].
  rewrite list_elem_of_omap. intros (i & _ & Hi).
  now apply list_elem_of_lookup_2 in Hi.
Qed.

Lemma take_length (locs : list nat) (df : Pandas.DataFrame) :
  Forall (fun i => (i < length (Pandas.rows df))%nat) locs ->
  length (Pandas.rows (Pandas.take locs df)) = length locs.
Proof.
  unfold Pandas.take. cbn [Pandas.rows].
  induction 1 as [| i locs Hi _ IH]; [reflexivity |].
  destruct (lookup_lt_is_Some_2 _ _ Hi) as [x Ex].
  cbn [omap list_omap]. rewrite Ex. cbn [length]. now f_equal.
Qed.

Lemma take_NoDup (locs : list nat) (df : Pandas.DataFrame) :
  NoDup locs -> NoDup (Pandas.rows df) ->
  NoDup (Pandas.rows (Pandas.take locs df)).
Proof.
  intros Hlocs Hrows. unfold Pandas.take. cbn [Pandas.rows].
  induction Hlocs as [| i locs Hi _ IH]; [constructor |].
  cbn [omap list_omap].
  destruct (Pandas.rows df !! i) as [x |] eqn:Ex; [| exact IH].
  constructor; [| exact IH].
  rewrite list_elem_of_omap. intros (j & Hj & Ej).
  now rewrite (NoDup_lookup _ _ _ _ Hrows Ex Ej) in Hi.
Qed.

(** Two rows of a frame with a unique index that carry the same label
    are the same row. *)
Lemma unique_label {A : Type} (l : list (Z * A)) (x y : Z * A) :
  NoDup (fst <$> l) -> x ∈ l -> y ∈ l -> fst x = fst y -> x = y.
Proof.
  intros Hnd Hx Hy Hxy.
  apply list_elem_of_lookup_1 in Hx as [i Hi].
  apply list_elem_of_lookup_1 in Hy as [j Hj].
  assert (i = j) as ->.
  { apply (NoDup_lookup (fst <$> l) i j (fst x) Hnd).
    - now rewrite list_lookup_fmap, Hi.
    - now rewrite list_lookup_fmap, Hj, Hxy. }
  congruence.
Qed.

Lemma split_partition (locs : list nat) (df : Pandas.DataFrame) :
  NoDup (Pandas.index df) -> NoDup locs ->
  let historical := Pandas.take locs df in
  exists current,
    Pandas.drop (Pandas.index historical) df = Return current
    /\ Pandas.columns current = Pandas.columns df
    /\ Pandas.rows historical ++ Pandas.rows current ≡ₚ Pandas.rows df
    /\ (forall l, l ∈ Pandas.index historical -> l ∉ Pandas.index current).
Proof.
  intros Hindex Hlocs historical.
  assert (Hrows : NoDup (Pandas.rows df)) by exact (NoDup_fmap_1 _ _ Hindex).
  assert (Hsub : forall x, x ∈ Pandas.rows historical -> x ∈ Pandas.rows df)
    by apply take_elem_of.
  unfold Pandas.drop.
  destruct (decide (Forall (fun l => l ∈ Pandas.index df)
                      (Pandas.index historical))) as [_ | Hnot].
  2:{ exfalso. apply Hnot. apply Forall_forall. intros l Hl.
      unfold Pandas.index in *. apply list_elem_of_fmap in Hl as (x & -> & Hx).
      apply list_elem_of_fmap. exists x. split; [reflexivity | now apply Hsub]. }
  eexists. split; [reflexivity |]. split; [reflexivity |]. cbn [Pandas.rows].
  split.
  - apply NoDup_Permutation.
    + apply NoDup_app. split; [now apply take_NoDup |]. split.
      * intros x Hx Hx'. apply list_elem_of_filter in Hx' as [Hout _].
        apply Hout. unfold Pandas.index. apply list_elem_of_fmap. now exists x.
      * now apply NoDup_filter.
    + exact Hrows.
    + intros x. rewrite elem_of_app, list_elem_of_filter. split.
      * intros [Hx | [_ Hx]]; [now apply Hsub | exact Hx].
      * intros Hx.
        destruct (decide (fst x ∈ Pandas.index historical)) as [Hin | Hout];
          [left | now right].
        unfold Pandas.index in Hin.
        apply list_elem_of_fmap in Hin as (y & Hxy & Hy).
        now rewrite (unique_label _ x y Hindex Hx (Hsub _ Hy) Hxy).
  - intros l Hl Hl'. unfold Pandas.index in Hl'. cbn [Pandas.rows] in Hl'.
    apply list_elem_of_fmap in Hl' as (x & -> & Hx).
    apply list_elem_of_filter in Hx as [Hout _]. now apply Hout.
Qed.

Lemma column_body_draws `{SciPy} (table : Config.table)
  (h cur : Pandas.DataFrame) (column : Config.column) (k : nat) (st : run) :
  draws st = k -> draws (fst (column_body table h cur column st)) = k.
Proof.
  intros Hst.
  unfold column_body, mbind, M_bind, tables_append, info, modify, call,
    status_update, lists_append. simpl.
  destruct (get_drift_detector (Config.method column) h cur) as [det | e];
    simpl; [| exact Hst].
  destruct (detect_drift det (Config.name column)) as [[d s] | e];
    simpl; [| exact Hst].
  destruct (isnan_or_isinf s) as [b | e]; simpl; [| exact Hst].
  destruct (drift_status st !! Config.current_table table); simpl; exact Hst.
Qed.

(** A pass of the table loop that completes has split its table once. *)
Lemma table_body_draws `{SciPy} (w : World) (table : Config.table) (st : run) :
  snd (table_body w table st) = Return tt ->
  draws (fst (table_body w table st)) = S (draws st).
Proof.
  unfold table_body, mbind, M_bind, modify, info, read_csv, call, sample.
  simpl.
  destruct (files w (Config.current_table table)) as [c | e]; simpl;
    [| discriminate].
  match goal with
  | |- context [Pandas.drop ?l ?df] => destruct (Pandas.drop l df) as [current | e]
  end; simpl; [| discriminate].
  intros _.
  now apply (for_each_invariant (fun st' => draws st' = S (draws st))
               (column_body table _ current) (Config.columns table)
               (fun x st' => column_body_draws table _ _ x _ st')).
Qed.

Lemma for_each_table_draws `{SciPy} (w : World) (config : list Config.table)
  (st : run) :
  snd (for_each (table_body w) config st) = Return tt ->
  draws (fst (for_each (table_body w) config st))
  = (draws st + length config)%nat.
Proof.
  revert st. induction config as [| table config IH]; intros st.
  - intros _. simpl. lia.
  - rewrite for_each_cons.
    pose proof (table_body_draws w table st) as Htable.
    destruct (table_body w table st) as [st' [[] | e]]; [| discriminate].
    intros Hrest. rewrite (IH st' Hrest). simpl in Htable.
    rewrite (Htable eq_refl). simpl. lia.
Qed.

Lemma drift_monitoring_draws `{SciPy} (w : World) (config : list Config.table) :
  snd (drift_monitoring w config initial) = Return tt ->
  draws (fst (drift_monitoring w config initial)) = length config.
Proof.
  unfold drift_monitoring, mbind, M_bind, info, modify, get. simpl.
  match goal with
  | |- context [for_each ?b ?l ?s] =>
      pose proof (for_each_table_draws w l s) as Hloop;
      destruct (for_each b l s) as [st' [[] | e]]
  end; simpl in *; [| discriminate].
  intros _. now rewrite (Hloop eq_refl).
Qed.

(** C7.  For a source table with a unique row index and a draw of
    distinct positions, the two slices the orchestrator builds
    ([sample(frac=0.8)], then [drop] of the sampled labels) partition the
    source: together they hold exactly the source rows, and no label is in
    both.  The historical slice holds four fifths of the rows to the
    nearest integer (within half a row, and exactly 80% when the number of
    rows is a multiple of five), the recent slice the rest.  The selection
    is whatever the random source draws.  A run that completes has taken
    one draw per configured table: each table is split once. *)
Theorem split_partitions_source `{SciPy} (w : World)
  (config : list Config.table) (k : nat) (initial_table : Pandas.DataFrame) :
  let n := length (Pandas.rows initial_table) in
  let size := Z.to_nat (Pandas.py_round ((8 # 10) * inject_Z (Z.of_nat n))) in
  NoDup (Pandas.index initial_table) ->
  without_replacement n size (choice w k n size) ->
  snd (drift_monitoring w config initial) = Return tt ->
  let historical_data := Pandas.sample (choice w k) (8 # 10) initial_table in
  exists current_data,
    Pandas.drop (Pandas.index historical_data) initial_table
      = Return current_data
    /\ Pandas.rows historical_data ++ Pandas.rows current_data
       ≡ₚ Pandas.rows initial_table
    /\ (forall l, l ∈ Pandas.index historical_data ->
                  l ∉ Pandas.index current_data)
    /\ Z.of_nat (length (Pandas.rows historical_data))
       = Pandas.py_round ((8 # 10) * inject_Z (Z.of_nat n))
    /\ -2 <= 5 * Z.of_nat (length (Pandas.rows historical_data))
             - 4 * Z.of_nat n <= 2
    /\ ((5 | Z.of_nat n) ->
        5 * Z.of_nat (length (Pandas.rows historical_data)) = 4 * Z.of_nat n)
    /\ (length (Pandas.rows current_data)
        = n - length (Pandas.rows historical_data))%nat
    /\ draws (fst (drift_monitoring w config initial)) = length config.
Proof.
  intros n size Hindex (Hnodup & Hbelow & Hsize) Hrun historical_data.
  destruct (split_partition (choice w k n size) initial_table Hindex Hnodup)
    as (current_data & Hdrop & _ & Hperm & Hdisjoint).
  destruct (sample_size_near n) as [Hnear Hrange].
  assert (Hlen : Z.of_nat (length (Pandas.rows historical_data))
                 = Pandas.py_round ((8 # 10) * inject_Z (Z.of_nat n))).
  { unfold historical_data, Pandas.sample. fold n. fold size.
    rewrite (take_length _ _ Hbelow), Hsize. unfold size. lia. }
  exists current_data. unfold historical_data, Pandas.sample. fold n. fold size.
  unfold historical_data, Pandas.sample in Hlen. fold n in Hlen. fold size in Hlen.
  repeat split; try assumption.
  - rewrite Hlen. lia.
  - rewrite Hlen. lia.
  - intros [m Hm]. rewrite Hlen. lia.
  - apply Permutation_length in Hperm. rewrite length_app in Hperm. fold n in Hperm.
    lia.
  - now apply drift_monitoring_draws.
Qed.

Lemma split_partitions_source_witness :
  let initial_table := Pandas.from_csv orders_csv in
  let n := length (Pandas.rows initial_table) in
  let historical_data :=
    Pandas.sample (choice example_world 0) (8 # 10) initial_table in
  exists current_data,
    Pandas.drop (Pandas.index historical_data) initial_table
      = Return current_data
    /\ Pandas.rows historical_data ++ Pandas.rows current_data
       ≡ₚ Pandas.rows initial_table
    /\ (forall l, l ∈ Pandas.index historical_data ->
                  l ∉ Pandas.index current_data)
    /\ Z.of_nat (length (Pandas.rows historical_data))
       = Pandas.py_round ((8 # 10) * inject_Z (Z.of_nat n))
    /\ -2 <= 5 * Z.of_nat (length (Pandas.rows historical_data))
             - 4 * Z.of_nat n <= 2
    /\ ((5 | Z.of_nat n) ->
        5 * Z.of_nat (length (Pandas.rows historical_data)) = 4 * Z.of_nat n)
    /\ (length (Pandas.rows current_data)
        = n - length (Pandas.rows historical_data))%nat
    /\ draws (fst (drift_monitoring (H := example_scipy) example_world
                     [orders_table] initial))
       = length [orders_table].
Proof.
  refine (split_partitions_source (H := example_scipy) example_world
            [orders_table] 0 (Pandas.from_csv orders_csv) _ _ _).
  - apply (bool_decide_unpack _). vm_compute. exact I.
  - repeat split.
    + apply (bool_decide_unpack _). vm_compute. exact I.
    + apply (bool_decide_unpack _). vm_compute. exact I.
  - reflexivity.
Defined.

(** ** The categorical detectors on the slices of a split *)

Lemma getitem_labels (df : Pandas.DataFrame) (column_name : string)
  (s : Pandas.Series) :
  Pandas.getitem df column_name = Return s -> fst <$> s = Pandas.index df.
Proof.
  unfold Pandas.getitem. destruct (decide _); [| discriminate].
  intros E. injection E as <-. unfold Pandas.index.
  rewrite <- list_fmap_compose. reflexivity.
Qed.

Lemma getitem_present (df : Pandas.DataFrame) (column_name : string) :
  column_name ∈ Pandas.columns df ->
  Py.returns (Pandas.getitem df column_name).
Proof.
  intros Hin. unfold Pandas.getitem.
  destruct (decide _); [now eexists | contradiction].
Qed.

(** Two Series without a common row label have no pair to tabulate. *)
Lemma crosstab_disjoint (a b : Pandas.Series) :
  (forall l, l ∈ fst <$> a -> l ∉ fst <$> b) -> Pandas.crosstab a b = [].
Proof.
  intros Hdisjoint.
  assert (Hpairs : Pandas.crosstab_pairs a b = []).
  { unfold Pandas.crosstab_pairs.
    induction a as [| r a IH]; [reflexivity |].
    cbn [omap list_omap].
    assert (Hnone : list_find (fun r' : Z * Pandas.cell => fst r' = fst r) b
                    = None).
    { apply list_find_None, Forall_forall. intros r' Hr' Heq.
      apply (Hdisjoint (fst r)).
      - rewrite fmap_cons. apply elem_of_cons. now left.
      - apply list_elem_of_fmap. now exists r'. }
    rewrite Hnone. apply IH. intros l Hl. apply Hdisjoint.
    rewrite fmap_cons. apply elem_of_cons. now right. }
  unfold Pandas.crosstab. now rewrite Hpairs.
Qed.

(** C10.  Both categorical detectors tabulate the historical against the
    recent column with [pd.crosstab], which pairs the values that carry
    the same row label.  On the two slices of a split (a sample of a table
    with a unique index, and the table without the sampled labels) no
    label is shared: the contingency table is empty and
    [chi2_contingency] raises instead of returning a p-value, for
    ChiSquaredTest and for CramersVTest. *)
Theorem categorical_detectors_raise_on_split `{SciPy}
  (sampler : nat -> nat -> list nat) (initial_table : Pandas.DataFrame)
  (column_name : string) (alpha : Q) :
  let n := length (Pandas.rows initial_table) in
  let size := Z.to_nat (Pandas.py_round ((8 # 10) * inject_Z (Z.of_nat n))) in
  NoDup (Pandas.index initial_table) ->
  NoDup (sampler n size) ->
  column_name ∈ Pandas.columns initial_table ->
  let historical_data := Pandas.sample sampler (8 # 10) initial_table in
  exists current_data hist_column recent_column,
    Pandas.drop (Pandas.index historical_data) initial_table
      = Return current_data
    /\ Pandas.getitem historical_data column_name = Return hist_column
    /\ Pandas.getitem current_data column_name = Return recent_column
    /\ Pandas.crosstab hist_column recent_column = []
    /\ ChiSquaredTest.detect_drift
         {| ChiSquaredTest.historical_data := historical_data;
            ChiSquaredTest.recent_data := current_data;
            ChiSquaredTest.alpha := alpha |} column_name
       = Raise (ValueError "No data; `observed` has size 0.")
    /\ CramersVTest.detect_drift
         {| CramersVTest.historical_data := historical_data;
            CramersVTest.recent_data := current_data;
            CramersVTest.alpha := alpha |} column_name
       = Raise (ValueError "No data; `observed` has size 0.").
Proof.
  intros n size Hindex Hnodup Hcol historical_data.
  destruct (split_partition (sampler n size) initial_table Hindex Hnodup)
    as (current_data & Hdrop & Hcols & _ & Hdisjoint).
  fold n size in Hdrop, Hdisjoint.
  change (Pandas.take (sampler n size) initial_table)
    with historical_data in Hdrop, Hdisjoint.
  destruct (getitem_present historical_data column_name Hcol)
    as [hist_column Hh].
  destruct (getitem_present current_data column_name) as [recent_column Hr];
    [now rewrite Hcols |].
  assert (Htable : Pandas.crosstab hist_column recent_column = []).
  { apply crosstab_disjoint.
    rewrite (getitem_labels _ _ _ Hh), (getitem_labels _ _ _ Hr).
    exact Hdisjoint. }
  exists current_data, hist_column, recent_column.
  repeat split; try assumption.
  - unfold ChiSquaredTest.detect_drift, mbind, result_bind. cbn [
      ChiSquaredTest.historical_data ChiSquaredTest.recent_data].
    rewrite Hh. cbn [Py.bind]. rewrite Hr. cbn [Py.bind]. now rewrite Htable.
  - unfold CramersVTest.detect_drift, mbind, result_bind. cbn [
      CramersVTest.historical_data CramersVTest.recent_data].
    rewrite Hh. cbn [Py.bind]. rewrite Hr. cbn [Py.bind]. now rewrite Htable.
Qed.

Lemma categorical_detectors_raise_on_split_witness :
  let initial_table := Pandas.from_csv orders_csv in
  let historical_data :=
    Pandas.sample (choice example_world 0) (8 # 10) initial_table in
  exists current_data hist_column recent_column,
    Pandas.drop (Pandas.index historical_data) initial_table
      = Return current_data
    /\ Pandas.getitem historical_data "amount" = Return hist_column
    /\ Pandas.getitem current_data "amount" = Return recent_column
    /\ Pandas.crosstab hist_column recent_column = []
    /\ ChiSquaredTest.detect_drift (H := example_scipy)
         {| ChiSquaredTest.historical_data := historical_data;
            ChiSquaredTest.recent_data := current_data;
            ChiSquaredTest.alpha := 5 # 100 |} "amount"
       = Raise (ValueError "No data; `observed` has size 0.")
    /\ CramersVTest.detect_drift (H := example_scipy)
         {| CramersVTest.historical_data := historical_data;
            CramersVTest.recent_data := current_data;
            CramersVTest.alpha := 5 # 100 |} "amount"
       = Raise (ValueError "No data; `observed` has size 0.").
Proof.
  refine (categorical_detectors_raise_on_split (H := example_scipy)
            (choice example_world 0) (Pandas.from_csv orders_csv) "amount"
            (5 # 100) _ _ _).
  - apply (bool_decide_unpack _). vm_compute. exact I.
  - apply (bool_decide_unpack _). vm_compute. exact I.
  - apply (bool_decide_unpack _). vm_compute. exact I.
Defined.

(** ** Arithmetic on float64 *)

Lemma Rsign_spec (r : R) :
  match Rsign r with
  | Lt => (r < 0)%R
  | Eq => r = 0%R
  | Gt => (0 < r)%R
  end.
Proof. unfold Rsign. now destruct (total_order_T r 0) as [[? | ?] | ?]. Qed.

Lemma Rsign_pos (r : R) : (0 < r)%R -> Rsign r = Gt.
Proof. intros Hr. pose proof (Rsign_spec r). destruct (Rsign r); [lra | lra | reflexivity]. Qed.

Lemma Rsign_zero : Rsign 0 = Eq.
Proof. pose proof (Rsign_spec 0). destruct (Rsign 0); [reflexivity | lra | lra]. Qed.

Lemma div_Fin_pos (a b : R) : (0 < b)%R -> div (Fin a) (Fin b) = Fin (a / b).
Proof. intros Hb. unfold div. now rewrite (Rsign_pos b Hb). Qed.

Lemma log_Fin_pos (a : R) : (0 < a)%R -> Float64.log (Fin a) = Fin (ln a).
Proof. intros Ha. unfold Float64.log. now rewrite (Rsign_pos a Ha). Qed.


Lemma fold_left_add_Fin (l : list R) (acc : R) :
  fold_left add (map Fin l) (Fin acc) = Fin (acc + Rsum l).
Proof.
  revert acc. induction l as [| x l IH]; intros acc; simpl.
  - f_equal. lra.
  - rewrite IH. f_equal. lra.
Qed.

Lemma sum_Fin (l : list R) : Float64.sum (map Fin l) = Fin (Rsum l).
Proof. unfold Float64.sum. rewrite fold_left_add_Fin. f_equal. lra. Qed.

Lemma fold_left_add_NaN (l : list xreal) : fold_left add l NaN = NaN.
Proof. induction l as [| x l IH]; [reflexivity | simpl; exact IH]. Qed.

(** A sum with a NaN term is NaN. *)
Lemma sum_NaN (l : list xreal) : NaN ∈ l -> Float64.sum l = NaN.
Proof.
  unfold Float64.sum. generalize (Fin 0).
  induction l as [| x l IH]; intros acc Hin; [inversion Hin |].
  apply elem_of_cons in Hin as [<- | Hin]; simpl.
  - destruct acc; apply fold_left_add_NaN.
  - now apply IH.
Qed.

(** ** CUSUM *)

(** The positions the loop records are positions of the sequence it is
    given. *)
Lemma scan_indices (target_mean : xreal) (threshold : Q) (data : list Q)
  (i : nat) (s_pos s_neg : xreal) (acc : list nat) (j : nat) :
  j ∈ CUSUM.scan target_mean threshold data i s_pos s_neg acc ->
  j ∈ acc \/ (i <= j < i + length data)%nat.
Proof.
  revert i s_pos s_neg acc.
  induction data as [| x data IH]; intros i s_pos s_neg acc; simpl.
  - now left.
  - destruct (_ || _); intros Hj; apply IH in Hj as [Hj | Hj].
    + apply elem_of_app in Hj as [Hj | Hj]; [now left | right].
      apply list_elem_of_singleton in Hj. lia.
    + right. lia.
    + now left.
    + right. lia.
Qed.

(** On the recent value 5 followed by the historical values 0, 0, with
    the historical mean 0 as target and the default threshold, the loop
    records the position 0 and nothing else. *)
Lemma scan_shift :
  CUSUM.scan (Pandas.mean [0; 0]%Q) (1 # 10) [5; 0; 0]%Q 0 (Fin 0) (Fin 0) []
  = [0%nat].
Proof.
  unfold Pandas.mean, of_Q, CUSUM.scan, CUSUM.max0, CUSUM.min0, sub, neg, add,
    ltb, gtb, of_Q, Q2R. simpl.
  repeat match goal with
         | |- context [IZR ?z] =>
             progress (let z' := eval vm_compute in z in
                       change (IZR z) with (IZR z'))
         end.
  repeat match goal with
         | |- context [Rlt_dec ?a ?b] =>
             destruct (Rlt_dec a b); simpl; try lra
         end; reflexivity.
Qed.

(** C5: the code at a failing input.  [detect_drift] does not reach its
    loop: the lookup of [concat] on the recent column raises. *)
Theorem CUSUM_detect_drift_attribute_error :
  CUSUM.detect_drift (CUSUM.new shift_historical shift_recent) "amount"
  = Raise (AttributeError "'Series' object has no attribute 'concat'").
Proof. reflexivity. Qed.

(** C6, as stated, fails.  The column [amount] exists in both frames of
    either case.  ZTest on a recent frame without rows raises: its column
    is empty, and the variance is divided by the row count 0.  CUSUM on a
    single-valued column raises, whether the instance is built directly or
    by the dispatcher. *)
Lemma detectors_raise_on_degenerate_columns :
  ("amount" ∈ Pandas.columns constant_historical
   /\ "amount" ∈ Pandas.columns empty_recent
   /\ Pandas.getitem empty_recent "amount" = Return []
   /\ ZTest.detect_drift (H := example_scipy)
        (ZTest.new constant_historical empty_recent) "amount"
      = Raise (ZeroDivisionError "float division by zero"))
  /\ ("amount" ∈ Pandas.columns constant_historical
      /\ "amount" ∈ Pandas.columns constant_recent
      /\ CUSUM.detect_drift (CUSUM.new constant_historical constant_recent)
           "amount"
         = Raise (AttributeError "'Series' object has no attribute 'concat'")
      /\ exists det,
           get_drift_detector "cusum" constant_historical constant_recent
           = Return det
           /\ detect_drift (H := example_scipy) det "amount"
              = Raise (AttributeError
                         "'Series' object has no attribute 'concat'")).
Proof.
  split.
  - split; [simpl; set_solver |]. split; [simpl; set_solver |].
    split; reflexivity.
  - split; [simpl; set_solver |]. split; [simpl; set_solver |].
    split; [reflexivity |].
    eexists. split; reflexivity.
Qed.

(** ** Histograms *)

Lemma amin_le (x : Q) (t : list Q) : (Numpy.amin x t <= x)%Q.
Proof.
  unfold Numpy.amin. revert x. induction t as [| y t IH]; intros x; simpl.
  - apply Qle_refl.
  - eapply Qle_trans; [apply IH | apply Q.le_min_l].
Qed.

Lemma amax_ge (x : Q) (t : list Q) : (x <= Numpy.amax x t)%Q.
Proof.
  unfold Numpy.amax. revert x. induction t as [| y t IH]; intros x; simpl.
  - apply Qle_refl.
  - eapply Qle_trans; [apply Q.le_max_l | apply IH].
Qed.

Lemma amin_lower (x : Q) (t : list Q) (y : Q) :
  y ∈ t -> (Numpy.amin x t <= y)%Q.
Proof.
  unfold Numpy.amin. revert x. induction t as [| z t IH]; intros x Hy;
    [inversion Hy |].
  simpl. apply elem_of_cons in Hy as [-> | Hy]; [| now apply IH].
  eapply Qle_trans; [apply (amin_le (Qmin x z) t) | apply Q.le_min_r].
Qed.

Lemma amax_upper (x : Q) (t : list Q) (y : Q) :
  y ∈ t -> (y <= Numpy.amax x t)%Q.
Proof.
  unfold Numpy.amax. revert x. induction t as [| z t IH]; intros x Hy;
    [inversion Hy |].
  simpl. apply elem_of_cons in Hy as [-> | Hy]; [| now apply IH].
  eapply Qle_trans; [apply Q.le_max_r | apply (amax_ge (Qmax x z) t)].
Qed.

(** The range of the bins holds every value of the sample. *)
Lemma outer_edges_range (a : list Q) :
  Forall (fun y => (fst (Numpy.outer_edges a) <= y
                    /\ y <= snd (Numpy.outer_edges a))%Q) a.
Proof.
  destruct a as [| x t]; [constructor |].
  assert (Hin : forall y, y ∈ x :: t ->
            (Numpy.amin x t <= y /\ y <= Numpy.amax x t)%Q).
  { intros y Hy. apply elem_of_cons in Hy as [-> | Hy].
    - split; [apply amin_le | apply amax_ge].
    - split; [now apply amin_lower | now apply amax_upper]. }
  apply Forall_forall. intros y Hy. specialize (Hin y Hy). simpl.
  destruct (Qeq_bool (Numpy.amin x t) (Numpy.amax x t)); simpl; lra.
Qed.

(** The range of the bins is never empty. *)
Lemma outer_edges_lt (a : list Q) :
  (fst (Numpy.outer_edges a) < snd (Numpy.outer_edges a))%Q.
Proof.
  destruct a as [| x t]; simpl; [reflexivity |].
  pose proof (amin_le x t) as Hmin. pose proof (amax_ge x t) as Hmax.
  destruct (Qeq_bool (Numpy.amin x t) (Numpy.amax x t)) eqn:E; simpl.
  - apply Qeq_bool_eq in E. lra.
  - apply Qeq_bool_neq in E.
    destruct (Qlt_le_dec (Numpy.amin x t) (Numpy.amax x t)) as [Hlt | Hge];
      [exact Hlt |].
    exfalso. apply E. lra.
Qed.

(** The counts over edges [f k, ..., f (last - 1), hi], bin by bin. *)
Lemma bin_counts_edges (a : list Q) (f : nat -> Q) (hi : Q) (last : nat) :
  forall n k, (k + n = last)%nat ->
  Numpy.bin_counts a (map f (seq k n) ++ [hi])
  = map (fun i =>
           Numpy.count (fun x =>
             Qle_bool (f i) x &&
             (if (S i =? last)%nat then Qle_bool x hi
              else Numpy.Qltb x (f (S i)))) a)
        (seq k n).
Proof.
  induction n as [| n IH]; intros k Hk; [reflexivity |].
  cbn [seq map app]. rewrite <- (IH (S k)) by lia.
  destruct n as [| n].
  - cbn [seq map app Numpy.bin_counts].
    replace (S k =? last)%nat with true by (symmetry; apply Nat.eqb_eq; lia).
    reflexivity.
  - replace (S k =? last)%nat with false by (symmetry; apply Nat.eqb_neq; lia).
    cbn [seq map app]. generalize (map f (seq (S (S k)) n)). intros l.
    now destruct l.
Qed.

Lemma bin_counts_linspace (a : list Q) (lo hi : Q) (B : nat) :
  Numpy.bin_counts a (Numpy.linspace lo hi B) = equal_width_counts lo hi B a.
Proof.
  unfold Numpy.linspace, equal_width_counts.
  now rewrite (bin_counts_edges a _ hi B B 0 eq_refl).
Qed.

Lemma monotonic_edges (f : nat -> Q) (hi : Q) (last : nat) :
  (forall i, (S i < last)%nat -> (f i <= f (S i))%Q) ->
  (forall i, (S i = last)%nat -> (f i <= hi)%Q) ->
  forall n k, (k + n = last)%nat ->
  Numpy.monotonic (map f (seq k n) ++ [hi]) = true.
Proof.
  intros Hstep Hlast. induction n as [| n IH]; intros k Hk; [reflexivity |].
  cbn [seq map app]. specialize (IH (S k) ltac:(lia)).
  destruct n as [| n].
  - cbn [seq map app Numpy.monotonic].
    rewrite andb_true_r. apply Qle_bool_iff, Hlast. lia.
  - cbn [seq map app] in *. cbn [Numpy.monotonic] in *.
    rewrite IH, andb_true_r. apply Qle_bool_iff, Hstep. lia.
Qed.

Lemma linspace_monotonic (lo hi : Q) (B : nat) :
  (lo < hi)%Q -> (1 <= B)%nat ->
  Numpy.monotonic (Numpy.linspace lo hi B) = true.
Proof.
  intros Hlt HB. unfold Numpy.linspace.
  set (b := inject_Z (Z.of_nat B)).
  assert (Hb : (0 < b)%Q).
  { unfold b. change 0%Q with (inject_Z 0). rewrite <- Zlt_Qlt. lia. }
  set (step := ((hi - lo) / b)%Q).
  assert (Hmul : (step * b == hi - lo)%Q).
  { unfold step. field. lra. }
  assert (Hstep : (0 < step)%Q).
  { unfold step. apply Qlt_shift_div_l; [exact Hb | lra]. }
  apply (monotonic_edges _ hi B); [| | reflexivity].
  - intros i _. rewrite Nat2Z.inj_succ, <- Z.add_1_r, inject_Z_plus.
    change (inject_Z 1) with 1%Q. nra.
  - intros i Hi.
    assert (Hib : (inject_Z (Z.of_nat i) == b - 1)%Q).
    { unfold b. rewrite <- Hi, Nat2Z.inj_succ, <- Z.add_1_r, inject_Z_plus.
      change (inject_Z 1) with 1%Q. lra. }
    rewrite Hib. nra.
Qed.

(** [np.histogram] with an integer number of bins: the counts of the
    equal-width bins over the range of the sample, and their edges. *)
Lemma histogram_equal_width (a : list Q) (bins : Z) :
  1 <= bins ->
  Numpy.histogram a bins
  = Return (equal_width_counts (fst (Numpy.outer_edges a))
              (snd (Numpy.outer_edges a)) (Z.to_nat bins) a,
            Numpy.linspace (fst (Numpy.outer_edges a))
              (snd (Numpy.outer_edges a)) (Z.to_nat bins)).
Proof.
  intros Hbins. unfold Numpy.histogram.
  destruct (bins <? 1) eqn:E; [apply Z.ltb_lt in E; lia |].
  destruct (Numpy.outer_edges a) as [lo hi]. simpl.
  now rewrite bin_counts_linspace.
Qed.

(** [np.histogram] with the edges of another histogram: the counts of
    the same bins. *)
Lemma histogram_edges_equal_width (a : list Q) (lo hi : Q) (B : nat) :
  (lo < hi)%Q -> (1 <= B)%nat ->
  Numpy.histogram_edges a (Numpy.linspace lo hi B)
  = Return (equal_width_counts lo hi B a, Numpy.linspace lo hi B).
Proof.
  intros Hlt HB. unfold Numpy.histogram_edges.
  now rewrite (linspace_monotonic lo hi B Hlt HB), bin_counts_linspace.
Qed.

Lemma equal_width_counts_length (lo hi : Q) (B : nat) (a : list Q) :
  length (equal_width_counts lo hi B a) = B.
Proof. unfold equal_width_counts. now rewrite length_map, length_seq. Qed.

Lemma equal_width_counts_nonneg (lo hi : Q) (B : nat) (a : list Q) :
  Forall (fun c => 0 <= c) (equal_width_counts lo hi B a).
Proof.
  unfold equal_width_counts. apply Forall_forall. intros c Hc.
  apply list_elem_of_In, in_map_iff in Hc as (i & <- & _).
  unfold Numpy.count. lia.
Qed.

(** ** Population Stability Index *)

Lemma Rsum_div (l : list R) (s : R) :
  Rsum (map (fun c => (c / s)%R) l) = (Rsum l / s)%R.
Proof.
  induction l as [| x l IH]; simpl; [unfold Rdiv; lra |].
  rewrite IH. unfold Rdiv. lra.
Qed.


Lemma Rsum_nonneg (l : list R) :
  Forall (fun x => (0 <= x)%R) l -> (0 <= Rsum l)%R.
Proof. induction 1 as [| x l Hx _ IH]; simpl; lra. Qed.

(** A vector of positive weights, normalised, is a probability vector
    without a zero. *)
Lemma normalized_sum (l : list R) : Rsum l <> 0%R -> Rsum (normalized l) = 1%R.
Proof. intros Hs. unfold normalized. rewrite Rsum_div. now field. Qed.






Lemma bin_edge_width (lo hi : Q) (B i : nat) :
  (bin_edge lo hi B (S i) - bin_edge lo hi B i
   == (hi - lo) / inject_Z (Z.of_nat B))%Q.
Proof.
  unfold bin_edge. rewrite Nat2Z.inj_succ, <- Z.add_1_r, inject_Z_plus.
  change (inject_Z 1) with 1%Q. ring.
Qed.

Lemma bin_edge_last (lo hi : Q) (B : nat) :
  (1 <= B)%nat -> (bin_edge lo hi B B == hi)%Q.
Proof.
  intros HB. unfold bin_edge.
  assert (Hb : ~ (inject_Z (Z.of_nat B) == 0)%Q).
  { change 0%Q with (inject_Z 0). rewrite inject_Z_injective. lia. }
  field. exact Hb.
Qed.

(** ** Every value within the range falls in exactly one bin *)

Lemma Zsum_fold (l : list Z) (acc : Z) :
  fold_left Z.add l acc = acc + fold_right Z.add 0 l.
Proof.
  revert acc. induction l as [| x l IH]; intros acc; simpl; [lia |].
  rewrite IH. lia.
Qed.

Lemma Zsum_zeros (l : list Z) : Forall (fun c => c = 0) l -> Numpy.Zsum l = 0.
Proof.
  unfold Numpy.Zsum. rewrite Zsum_fold.
  induction 1 as [| c l -> _ IH]; simpl in *; lia.
Qed.

Lemma Zsum_app (l : list Z) (x : Z) : Numpy.Zsum (l ++ [x]) = Numpy.Zsum l + x.
Proof. unfold Numpy.Zsum. now rewrite fold_left_app. Qed.

Lemma Zsum_map_add {A : Type} (f g : A -> Z) (l : list A) :
  Numpy.Zsum (map (fun i => f i + g i) l)
  = Numpy.Zsum (map f l) + Numpy.Zsum (map g l).
Proof.
  unfold Numpy.Zsum. rewrite !Zsum_fold.
  induction l as [| x l IH]; simpl in *; lia.
Qed.

Lemma count_cons (p : Q -> bool) (x : Q) (a : list Q) :
  Numpy.count p (x :: a) = Z.b2z (p x) + Numpy.count p a.
Proof.
  unfold Numpy.count. simpl. destruct (p x); simpl; lia.
Qed.

Lemma bin_edge_step (lo hi : Q) (B i : nat) :
  (lo < hi)%Q -> (1 <= B)%nat ->
  (bin_edge lo hi B i <= bin_edge lo hi B (S i))%Q.
Proof.
  intros Hlt HB. pose proof (bin_edge_width lo hi B i) as Hw.
  assert (Hb : (0 < inject_Z (Z.of_nat B))%Q).
  { change 0%Q with (inject_Z 0). rewrite <- Zlt_Qlt. lia. }
  assert (Hstep : (0 < (hi - lo) / inject_Z (Z.of_nat B))%Q).
  { apply Qlt_shift_div_l; [exact Hb | lra]. }
  lra.
Qed.

Lemma bin_edge_first (lo hi : Q) (B : nat) : (bin_edge lo hi B 0 == lo)%Q.
Proof.
  unfold bin_edge. change (inject_Z (Z.of_nat 0)) with 0%Q.
  rewrite Qmult_0_l. apply Qplus_0_r.
Qed.

Lemma bin_edge_from_lo (lo hi : Q) (B k : nat) :
  (lo < hi)%Q -> (1 <= B)%nat -> (lo <= bin_edge lo hi B k)%Q.
Proof.
  intros Hlt HB. induction k as [| k IH].
  - rewrite bin_edge_first. apply Qle_refl.
  - pose proof (bin_edge_step lo hi B k Hlt HB). lra.
Qed.

(** The bins before the [k]-th hold [x] exactly when [x] is between the
    lower end of the range and the [k]-th edge. *)
Lemma bins_before (lo hi : Q) (B : nat) (x : Q) (k : nat) :
  (lo < hi)%Q -> (k < B)%nat ->
  Numpy.Zsum (map (fun i => Z.b2z (in_bin lo hi B i x)) (seq 0 k))
  = Z.b2z (Qle_bool lo x && Numpy.Qltb x (bin_edge lo hi B k)).
Proof.
  intros Hlt. induction k as [| k IH]; intros Hk.
  - pose proof (bin_edge_first lo hi B) as H0.
    cbn [seq map]. unfold Numpy.Zsum. cbn [fold_left].
    compare_cases.
  - rewrite seq_S, map_app, Nat.add_0_l. cbn [map].
    rewrite Zsum_app, IH by lia.
    unfold in_bin.
    replace (S k =? B)%nat with false by (symmetry; apply Nat.eqb_neq; lia).
    pose proof (bin_edge_from_lo lo hi B k Hlt ltac:(lia)) as Hlo.
    pose proof (bin_edge_step lo hi B k Hlt ltac:(lia)) as Hstep.
    compare_cases.
Qed.

Lemma bins_of_value (lo hi : Q) (B : nat) (x : Q) :
  (lo < hi)%Q -> (1 <= B)%nat ->
  Numpy.Zsum (map (fun i => Z.b2z (in_bin lo hi B i x)) (seq 0 B))
  = Z.b2z (Qle_bool lo x && Qle_bool x hi).
Proof.
  intros Hlt HB. destruct B as [| k]; [lia |].
  rewrite seq_S, map_app, Nat.add_0_l. cbn [map].
  rewrite Zsum_app, (bins_before lo hi (S k) x k Hlt) by lia.
  unfold in_bin. rewrite Nat.eqb_refl.
  pose proof (bin_edge_from_lo lo hi (S k) k Hlt ltac:(lia)) as Hlo.
  pose proof (bin_edge_step lo hi (S k) k Hlt ltac:(lia)) as Hstep.
  pose proof (bin_edge_last lo hi (S k) ltac:(lia)) as Hlast.
  compare_cases.
Qed.

(** The counts of the bins add up to the number of values within the
    range: values outside are dropped, values inside are counted once. *)
Lemma equal_width_counts_total (lo hi : Q) (B : nat) (a : list Q) :
  (lo < hi)%Q -> (1 <= B)%nat ->
  Numpy.Zsum (equal_width_counts lo hi B a)
  = Numpy.count (fun x => Qle_bool lo x && Qle_bool x hi) a.
Proof.
  intros Hlt HB. unfold equal_width_counts.
  induction a as [| x a IH].
  - change (Numpy.count (fun x => Qle_bool lo x && Qle_bool x hi) []) with 0.
    apply Zsum_zeros, Forall_forall. intros c Hc.
    apply list_elem_of_In, in_map_iff in Hc as (i & <- & _). reflexivity.
  - rewrite count_cons, <- IH, <- (bins_of_value lo hi B x Hlt HB).
    rewrite <- Zsum_map_add. f_equal. apply map_ext. intros i.
    apply count_cons.
Qed.

Lemma count_pos (p : Q -> bool) (a : list Q) :
  Exists (fun x => p x = true) a -> 0 < Numpy.count p a.
Proof.
  unfold Numpy.count. induction 1 as [x a Hx | x a _ IH]; simpl.
  - rewrite Hx. simpl. lia.
  - destruct (p x); simpl; lia.
Qed.

(** The historical sample is counted in full. *)
Lemma historical_counts_total (hist : list Q) (B : nat) :
  (1 <= B)%nat ->
  Numpy.Zsum (equal_width_counts (fst (Numpy.outer_edges hist))
                (snd (Numpy.outer_edges hist)) B hist)
  = Z.of_nat (length hist).
Proof.
  intros HB.
  rewrite (equal_width_counts_total _ _ B hist (outer_edges_lt hist) HB).
  pose proof (outer_edges_range hist) as Hrange.
  unfold Numpy.count. f_equal. f_equal.
  destruct (Numpy.outer_edges hist) as [lo hi]. cbn [fst snd] in *.
  induction Hrange as [| x a [Hlo Hhi] _ IH]; [reflexivity |].
  apply Qle_bool_iff in Hlo, Hhi. cbn [List.filter]. rewrite Hlo, Hhi.
  cbn [andb]. now f_equal.
Qed.



(** ** Kullback-Leibler divergence *)

Lemma Zsum_IZR (l : list Z) : IZR (Numpy.Zsum l) = Rsum (map IZR l).
Proof.
  unfold Numpy.Zsum. rewrite Zsum_fold, Z.add_0_l.
  induction l as [| x l IH]; simpl; [reflexivity |].
  now rewrite plus_IZR, IH.
Qed.

(** Counts divided by their positive total, as floats and as reals. *)
Lemma float_probabilities (counts : list Z) :
  0 < Numpy.Zsum counts ->
  map (fun c => div (of_Z c) (of_Z (Numpy.Zsum counts))) counts
  = map Fin (normalized (map IZR counts)).
Proof.
  intros Hs. unfold normalized. rewrite !map_map, <- Zsum_IZR.
  apply map_ext. intros c. unfold of_Z.
  apply div_Fin_pos. now apply IZR_lt.
Qed.

(** The second normalisation, inside [entropy], changes nothing. *)
Lemma scale_probabilities (p : list R) :
  Rsum p = 1%R -> Scipy.scale (map Fin p) (Float64.sum (map Fin p)) = map Fin p.
Proof.
  intros Hs. unfold Scipy.scale. rewrite sum_Fin, Hs, map_map.
  apply map_ext. intros x. rewrite div_Fin_pos by lra. f_equal. field.
Qed.

Lemma rel_entr_pos (x y : R) :
  (0 < x)%R -> (0 < y)%R ->
  Scipy.rel_entr (Fin x) (Fin y) = Fin (x * ln (x / y)).
Proof.
  intros Hx Hy. unfold Scipy.rel_entr. cbn [sign].
  rewrite (Rsign_pos x Hx), (Rsign_pos y Hy).
  rewrite (div_Fin_pos x y Hy), log_Fin_pos by now apply Rdiv_lt_0_compat.
  reflexivity.
Qed.

Lemma rel_entr_zero (y : R) :
  (0 <= y)%R -> Scipy.rel_entr (Fin 0) (Fin y) = Fin 0.
Proof.
  intros Hy. unfold Scipy.rel_entr. cbn [sign]. rewrite Rsign_zero.
  pose proof (Rsign_spec y). destruct (Rsign y); [reflexivity | lra | reflexivity].
Qed.

Lemma rel_entr_inf (x : R) :
  (0 < x)%R -> Scipy.rel_entr (Fin x) (Fin 0) = PInf.
Proof.
  intros Hx. unfold Scipy.rel_entr. cbn [sign].
  now rewrite (Rsign_pos x Hx), Rsign_zero.
Qed.

(** The relative entropy of two non-negative reals is a real or plus
    infinity. *)
Lemma rel_entr_nonneg_cases (x y : R) :
  (0 <= x)%R -> (0 <= y)%R ->
  ((0 < x -> 0 < y)%R
   /\ Scipy.rel_entr (Fin x) (Fin y)
      = Fin (if Req_dec_T x 0 then 0 else x * ln (x / y)))
  \/ ((0 < x)%R /\ y = 0%R /\ Scipy.rel_entr (Fin x) (Fin y) = PInf).
Proof.
  intros Hx Hy.
  destruct (Req_dec_T x 0) as [-> | Hx0].
  - left. split; [lra | now apply rel_entr_zero].
  - destruct (Req_dec_T y 0) as [-> | Hy0].
    + right. split; [lra |]. split; [reflexivity | apply rel_entr_inf; lra].
    + left. split; [lra | apply rel_entr_pos; lra].
Qed.

Lemma sum_rel_entr_from_PInf (p q : list R) :
  Forall2 nonneg_pair p q ->
  fold_left add (zip_with Scipy.rel_entr (map Fin p) (map Fin q)) PInf = PInf.
Proof.
  induction 1 as [| x y p q [Hx Hy] _ IH]; [reflexivity |].
  cbn [map zip_with fold_left].
  destruct (rel_entr_nonneg_cases x y Hx Hy) as [[_ ->] | (_ & _ & ->)];
    exact IH.
Qed.

(** Where the second vector has mass wherever the first has, the sum of
    the relative entropies is the KL formula. *)
Lemma sum_rel_entr_finite (p q : list R) (acc : R) :
  Forall2 nonneg_pair p q ->
  Forall2 (fun x y => (0 < x -> 0 < y)%R) p q ->
  fold_left add (zip_with Scipy.rel_entr (map Fin p) (map Fin q)) (Fin acc)
  = Fin (acc + kl_formula p q).
Proof.
  intros Hnn. revert acc.
  induction Hnn as [| x y p q [Hx Hy] _ IH]; intros acc Hin.
  - simpl. unfold kl_formula. simpl. f_equal. lra.
  - apply Forall2_cons_1 in Hin as [Hxy Hin].
    cbn [map zip_with fold_left].
    destruct (rel_entr_nonneg_cases x y Hx Hy) as [[_ ->] | (Hx0 & -> & _)];
      [| specialize (Hxy Hx0); lra].
    cbn [add]. rewrite (IH _ Hin). f_equal.
    unfold kl_formula, Rsum. cbn [zip_with fold_right]. ring.
Qed.

(** Where some bin has mass in the first vector and none in the second,
    the sum is plus infinity. *)
Lemma sum_rel_entr_infinite (p q : list R) (acc : R) :
  Forall2 nonneg_pair p q ->
  ~ Forall2 (fun x y => (0 < x -> 0 < y)%R) p q ->
  fold_left add (zip_with Scipy.rel_entr (map Fin p) (map Fin q)) (Fin acc)
  = PInf.
Proof.
  intros Hnn. revert acc.
  induction Hnn as [| x y p q [Hx Hy] Hnn IH]; intros acc Hout.
  - exfalso. apply Hout. constructor.
  - cbn [map zip_with fold_left].
    destruct (rel_entr_nonneg_cases x y Hx Hy) as [[Hxy ->] | (_ & _ & ->)].
    + cbn [add]. apply IH. intros Hrest. apply Hout. now constructor.
    + cbn [add]. now apply sum_rel_entr_from_PInf.
Qed.

Lemma ln_le_minus_1 (x : R) : (0 < x)%R -> (ln x <= x - 1)%R.
Proof.
  intros Hx. destruct (Req_dec_T x 1) as [-> | Hne].
  - rewrite ln_1. lra.
  - assert (Hexp : (1 + (x - 1) < exp (x - 1))%R) by (apply exp_ineq1; lra).
    replace (1 + (x - 1))%R with x in Hexp by lra.
    apply Rlt_le. rewrite <- (ln_exp (x - 1)).
    now apply ln_increasing.
Qed.

(** Each term of the KL formula is at least the difference of the two
    masses: Gibbs' inequality, term by term. *)
Lemma kl_term_lower (x y : R) :
  (0 <= x)%R -> (0 <= y)%R -> (0 < x -> 0 < y)%R ->
  (x - y <= (if Req_dec_T x 0 then 0 else x * ln (x / y)))%R.
Proof.
  intros Hx Hy Hxy. destruct (Req_dec_T x 0) as [-> | Hx0]; [lra |].
  assert (Hx' : (0 < x)%R) by lra. specialize (Hxy Hx').
  assert (Hratio : (0 < y / x)%R) by now apply Rdiv_lt_0_compat.
  pose proof (ln_le_minus_1 (y / x) Hratio) as Hln.
  replace (x / y)%R with (/ (y / x))%R by (field; lra).
  rewrite ln_Rinv by exact Hratio.
  assert (Hmul : (x * ln (y / x) <= x * (y / x - 1))%R)
    by (apply Rmult_le_compat_l; lra).
  replace (x * (y / x - 1))%R with (y - x)%R in Hmul by (field; lra).
  lra.
Qed.

Lemma kl_formula_lower (p q : list R) :
  Forall2 nonneg_pair p q ->
  Forall2 (fun x y => (0 < x -> 0 < y)%R) p q ->
  (Rsum p - Rsum q <= kl_formula p q)%R.
Proof.
  intros Hnn. induction Hnn as [| x y p q [Hx Hy] _ IH]; intros Hin.
  - unfold kl_formula. simpl. lra.
  - apply Forall2_cons_1 in Hin as [Hxy Hin]. specialize (IH Hin).
    pose proof (kl_term_lower x y Hx Hy Hxy) as Hterm.
    unfold kl_formula, Rsum in *. cbn [zip_with fold_right] in *. lra.
Qed.

Lemma nonneg_counts_pairs (counts counts' : list Z) :
  Forall (fun c => 0 <= c) counts -> Forall (fun c => 0 <= c) counts' ->
  length counts = length counts' ->
  Forall2 (fun c c' => 0 <= c /\ 0 <= c') counts counts'.
Proof.
  intros Hc. revert counts'.
  induction Hc as [| c counts Hc0 _ IH]; intros [| c' counts'] Hc' Hlen;
    try discriminate; constructor.
  - split; [exact Hc0 | now inversion Hc'].
  - apply IH; [now inversion Hc' | now injection Hlen].
Qed.

(** A count divided by a positive total is positive exactly when the
    count is. *)
Lemma probability_pos (c s : Z) : 0 < s -> (0 < IZR c / IZR s)%R <-> 0 < c.
Proof.
  intros Hs. apply (IZR_lt 0) in Hs. split.
  - intros Hp. apply lt_IZR.
    apply (Rmult_lt_compat_r (IZR s)) in Hp; [| exact Hs].
    replace (IZR c / IZR s * IZR s)%R with (IZR c) in Hp by (field; lra). lra.
  - intros Hc. apply (IZR_lt 0) in Hc. now apply Rdiv_lt_0_compat.
Qed.

Lemma probability_nonneg (c s : Z) : 0 < s -> 0 <= c -> (0 <= IZR c / IZR s)%R.
Proof.
  intros Hs Hc. apply (IZR_lt 0) in Hs. apply (IZR_le 0) in Hc.
  apply Rmult_le_pos; [exact Hc |]. apply Rlt_le. now apply Rinv_0_lt_compat.
Qed.

(** The statistic of KLDivergence on two vectors of counts that both
    hold a value: the KL divergence of the historical from the recent
    distribution when the recent one has mass wherever the historical one
    has, and plus infinity otherwise. *)
Lemma kld_of_counts_cases (hist_counts recent_counts : list Z) :
  Forall (fun c => 0 <= c) hist_counts ->
  Forall (fun c => 0 <= c) recent_counts ->
  length hist_counts = length recent_counts ->
  0 < Numpy.Zsum hist_counts -> 0 < Numpy.Zsum recent_counts ->
  let p := normalized (map IZR hist_counts) in
  let q := normalized (map IZR recent_counts) in
  (support_within hist_counts recent_counts ->
   KLDivergence.kld_of_counts hist_counts recent_counts = Fin (kl_formula p q)
   /\ (0 <= kl_formula p q)%R)
  /\ (~ support_within hist_counts recent_counts ->
      KLDivergence.kld_of_counts hist_counts recent_counts = PInf).
Proof.
  intros Hh Hr Hlen Hsh Hsr p q.
  assert (Hp1 : Rsum p = 1%R).
  { apply normalized_sum. rewrite <- Zsum_IZR. apply Rgt_not_eq.
    now apply (IZR_lt 0). }
  assert (Hq1 : Rsum q = 1%R).
  { apply normalized_sum. rewrite <- Zsum_IZR. apply Rgt_not_eq.
    now apply (IZR_lt 0). }
  assert (Hkld : KLDivergence.kld_of_counts hist_counts recent_counts
                 = fold_left add
                     (zip_with Scipy.rel_entr (map Fin p) (map Fin q)) (Fin 0)).
  { unfold KLDivergence.kld_of_counts, Scipy.entropy.
    rewrite !float_probabilities by assumption. fold p q.
    now rewrite !scale_probabilities by assumption. }
  assert (Hpq : forall P : R -> R -> Prop,
            Forall2 P p q
            <-> Forall2 (fun c c' =>
                  P (IZR c / IZR (Numpy.Zsum hist_counts))%R
                    (IZR c' / IZR (Numpy.Zsum recent_counts))%R)
                  hist_counts recent_counts).
  { intros P. unfold p, q, normalized. rewrite !map_map, <- !Zsum_IZR.
    apply (Forall2_fmap
             (fun c => (IZR c / IZR (Numpy.Zsum hist_counts))%R)
             (fun c => (IZR c / IZR (Numpy.Zsum recent_counts))%R)). }
  assert (Hnn : Forall2 nonneg_pair p q).
  { apply Hpq.
    apply (Forall2_impl _ _ _ _ (nonneg_counts_pairs _ _ Hh Hr Hlen)).
    intros c c' [Hc Hc']. split; now apply probability_nonneg. }
  assert (Hsupp : support_within hist_counts recent_counts
                  <-> Forall2 (fun x y => (0 < x -> 0 < y)%R) p q).
  { rewrite Hpq. unfold support_within. split; intros Hs.
    - apply (Forall2_impl _ _ _ _ Hs). intros c c' Hcc Hc.
      apply probability_pos; [exact Hsr |].
      apply Hcc. now apply (probability_pos c _ Hsh).
    - apply (Forall2_impl _ _ _ _ Hs). intros c c' Hcc Hc.
      apply (probability_pos c' _ Hsr). apply Hcc.
      now apply probability_pos. }
  split.
  - intros Hin. apply Hsupp in Hin. split.
    + rewrite Hkld, (sum_rel_entr_finite p q 0 Hnn Hin). f_equal. lra.
    + pose proof (kl_formula_lower p q Hnn Hin). lra.
  - intros Hout. rewrite Hkld. apply sum_rel_entr_infinite; [exact Hnn |].
    intros Hin. now apply Hout, Hsupp.
Qed.

(** [KLDivergence.detect_drift] bins the two samples as PSICalculator
    does and hands the raw counts to [kld_of_counts]. *)
Lemma KL_detect_drift_counts (self : KLDivergence.t) (column_name : string)
  (hist_column recent_column : Pandas.Series) (hist recent : list Q) :
  Pandas.getitem (KLDivergence.historical_data self) column_name
    = Return hist_column ->
  as_array hist_column = Return hist ->
  Pandas.getitem (KLDivergence.recent_data self) column_name
    = Return recent_column ->
  as_array recent_column = Return recent ->
  1 <= KLDivergence.num_bins self ->
  let lo := fst (Numpy.outer_edges hist) in
  let hi := snd (Numpy.outer_edges hist) in
  let B := Z.to_nat (KLDivergence.num_bins self) in
  let kld :=
    KLDivergence.kld_of_counts (equal_width_counts lo hi B hist)
      (equal_width_counts lo hi B recent) in
  KLDivergence.detect_drift self column_name
  = Return (gtb kld (of_Q (KLDivergence.threshold self)), kld).
Proof.
  intros Hhc Hh Hrc Hr Hbins lo hi B kld.
  assert (HB : (1 <= B)%nat) by (unfold B; lia).
  unfold KLDivergence.detect_drift, mbind, result_bind.
  rewrite Hhc. cbn [Py.bind]. rewrite Hh. cbn [Py.bind].
  rewrite (histogram_equal_width hist _ Hbins). cbn [Py.bind].
  rewrite Hrc. cbn [Py.bind]. rewrite Hr. cbn [Py.bind].
  change (Z.to_nat (KLDivergence.num_bins self)) with B.
  rewrite (histogram_edges_equal_width recent _ _ _ (outer_edges_lt hist) HB).
  reflexivity.
Qed.




(** ** The numeric detectors on degenerate columns *)

Lemma numbers_length (l : list Pandas.cell) (qs : list Q) :
  Pandas.numbers l = Return qs -> length qs = length l.
Proof.
  revert qs. induction l as [| c l IH]; intros qs; simpl.
  - intros E. injection E as <-. reflexivity.
  - destruct c as [q | s]; [| discriminate].
    unfold mbind, result_bind.
    destruct (Pandas.numbers l) as [qs' | e]; simpl; [| discriminate].
    intros E. injection E as <-. simpl. now rewrite (IH qs' eq_refl).
Qed.

(** A column read as numbers has one number per row of its frame. *)
Lemma column_length (df : Pandas.DataFrame) (column_name : string)
  (s : Pandas.Series) (qs : list Q) :
  Pandas.getitem df column_name = Return s -> as_array s = Return qs ->
  Pandas.len df = Z.of_nat (length qs).
Proof.
  intros Hs Hqs. unfold as_array in Hqs. apply numbers_length in Hqs.
  unfold Pandas.getitem in Hs. destruct (decide _); [| discriminate].
  injection Hs as <-. unfold Pandas.values in Hqs.
  rewrite !length_fmap in Hqs. unfold Pandas.len. now rewrite Hqs.
Qed.

Lemma rel_entr_NaN_r (x : xreal) : Scipy.rel_entr x NaN = NaN.
Proof. unfold Scipy.rel_entr. simpl. now destruct (sign x) as [[] |]. Qed.

(** Against a vector of NaN the entropy is NaN. *)
Lemma entropy_NaN (pk qk : list xreal) :
  pk <> [] -> qk <> [] -> Forall (fun y => y = NaN) qk ->
  Scipy.entropy pk qk = NaN.
Proof.
  intros Hp Hq Hnan. unfold Scipy.entropy, Scipy.scale. apply sum_NaN.
  destruct pk as [| x pk]; [contradiction |].
  destruct Hnan as [| y qk -> _]; [contradiction |].
  cbn [map zip_with]. cbn [div]. rewrite rel_entr_NaN_r.
  apply elem_of_cons. now left.
Qed.

Lemma equal_width_counts_empty (lo hi : Q) (B : nat) :
  Forall (fun c => c = 0) (equal_width_counts lo hi B []).
Proof.
  unfold equal_width_counts. apply Forall_forall. intros c Hc.
  apply list_elem_of_In, in_map_iff in Hc as (i & <- & _). reflexivity.
Qed.

(** Without a recent value in the bins, the KL statistic is NaN. *)
Lemma kld_of_counts_no_recent (hist_counts recent_counts : list Z) :
  hist_counts <> [] -> recent_counts <> [] ->
  Forall (fun c => c = 0) recent_counts ->
  KLDivergence.kld_of_counts hist_counts recent_counts = NaN.
Proof.
  intros Hh Hr Hz. unfold KLDivergence.kld_of_counts.
  apply entropy_NaN.
  - now destruct hist_counts.
  - now destruct recent_counts.
  - rewrite (Zsum_zeros _ Hz). apply Forall_forall. intros y Hy.
    apply list_elem_of_In, in_map_iff in Hy as (c & <- & Hc).
    rewrite Forall_forall in Hz. rewrite (Hz c) by now apply list_elem_of_In.
    unfold of_Z, div. rewrite Rsign_zero. reflexivity.
Qed.

(** C6, amended.  On a numeric column that exists in both datasets:
    PSICalculator and KLDivergence return a result whatever the column
    holds, an empty or a single-valued column included; KSTest and ZTest
    return a result when the column has a value in either dataset.  A
    detector returns the statistic of its primitive as it is: KSTest the
    p-value that [ks_2samp] hands back, KLDivergence the NaN that an empty
    recent column produces. *)
Theorem numeric_detectors_return `{SciPy} (h r : Pandas.DataFrame)
  (column_name : string) (hist_column recent_column : Pandas.Series)
  (hist recent : list Q) (alpha epsilon threshold : Q) (bins : Z) :
  Pandas.getitem h column_name = Return hist_column ->
  as_array hist_column = Return hist ->
  Pandas.getitem r column_name = Return recent_column ->
  as_array recent_column = Return recent ->
  1 <= bins ->
  Py.returns (PSICalculator.detect_drift
                {| PSICalculator.historical_data := h;
                   PSICalculator.recent_data := r;
                   PSICalculator.bins := bins;
                   PSICalculator.epsilon := epsilon;
                   PSICalculator.threshold := threshold |} column_name)
  /\ Py.returns (KLDivergence.detect_drift
                   {| KLDivergence.historical_data := h;
                      KLDivergence.recent_data := r;
                      KLDivergence.num_bins := bins;
                      KLDivergence.threshold := threshold |} column_name)
  /\ (hist <> [] -> recent <> [] ->
      Py.returns (KSTest.detect_drift
                    {| KSTest.historical_data := h;
                       KSTest.recent_data := r;
                       KSTest.alpha := alpha |} column_name)
      /\ Py.returns (ZTest.detect_drift
                       {| ZTest.historical_data := h;
                          ZTest.recent_data := r;
                          ZTest.alpha := alpha |} column_name))
  /\ (forall statistic p_value,
        ks_2samp hist recent = Return (statistic, p_value) ->
        KSTest.detect_drift
          {| KSTest.historical_data := h;
             KSTest.recent_data := r;
             KSTest.alpha := alpha |} column_name
        = Return (ltb p_value (of_Q alpha), p_value))
  /\ (recent = [] ->
      KLDivergence.detect_drift
        {| KLDivergence.historical_data := h;
           KLDivergence.recent_data := r;
           KLDivergence.num_bins := bins;
           KLDivergence.threshold := threshold |} column_name
      = Return (false, NaN)).
Proof.
  intros Hhc Hh Hrc Hr Hbins.
  assert (HB : (1 <= Z.to_nat bins)%nat) by lia.
  assert (Hks : forall statistic p_value,
            ks_2samp hist recent = Return (statistic, p_value) ->
            KSTest.detect_drift
              {| KSTest.historical_data := h;
                 KSTest.recent_data := r;
                 KSTest.alpha := alpha |} column_name
            = Return (ltb p_value (of_Q alpha), p_value)).
  { intros statistic p_value Hp.
    unfold KSTest.detect_drift, mbind, result_bind.
    cbn [KSTest.historical_data KSTest.recent_data KSTest.alpha].
    rewrite Hhc. cbn [Py.bind]. rewrite Hrc. cbn [Py.bind].
    rewrite Hh. cbn [Py.bind]. rewrite Hr. cbn [Py.bind].
    rewrite Hp. reflexivity. }
  split; [| split; [| split; [| split; [exact Hks |]]]].
  - eexists. unfold PSICalculator.detect_drift, mbind, result_bind.
    cbn [PSICalculator.historical_data PSICalculator.recent_data
         PSICalculator.bins].
    rewrite Hhc. cbn [Py.bind]. rewrite Hh. cbn [Py.bind].
    rewrite (histogram_equal_width hist _ Hbins). cbn [Py.bind].
    rewrite Hrc. cbn [Py.bind]. rewrite Hr. cbn [Py.bind].
    rewrite (histogram_edges_equal_width recent _ _ _ (outer_edges_lt hist) HB).
    reflexivity.
  - eexists.
    exact (KL_detect_drift_counts
             {| KLDivergence.historical_data := h;
                KLDivergence.recent_data := r;
                KLDivergence.num_bins := bins;
                KLDivergence.threshold := threshold |}
             column_name _ _ _ _ Hhc Hh Hrc Hr Hbins).
  - intros Hhne Hrne. split.
    + destruct (ks_2samp_nonempty hist recent Hhne Hrne) as [[statistic p] Hp].
      eexists. exact (Hks statistic p Hp).
    + pose proof (column_length _ _ _ _ Hhc Hh) as Hn1.
      pose proof (column_length _ _ _ _ Hrc Hr) as Hn2.
      unfold ZTest.detect_drift, ZTest.variance_over, mbind, result_bind.
      cbn [ZTest.historical_data ZTest.recent_data ZTest.alpha].
      rewrite Hhc. cbn [Py.bind]. rewrite Hh. cbn [Py.bind].
      rewrite Hrc. cbn [Py.bind]. rewrite Hr. cbn [Py.bind].
      rewrite Hn1, Hn2.
      destruct hist as [| x hist]; [contradiction |].
      destruct recent as [| y recent]; [contradiction |].
      replace (Z.of_nat (length (x :: hist)) =? 0) with false
        by (symmetry; apply Z.eqb_neq; simpl; lia).
      replace (Z.of_nat (length (y :: recent)) =? 0) with false
        by (symmetry; apply Z.eqb_neq; simpl; lia).
      cbn [Py.bind]. eexists. reflexivity.
  - intros ->.
    rewrite (KL_detect_drift_counts
               {| KLDivergence.historical_data := h;
                  KLDivergence.recent_data := r;
                  KLDivergence.num_bins := bins;
                  KLDivergence.threshold := threshold |}
               column_name _ _ _ _ Hhc Hh Hrc Hr Hbins).
    cbn [KLDivergence.num_bins KLDivergence.threshold].
    rewrite kld_of_counts_no_recent; [reflexivity | | |].
    + intros E. apply (f_equal length) in E.
      rewrite equal_width_counts_length in E. simpl in E. lia.
    + intros E. apply (f_equal length) in E.
      rewrite equal_width_counts_length in E. simpl in E. lia.
    + apply equal_width_counts_empty.
Qed.

Lemma numeric_detectors_return_witness :
  let h := constant_historical in
  let r := constant_recent in
  Py.returns (PSICalculator.detect_drift
                {| PSICalculator.historical_data := h;
                   PSICalculator.recent_data := r;
                   PSICalculator.bins := 10;
                   PSICalculator.epsilon := 1 # 100000;
                   PSICalculator.threshold := 1 # 10 |} "amount")
  /\ Py.returns (KLDivergence.detect_drift
                   {| KLDivergence.historical_data := h;
                      KLDivergence.recent_data := r;
                      KLDivergence.num_bins := 10;
                      KLDivergence.threshold := 1 # 10 |} "amount")
  /\ ([7; 7]%Q <> [] -> [7]%Q <> [] ->
      Py.returns (KSTest.detect_drift (H := example_scipy)
                    {| KSTest.historical_data := h;
                       KSTest.recent_data := r;
                       KSTest.alpha := 5 # 100 |} "amount")
      /\ Py.returns (ZTest.detect_drift (H := example_scipy)
                       {| ZTest.historical_data := h;
                          ZTest.recent_data := r;
                          ZTest.alpha := 5 # 100 |} "amount"))
  /\ (forall statistic p_value,
        ks_2samp (SciPy := example_scipy) [7; 7]%Q [7]%Q
          = Return (statistic, p_value) ->
        KSTest.detect_drift (H := example_scipy)
          {| KSTest.historical_data := h;
             KSTest.recent_data := r;
             KSTest.alpha := 5 # 100 |} "amount"
        = Return (ltb p_value (of_Q (5 # 100)), p_value))
  /\ ([7]%Q = [] ->
      KLDivergence.detect_drift
        {| KLDivergence.historical_data := h;
           KLDivergence.recent_data := r;
           KLDivergence.num_bins := 10;
           KLDivergence.threshold := 1 # 10 |} "amount"
      = Return (false, NaN)).
Proof.
  refine (numeric_detectors_return (H := example_scipy)
            constant_historical constant_recent "amount"
            [(0, Pandas.Num 7); (1, Pandas.Num 7)] [(2, Pandas.Num 7)]
            [7; 7]%Q [7]%Q (5 # 100) (1 # 100000) (1 # 10) 10 _ _ _ _ _).
  - reflexivity.
  - reflexivity.
  - reflexivity.
  - reflexivity.
  - lia.
Defined.

(** * Further properties of the code *)

(** ** A column that a frame does not have *)

Lemma getitem_missing (df : Pandas.DataFrame) (column_name : string) :
  column_name ∉ Pandas.columns df ->
  Pandas.getitem df column_name = Raise (KeyError column_name).
Proof.
  intros Hout. unfold Pandas.getitem.
  destruct (decide _); [contradiction | reflexivity].
Qed.

Lemma detect_drift_key_error `{SciPy} (det : detector) (column_name : string) :
  column_name ∉ Pandas.columns (historical_of det) ->
  detect_drift det column_name = Raise (KeyError column_name).
Proof.
  intros Hout.
  destruct det as [d | d | d | d | d | d | d]; cbn [historical_of] in Hout;
    cbn [detect_drift];
    unfold ZTest.detect_drift, PSICalculator.detect_drift,
      ChiSquaredTest.detect_drift, CramersVTest.detect_drift,
      KSTest.detect_drift, CUSUM.detect_drift, KLDivergence.detect_drift,
      mbind, result_bind;
    now rewrite (getitem_missing _ _ Hout).
Qed.

(** X1.  Whatever its class, a detector asked for a column that one of
    its two frames does not have raises.  When the historical frame lacks
    the column, the exception is KeyError with the name of the column: the
    first thing every [detect_drift] does is to select the column from the
    historical data. *)
Theorem detect_drift_missing_column `{SciPy} (det : detector)
  (column_name : string) :
  column_name ∉ Pandas.columns (historical_of det)
  \/ column_name ∉ Pandas.columns (recent_of det) ->
  Py.raises (detect_drift det column_name)
  /\ (column_name ∉ Pandas.columns (historical_of det) ->
      detect_drift det column_name = Raise (KeyError column_name)).
Proof.
  intros Hout. split; [| apply detect_drift_key_error].
  destruct Hout as [Hout | Hout];
    [eexists; now apply detect_drift_key_error |].
  destruct det as [d | d | d | d | d | d | d]; cbn [recent_of] in Hout;
    cbn [detect_drift];
    unfold ZTest.detect_drift, PSICalculator.detect_drift,
      ChiSquaredTest.detect_drift, CramersVTest.detect_drift,
      KSTest.detect_drift, CUSUM.detect_drift, KLDivergence.detect_drift,
      as_statistic, Py.raises, mbind, result_bind;
    rewrite (getitem_missing _ _ Hout);
    repeat (next_call; try (eexists; reflexivity));
    repeat match goal with
           | |- context [let '(_, _) := ?p in _] => destruct p
           end; simpl; eexists; reflexivity.
Qed.

Lemma detect_drift_missing_column_witness :
  Py.raises (detect_drift (H := example_scipy)
               (IsKSTest (KSTest.new amount_historical amount_recent)) "price")
  /\ ("price" ∉ Pandas.columns
                  (historical_of
                     (IsKSTest (KSTest.new amount_historical amount_recent))) ->
      detect_drift (H := example_scipy)
        (IsKSTest (KSTest.new amount_historical amount_recent)) "price"
      = Raise (KeyError "price")).
Proof.
  apply (detect_drift_missing_column (H := example_scipy)
           (IsKSTest (KSTest.new amount_historical amount_recent)) "price").
  left. apply (bool_decide_unpack _). vm_compute. exact I.
Defined.

(** ** A number of bins below one *)

(** X2.  PSICalculator and KLDivergence hand their number of bins to
    [np.histogram] unchecked: on a numeric historical column, a number of
    bins below one makes [detect_drift] raise the ValueError of
    [np.histogram], before the recent data is looked at. *)
Theorem binned_detectors_reject_bins_below_one (h r : Pandas.DataFrame)
  (column_name : string) (hist_column : Pandas.Series) (hist : list Q)
  (bins : Z) (epsilon threshold : Q) :
  Pandas.getitem h column_name = Return hist_column ->
  as_array hist_column = Return hist ->
  bins < 1 ->
  PSICalculator.detect_drift
    {| PSICalculator.historical_data := h; PSICalculator.recent_data := r;
       PSICalculator.bins := bins; PSICalculator.epsilon := epsilon;
       PSICalculator.threshold := threshold |} column_name
  = Raise (ValueError "`bins` must be positive, when an integer")
  /\ KLDivergence.detect_drift
       {| KLDivergence.historical_data := h; KLDivergence.recent_data := r;
          KLDivergence.num_bins := bins;
          KLDivergence.threshold := threshold |} column_name
     = Raise (ValueError "`bins` must be positive, when an integer").
Proof.
  intros Hhc Hh Hbins.
  assert (Hhist : Numpy.histogram hist bins
                  = Raise (ValueError "`bins` must be positive, when an integer")).
  { unfold Numpy.histogram.
    destruct (bins <? 1) eqn:E; [reflexivity | apply Z.ltb_ge in E; lia]. }
  unfold PSICalculator.detect_drift, KLDivergence.detect_drift, mbind,
    result_bind.
  cbn [PSICalculator.historical_data PSICalculator.bins
       KLDivergence.historical_data KLDivergence.num_bins].
  rewrite Hhc. cbn [Py.bind]. rewrite Hh. cbn [Py.bind]. rewrite Hhist.
  split; reflexivity.
Qed.

Lemma binned_detectors_reject_bins_below_one_witness :
  PSICalculator.detect_drift
    {| PSICalculator.historical_data := amount_historical;
       PSICalculator.recent_data := amount_recent;
       PSICalculator.bins := 0; PSICalculator.epsilon := 1 # 100000;
       PSICalculator.threshold := 1 # 10 |} "amount"
  = Raise (ValueError "`bins` must be positive, when an integer")
  /\ KLDivergence.detect_drift
       {| KLDivergence.historical_data := amount_historical;
          KLDivergence.recent_data := amount_recent;
          KLDivergence.num_bins := 0;
          KLDivergence.threshold := 1 # 10 |} "amount"
     = Raise (ValueError "`bins` must be positive, when an integer").
Proof.
  refine (binned_detectors_reject_bins_below_one amount_historical
            amount_recent "amount" [(0, Pandas.Num 1); (1, Pandas.Num 2)]
            [1; 2]%Q 0 (1 # 100000) (1 # 10) _ _ _).
  - reflexivity.
  - reflexivity.
  - lia.
Defined.

(** ** The sign of the Population Stability Index *)

(** [PSICalculator.detect_drift] bins the two samples over the range of
    the historical one and hands the counts to [psi_of_counts]. *)
Lemma PSI_detect_drift_counts (self : PSICalculator.t) (column_name : string)
  (hist_column recent_column : Pandas.Series) (hist recent : list Q) :
  Pandas.getitem (PSICalculator.historical_data self) column_name
    = Return hist_column ->
  as_array hist_column = Return hist ->
  Pandas.getitem (PSICalculator.recent_data self) column_name
    = Return recent_column ->
  as_array recent_column = Return recent ->
  1 <= PSICalculator.bins self ->
  let lo := fst (Numpy.outer_edges hist) in
  let hi := snd (Numpy.outer_edges hist) in
  let B := Z.to_nat (PSICalculator.bins self) in
  let psi :=
    PSICalculator.psi_of_counts (PSICalculator.epsilon self)
      (equal_width_counts lo hi B hist) (equal_width_counts lo hi B recent) in
  PSICalculator.detect_drift self column_name
  = Return (gtb psi (of_Q (PSICalculator.threshold self)), psi).
Proof.
  intros Hhc Hh Hrc Hr Hbins lo hi B psi.
  assert (HB : (1 <= B)%nat) by (unfold B; lia).
  unfold PSICalculator.detect_drift, mbind, result_bind.
  rewrite Hhc. cbn [Py.bind]. rewrite Hh. cbn [Py.bind].
  rewrite (histogram_equal_width hist _ Hbins). cbn [Py.bind].
  rewrite Hrc. cbn [Py.bind]. rewrite Hr. cbn [Py.bind].
  change (Z.to_nat (PSICalculator.bins self)) with B.
  rewrite (histogram_edges_equal_width recent _ _ _ (outer_edges_lt hist) HB).
  reflexivity.
Qed.






(** ** Recent values outside the historical range *)

Lemma bin_edge_le_hi (lo hi : Q) (B k : nat) :
  (lo < hi)%Q -> (1 <= B)%nat -> (k <= B)%nat -> (bin_edge lo hi B k <= hi)%Q.
Proof.
  intros Hlt HB Hk. rewrite <- (bin_edge_last lo hi B HB) at 2.
  replace B with (k + (B - k))%nat at 3 by lia.
  induction (B - k)%nat as [| n IH].
  - rewrite Nat.add_0_r. apply Qle_refl.
  - rewrite Nat.add_succ_r. eapply Qle_trans; [exact IH |].
    now apply bin_edge_step.
Qed.

(** A value that falls in a bin is within the range of the bins. *)
Lemma in_bin_within (lo hi : Q) (B i : nat) (x : Q) :
  (lo < hi)%Q -> (i < B)%nat ->
  in_bin lo hi B i x = true -> within lo hi x = true.
Proof.
  intros Hlt Hi. unfold in_bin, within.
  pose proof (bin_edge_from_lo lo hi B i Hlt ltac:(lia)) as Hlo.
  pose proof (bin_edge_le_hi lo hi B (S i) Hlt ltac:(lia) ltac:(lia)) as Hhi.
  destruct (S i =? B)%nat; compare_cases; intros; try discriminate;
    try reflexivity; lra.
Qed.

Lemma count_filter (p q : Q -> bool) (a : list Q) :
  (forall x, p x = true -> q x = true) ->
  Numpy.count p (List.filter q a) = Numpy.count p a.
Proof.
  intros Hpq. unfold Numpy.count. f_equal. f_equal.
  induction a as [| x a IH]; [reflexivity |]. cbn [List.filter].
  destruct (q x) eqn:Eq; cbn [List.filter]; rewrite IH; [reflexivity |].
  destruct (p x) eqn:Ep; [| reflexivity].
  rewrite (Hpq x Ep) in Eq. discriminate.
Qed.

(** The counts of a sample are those of its values within the range. *)
Lemma equal_width_counts_within (lo hi : Q) (B : nat) (a : list Q) :
  (lo < hi)%Q ->
  equal_width_counts lo hi B (List.filter (within lo hi) a)
  = equal_width_counts lo hi B a.
Proof.
  intros Hlt. unfold equal_width_counts. apply map_ext_in. intros i Hi.
  apply in_seq in Hi. apply count_filter. intros x.
  apply in_bin_within; [exact Hlt | lia].
Qed.

(** X4.  PSICalculator and KLDivergence count the recent values in the
    bins of the historical range, and a value outside that range falls in
    no bin: two recent columns that hold the same values within the range
    of the historical column give the same result, whatever else they
    hold.  The recent values below the historical minimum or above the
    historical maximum do not enter the statistic. *)
Theorem binned_detectors_ignore_values_out_of_range
  (h r r' : Pandas.DataFrame) (column_name : string)
  (hist_column recent_column recent_column' : Pandas.Series)
  (hist recent recent' : list Q) (bins : Z) (epsilon threshold : Q) :
  Pandas.getitem h column_name = Return hist_column ->
  as_array hist_column = Return hist ->
  Pandas.getitem r column_name = Return recent_column ->
  as_array recent_column = Return recent ->
  Pandas.getitem r' column_name = Return recent_column' ->
  as_array recent_column' = Return recent' ->
  1 <= bins ->
  let lo := fst (Numpy.outer_edges hist) in
  let hi := snd (Numpy.outer_edges hist) in
  List.filter (within lo hi) recent = List.filter (within lo hi) recent' ->
  PSICalculator.detect_drift
    {| PSICalculator.historical_data := h; PSICalculator.recent_data := r;
       PSICalculator.bins := bins; PSICalculator.epsilon := epsilon;
       PSICalculator.threshold := threshold |} column_name
  = PSICalculator.detect_drift
      {| PSICalculator.historical_data := h; PSICalculator.recent_data := r';
         PSICalculator.bins := bins; PSICalculator.epsilon := epsilon;
         PSICalculator.threshold := threshold |} column_name
  /\ KLDivergence.detect_drift
       {| KLDivergence.historical_data := h; KLDivergence.recent_data := r;
          KLDivergence.num_bins := bins;
          KLDivergence.threshold := threshold |} column_name
     = KLDivergence.detect_drift
         {| KLDivergence.historical_data := h; KLDivergence.recent_data := r';
            KLDivergence.num_bins := bins;
            KLDivergence.threshold := threshold |} column_name.
Proof.
  intros Hhc Hh Hrc Hr Hrc' Hr' Hbins lo hi Hsame.
  assert (Hcounts : equal_width_counts lo hi (Z.to_nat bins) recent
                    = equal_width_counts lo hi (Z.to_nat bins) recent').
  { rewrite <- (equal_width_counts_within lo hi _ recent (outer_edges_lt hist)).
    rewrite <- (equal_width_counts_within lo hi _ recent' (outer_edges_lt hist)).
    now rewrite Hsame. }
  split.
  - rewrite (PSI_detect_drift_counts
               {| PSICalculator.historical_data := h;
                  PSICalculator.recent_data := r; PSICalculator.bins := bins;
                  PSICalculator.epsilon := epsilon;
                  PSICalculator.threshold := threshold |}
               column_name _ _ _ _ Hhc Hh Hrc Hr Hbins).
    rewrite (PSI_detect_drift_counts
               {| PSICalculator.historical_data := h;
                  PSICalculator.recent_data := r'; PSICalculator.bins := bins;
                  PSICalculator.epsilon := epsilon;
                  PSICalculator.threshold := threshold |}
               column_name _ _ _ _ Hhc Hh Hrc' Hr' Hbins).
    cbn [PSICalculator.bins PSICalculator.epsilon PSICalculator.threshold].
    fold lo hi. now rewrite Hcounts.
  - rewrite (KL_detect_drift_counts
               {| KLDivergence.historical_data := h;
                  KLDivergence.recent_data := r; KLDivergence.num_bins := bins;
                  KLDivergence.threshold := threshold |}
               column_name _ _ _ _ Hhc Hh Hrc Hr Hbins).
    rewrite (KL_detect_drift_counts
               {| KLDivergence.historical_data := h;
                  KLDivergence.recent_data := r'; KLDivergence.num_bins := bins;
                  KLDivergence.threshold := threshold |}
               column_name _ _ _ _ Hhc Hh Hrc' Hr' Hbins).
    cbn [KLDivergence.num_bins KLDivergence.threshold].
    fold lo hi. now rewrite Hcounts.
Qed.

Lemma binned_detectors_ignore_values_out_of_range_witness :
  PSICalculator.detect_drift
    {| PSICalculator.historical_data := amount_historical;
       PSICalculator.recent_data := frame_of "amount" [(2, 2%Q); (3, 9%Q)];
       PSICalculator.bins := 10; PSICalculator.epsilon := 1 # 100000;
       PSICalculator.threshold := 1 # 10 |} "amount"
  = PSICalculator.detect_drift
      {| PSICalculator.historical_data := amount_historical;
         PSICalculator.recent_data := frame_of "amount" [(2, 2%Q)];
         PSICalculator.bins := 10; PSICalculator.epsilon := 1 # 100000;
         PSICalculator.threshold := 1 # 10 |} "amount"
  /\ KLDivergence.detect_drift
       {| KLDivergence.historical_data := amount_historical;
          KLDivergence.recent_data := frame_of "amount" [(2, 2%Q); (3, 9%Q)];
          KLDivergence.num_bins := 10;
          KLDivergence.threshold := 1 # 10 |} "amount"
     = KLDivergence.detect_drift
         {| KLDivergence.historical_data := amount_historical;
            KLDivergence.recent_data := frame_of "amount" [(2, 2%Q)];
            KLDivergence.num_bins := 10;
            KLDivergence.threshold := 1 # 10 |} "amount".
Proof.
  refine (binned_detectors_ignore_values_out_of_range amount_historical
            (frame_of "amount" [(2, 2%Q); (3, 9%Q)])
            (frame_of "amount" [(2, 2%Q)]) "amount"
            [(0, Pandas.Num 1); (1, Pandas.Num 2)]
            [(2, Pandas.Num 2); (3, Pandas.Num 9)] [(2, Pandas.Num 2)]
            [1; 2]%Q [2; 9]%Q [2]%Q 10 (1 # 100000) (1 # 10) _ _ _ _ _ _ _ _).
  - reflexivity.
  - reflexivity.
  - reflexivity.
  - reflexivity.
  - reflexivity.
  - reflexivity.
  - lia.
  - reflexivity.
Defined.

(** ** When the Kullback-Leibler statistic is NaN, and when it is zero *)

Lemma rel_entr_NaN_l (y : xreal) : Scipy.rel_entr NaN y = NaN.
Proof. reflexivity. Qed.

(** Of a vector of NaN the entropy is NaN. *)
Lemma entropy_NaN_l (pk qk : list xreal) :
  pk <> [] -> qk <> [] -> Forall (fun x => x = NaN) pk ->
  Scipy.entropy pk qk = NaN.
Proof.
  intros Hp Hq Hnan. unfold Scipy.entropy, Scipy.scale. apply sum_NaN.
  destruct qk as [| y qk]; [contradiction |].
  destruct Hnan as [| x pk -> _]; [contradiction |].
  cbn [map zip_with]. cbn [div]. rewrite rel_entr_NaN_l.
  apply elem_of_cons. now left.
Qed.

(** Without a historical value in the bins, the KL statistic is NaN. *)
Lemma kld_of_counts_no_hist (hist_counts recent_counts : list Z) :
  hist_counts <> [] -> recent_counts <> [] ->
  Forall (fun c => c = 0) hist_counts ->
  KLDivergence.kld_of_counts hist_counts recent_counts = NaN.
Proof.
  intros Hh Hr Hz. unfold KLDivergence.kld_of_counts.
  apply entropy_NaN_l.
  - now destruct hist_counts.
  - now destruct recent_counts.
  - rewrite (Zsum_zeros _ Hz). apply Forall_forall. intros y Hy.
    apply list_elem_of_In, in_map_iff in Hy as (c & <- & Hc).
    rewrite Forall_forall in Hz. rewrite (Hz c) by now apply list_elem_of_In.
    unfold of_Z, div. rewrite Rsign_zero. reflexivity.
Qed.

(** A sample without a value in the range leaves every bin empty. *)
Lemma equal_width_counts_outside (lo hi : Q) (B : nat) (a : list Q) :
  (lo < hi)%Q -> Forall (fun x => within lo hi x = false) a ->
  Forall (fun c => c = 0) (equal_width_counts lo hi B a).
Proof.
  intros Hlt Hout.
  rewrite <- (equal_width_counts_within lo hi B a Hlt).
  replace (List.filter (within lo hi) a) with (@nil Q);
    [apply equal_width_counts_empty |].
  induction Hout as [| x a Hx _ IH]; [reflexivity |].
  cbn [List.filter]. now rewrite Hx.
Qed.

(** X5.  For two numeric columns and at least one bin, KLDivergence
    returns NaN, and reports no drift, exactly when one of the two
    histograms is empty: the historical column has no value, or no recent
    value lies within the range of the historical column.  (The
    orchestrator then stores 0.) *)
Theorem KL_statistic_nan_iff_empty_histogram (self : KLDivergence.t)
  (column_name : string) (hist_column recent_column : Pandas.Series)
  (hist recent : list Q) :
  Pandas.getitem (KLDivergence.historical_data self) column_name
    = Return hist_column ->
  as_array hist_column = Return hist ->
  Pandas.getitem (KLDivergence.recent_data self) column_name
    = Return recent_column ->
  as_array recent_column = Return recent ->
  1 <= KLDivergence.num_bins self ->
  let lo := fst (Numpy.outer_edges hist) in
  let hi := snd (Numpy.outer_edges hist) in
  exists (drift_detected : bool) (kld : xreal),
    KLDivergence.detect_drift self column_name = Return (drift_detected, kld)
    /\ (kld = NaN
        <-> hist = [] \/ Forall (fun x => within lo hi x = false) recent)
    /\ (kld = NaN -> drift_detected = false).
Proof.
  intros Hhc Hh Hrc Hr Hbins lo hi.
  set (B := Z.to_nat (KLDivergence.num_bins self)).
  assert (HB : (1 <= B)%nat) by (unfold B; lia).
  assert (Hne : forall a, equal_width_counts lo hi B a <> []).
  { intros a E. apply (f_equal length) in E.
    rewrite equal_width_counts_length in E. simpl in E. lia. }
  eexists _, _.
  split; [exact (KL_detect_drift_counts self column_name _ _ _ _
                   Hhc Hh Hrc Hr Hbins) |].
  fold lo hi B. split; [| now intros ->].
  split.
  - intros Hnan.
    assert (Hempty : hist = [] \/ hist <> [])
      by (destruct hist; [now left | now right]).
    destruct Hempty as [Hempty | Hhist]; [now left | right].
    destruct (decide (Forall (fun x => within lo hi x = false) recent))
      as [Hall | Hsome]; [exact Hall | exfalso].
    apply not_Forall_Exists in Hsome; [| intros y; apply _].
    assert (Hsh : 0 < Numpy.Zsum (equal_width_counts lo hi B hist)).
    { unfold lo, hi. rewrite (historical_counts_total hist B HB).
      destruct hist; [contradiction | simpl; lia]. }
    assert (Hsr : 0 < Numpy.Zsum (equal_width_counts lo hi B recent)).
    { rewrite (equal_width_counts_total lo hi B recent (outer_edges_lt hist) HB).
      apply count_pos. apply (Exists_impl _ _ _ Hsome).
      intros y Hy. unfold within in Hy. simpl in Hy.
      now destruct (Qle_bool lo y && Qle_bool y hi). }
    destruct (kld_of_counts_cases (equal_width_counts lo hi B hist)
                (equal_width_counts lo hi B recent)) as [Hfin Hinf];
      try assumption.
    { apply equal_width_counts_nonneg. }
    { apply equal_width_counts_nonneg. }
    { now rewrite !equal_width_counts_length. }
    destruct (decide (support_within (equal_width_counts lo hi B hist)
                        (equal_width_counts lo hi B recent))) as [Hin | Hout].
    + destruct (Hfin Hin) as [E _]. rewrite E in Hnan. discriminate.
    + rewrite (Hinf Hout) in Hnan. discriminate.
  - intros [-> | Hout].
    + apply kld_of_counts_no_hist; [apply Hne | apply Hne |].
      apply equal_width_counts_empty.
    + apply kld_of_counts_no_recent; [apply Hne | apply Hne |].
      apply equal_width_counts_outside; [apply outer_edges_lt | exact Hout].
Qed.

Lemma KL_statistic_nan_iff_empty_histogram_witness :
  let self := KLDivergence.new amount_historical amount_recent in
  let lo := fst (Numpy.outer_edges [1; 2]%Q) in
  let hi := snd (Numpy.outer_edges [1; 2]%Q) in
  exists (drift_detected : bool) (kld : xreal),
    KLDivergence.detect_drift self "amount" = Return (drift_detected, kld)
    /\ (kld = NaN
        <-> [1; 2]%Q = [] \/ Forall (fun x => within lo hi x = false) [3]%Q)
    /\ (kld = NaN -> drift_detected = false).
Proof.
  refine (KL_statistic_nan_iff_empty_histogram
            (KLDivergence.new amount_historical amount_recent) "amount"
            [(0, Pandas.Num 1); (1, Pandas.Num 2)] [(2, Pandas.Num 3)]
            [1; 2]%Q [3]%Q _ _ _ _ _).
  - reflexivity.
  - reflexivity.
  - reflexivity.
  - reflexivity.
  - simpl. lia.
Defined.








(** ** ZTest on frames of fewer than two rows *)

Lemma ZTest_detect_drift_columns `{SciPy} (self : ZTest.t)
  (column_name : string) (hist_column recent_column : Pandas.Series)
  (hist recent : list Q) :
  Pandas.getitem (ZTest.historical_data self) column_name = Return hist_column ->
  as_array hist_column = Return hist ->
  Pandas.getitem (ZTest.recent_data self) column_name = Return recent_column ->
  as_array recent_column = Return recent ->
  ZTest.detect_drift self column_name
  = (v1 ← ZTest.variance_over (Pandas.std hist) (Z.of_nat (length hist));
     v2 ← ZTest.variance_over (Pandas.std recent) (Z.of_nat (length recent));
     let z_score :=
       div (sub (Pandas.mean hist) (Pandas.mean recent))
         (Float64.sqrt (add v1 v2)) in
     Return (gtb (Float64.abs z_score)
               (norm_ppf (of_Q (1 - ZTest.alpha self / 2))),
             mul (Fin 2) (sub (Fin 1) (norm_cdf (Float64.abs z_score))))).
Proof.
  intros Hhc Hh Hrc Hr.
  unfold ZTest.detect_drift, mbind, result_bind.
  rewrite Hhc. cbn [Py.bind]. rewrite Hh. cbn [Py.bind].
  rewrite Hrc. cbn [Py.bind]. rewrite Hr. cbn [Py.bind].
  rewrite (column_length _ _ _ _ Hhc Hh), (column_length _ _ _ _ Hrc Hr).
  reflexivity.
Qed.

(** X7.  ZTest divides the squared standard deviation of either column
    by the number of rows of its frame: when the historical or the recent
    frame has no row, [detect_drift] raises ZeroDivisionError instead of
    returning a result. *)
Theorem ZTest_raises_on_frame_without_rows `{SciPy} (self : ZTest.t)
  (column_name : string) (hist_column recent_column : Pandas.Series)
  (hist recent : list Q) :
  Pandas.getitem (ZTest.historical_data self) column_name = Return hist_column ->
  as_array hist_column = Return hist ->
  Pandas.getitem (ZTest.recent_data self) column_name = Return recent_column ->
  as_array recent_column = Return recent ->
  Pandas.len (ZTest.historical_data self) = 0
  \/ Pandas.len (ZTest.recent_data self) = 0 ->
  ZTest.detect_drift self column_name
  = Raise (ZeroDivisionError "float division by zero").
Proof.
  intros Hhc Hh Hrc Hr Hempty.
  rewrite (ZTest_detect_drift_columns self column_name _ _ _ _ Hhc Hh Hrc Hr).
  rewrite (column_length _ _ _ _ Hhc Hh), (column_length _ _ _ _ Hrc Hr)
    in Hempty.
  unfold ZTest.variance_over, mbind, result_bind.
  destruct Hempty as [-> | ->]; cbn [Z.eqb Py.bind]; [reflexivity |].
  now destruct (Z.of_nat (length hist) =? 0).
Qed.

Lemma ZTest_raises_on_frame_without_rows_witness :
  ZTest.detect_drift (H := example_scipy)
    (ZTest.new constant_historical empty_recent) "amount"
  = Raise (ZeroDivisionError "float division by zero").
Proof.
  refine (ZTest_raises_on_frame_without_rows (H := example_scipy)
            (ZTest.new constant_historical empty_recent) "amount"
            [(0, Pandas.Num 7); (1, Pandas.Num 7)] [] [7; 7]%Q [] _ _ _ _ _).
  - reflexivity.
  - reflexivity.
  - reflexivity.
  - reflexivity.
  - right. reflexivity.
Defined.

(** The standard deviation of a single value is NaN, and so is the sum
    of the two variances. *)
Lemma single_value_variance (hist recent : list Q) :
  length hist = 1%nat \/ length recent = 1%nat ->
  add (div (mul (Pandas.std hist) (Pandas.std hist))
         (of_Z (Z.of_nat (length hist))))
      (div (mul (Pandas.std recent) (Pandas.std recent))
         (of_Z (Z.of_nat (length recent)))) = NaN.
Proof.
  intros [Hone | Hone].
  - destruct hist as [| x [| y hist]]; try discriminate.
    reflexivity.
  - destruct recent as [| x [| y recent]]; try discriminate.
    cbn [Pandas.std mul div].
    now destruct (div _ _).
Qed.

(** With a NaN under the square root, ZTest reports no drift. *)
Lemma ZTest_nan_variance `{SciPy} (alpha : Q) (hist recent : list Q) :
  hist <> [] -> recent <> [] ->
  length hist = 1%nat \/ length recent = 1%nat ->
  exists p_value,
    (v1 ← ZTest.variance_over (Pandas.std hist) (Z.of_nat (length hist));
     v2 ← ZTest.variance_over (Pandas.std recent) (Z.of_nat (length recent));
     let z_score :=
       div (sub (Pandas.mean hist) (Pandas.mean recent))
         (Float64.sqrt (add v1 v2)) in
     Return (gtb (Float64.abs z_score) (norm_ppf (of_Q (1 - alpha / 2))),
             mul (Fin 2) (sub (Fin 1) (norm_cdf (Float64.abs z_score)))))
    = Return (false, p_value).
Proof.
  intros Hhist Hrecent Hone.
  unfold ZTest.variance_over, mbind, result_bind.
  replace (Z.of_nat (length hist) =? 0) with false
    by (symmetry; apply Z.eqb_neq; destruct hist; [contradiction | simpl; lia]).
  replace (Z.of_nat (length recent) =? 0) with false
    by (symmetry; apply Z.eqb_neq; destruct recent; [contradiction | simpl; lia]).
  cbn [Py.bind]. rewrite (single_value_variance hist recent Hone).
  cbn [Float64.sqrt].
  replace (div (sub (Pandas.mean hist) (Pandas.mean recent)) NaN) with NaN
    by now destruct (sub _ _).
  eexists. reflexivity.
Qed.

(** X8.  The standard deviation of a single value is NaN, and NaN
    compares greater than nothing: when both frames have rows and one of
    the two columns holds a single value, ZTest reports no drift, whatever
    the values are. *)
Theorem ZTest_single_value_reports_no_drift `{SciPy} (self : ZTest.t)
  (column_name : string) (hist_column recent_column : Pandas.Series)
  (hist recent : list Q) :
  Pandas.getitem (ZTest.historical_data self) column_name = Return hist_column ->
  as_array hist_column = Return hist ->
  Pandas.getitem (ZTest.recent_data self) column_name = Return recent_column ->
  as_array recent_column = Return recent ->
  hist <> [] -> recent <> [] ->
  length hist = 1%nat \/ length recent = 1%nat ->
  exists p_value,
    ZTest.detect_drift self column_name = Return (false, p_value).
Proof.
  intros Hhc Hh Hrc Hr Hhist Hrecent Hone.
  rewrite (ZTest_detect_drift_columns self column_name _ _ _ _ Hhc Hh Hrc Hr).
  exact (ZTest_nan_variance (ZTest.alpha self) hist recent Hhist Hrecent Hone).
Qed.

Lemma ZTest_single_value_reports_no_drift_witness :
  exists p_value,
    ZTest.detect_drift (H := example_scipy)
      (ZTest.new shift_historical shift_recent) "amount"
    = Return (false, p_value).
Proof.
  refine (ZTest_single_value_reports_no_drift (H := example_scipy)
            (ZTest.new shift_historical shift_recent) "amount"
            [(0, Pandas.Num 0); (1, Pandas.Num 0)] [(2, Pandas.Num 5)]
            [0; 0]%Q [5]%Q _ _ _ _ _ _ _).
  - reflexivity.
  - reflexivity.
  - reflexivity.
  - reflexivity.
  - discriminate.
  - discriminate.
  - right. reflexivity.
Defined.

(** ** Cramér's V on a table with a single row or column *)

(** X9.  CramersVTest divides chi-squared by [n * (min_dim - 1)]: when
    the contingency table has a single row or a single column (one of the
    two columns holds one category), the divisor is zero and the statistic
    is NaN or plus infinity, never a number.  The decision still follows
    the p-value. *)
Theorem CramersV_single_category_not_finite `{SciPy} (self : CramersVTest.t)
  (column_name : string) (hist_column recent_column : Pandas.Series)
  (chi2 p_value : xreal) :
  Pandas.getitem (CramersVTest.historical_data self) column_name
    = Return hist_column ->
  Pandas.getitem (CramersVTest.recent_data self) column_name
    = Return recent_column ->
  let contingency_table := Pandas.crosstab hist_column recent_column in
  Scipy.chi2_contingency contingency_table = Return (chi2, p_value) ->
  CramersVTest.min_shape contingency_table = 1 ->
  exists cramer_v,
    CramersVTest.detect_drift self column_name
    = Return (ltb p_value (of_Q (CramersVTest.alpha self)), cramer_v)
    /\ (cramer_v = NaN \/ cramer_v = PInf)
    /\ sanitized cramer_v = Fin 0.
Proof.
  intros Hhc Hrc contingency_table Hchi Hmin.
  unfold CramersVTest.detect_drift, mbind, result_bind.
  rewrite Hhc. cbn [Py.bind]. rewrite Hrc. cbn [Py.bind].
  fold contingency_table. rewrite Hchi. cbn [Py.bind]. rewrite Hmin.
  rewrite Z.sub_diag, Z.mul_0_r.
  eexists. split; [reflexivity |].
  unfold of_Z. change (IZR 0) with 0%R.
  assert (Hv : Float64.sqrt (div chi2 (Fin 0)) = NaN
               \/ Float64.sqrt (div chi2 (Fin 0)) = PInf).
  { destruct chi2 as [a | | |]; cbn [div]; rewrite ?Rsign_zero;
      try (now left); try (now right).
    destruct (Rsign a); cbn [signed_inf Float64.sqrt]; auto. }
  split; [exact Hv |]. now destruct Hv as [-> | ->].
Qed.

Lemma CramersV_single_category_not_finite_witness :
  let self :=
    CramersVTest.new constant_historical
      (frame_of "amount" [(0, 7%Q); (1, 8%Q)]) in
  exists cramer_v,
    CramersVTest.detect_drift (H := example_scipy) self "amount"
    = Return (ltb (Fin 1) (of_Q (CramersVTest.alpha self)), cramer_v)
    /\ (cramer_v = NaN \/ cramer_v = PInf)
    /\ sanitized cramer_v = Fin 0.
Proof.
  refine (CramersV_single_category_not_finite (H := example_scipy)
            (CramersVTest.new constant_historical
               (frame_of "amount" [(0, 7%Q); (1, 8%Q)])) "amount"
            [(0, Pandas.Num 7); (1, Pandas.Num 7)]
            [(0, Pandas.Num 7); (1, Pandas.Num 8)] (Fin 0) (Fin 1) _ _ _ _).
  - reflexivity.
  - reflexivity.
  - reflexivity.
  - reflexivity.
Defined.

(** ** The loop of CUSUM *)

(** The positions recorded before a pass of the loop stay in front. *)
Lemma scan_acc (target_mean : xreal) (threshold : Q) (data : list Q)
  (i : nat) (s_pos s_neg : xreal) (acc : list nat) :
  CUSUM.scan target_mean threshold data i s_pos s_neg acc
  = acc ++ CUSUM.scan target_mean threshold data i s_pos s_neg [].
Proof.
  revert i s_pos s_neg acc.
  induction data as [| x data IH]; intros i s_pos s_neg acc; simpl.
  - now rewrite app_nil_r.
  - destruct (_ || _); [| apply IH].
    rewrite (IH _ _ _ (acc ++ [i])), (IH _ _ _ [i]). now rewrite <- app_assoc.
Qed.

(** The positions are counted from the position of the first element. *)
Lemma scan_offset (target_mean : xreal) (threshold : Q) (data : list Q)
  (i : nat) (s_pos s_neg : xreal) :
  CUSUM.scan target_mean threshold data i s_pos s_neg []
  = map (fun j => (i + j)%nat)
      (CUSUM.scan target_mean threshold data 0 s_pos s_neg []).
Proof.
  revert i s_pos s_neg.
  induction data as [| x data IH]; intros i s_pos s_neg; simpl; [reflexivity |].
  destruct (_ || _).
  - rewrite (scan_acc _ _ _ (S i)), (scan_acc _ _ _ 1%nat).
    rewrite (IH (S i)), (IH 1%nat), map_app, map_map. cbn [map app].
    rewrite Nat.add_0_r. f_equal. apply map_ext. intros j. lia.
  - rewrite (IH (S i)), (IH 1%nat), map_map. apply map_ext. intros j. lia.
Qed.

(** One pass of the loop: the position 0 is recorded or not, and the
    rest of the sequence is scanned from the new accumulators. *)
Lemma scan_cons (target_mean : xreal) (threshold : Q) (x : Q) (data : list Q)
  (s_pos s_neg : xreal) :
  let deviation := sub (of_Q x) target_mean in
  let s_pos' := CUSUM.max0 (add s_pos deviation) in
  let s_neg' := CUSUM.min0 (add s_neg deviation) in
  CUSUM.scan target_mean threshold (x :: data) 0 s_pos s_neg []
  = if gtb s_pos' (of_Q threshold) || ltb s_neg' (neg (of_Q threshold))
    then 0%nat :: map S (CUSUM.scan target_mean threshold data 0
                           (Fin 0) (Fin 0) [])
    else map S (CUSUM.scan target_mean threshold data 0 s_pos' s_neg' []).
Proof.
  intros deviation s_pos' s_neg'. cbn [CUSUM.scan].
  fold deviation. fold s_pos'. fold s_neg'.
  destruct (_ || _).
  - rewrite scan_acc, scan_offset. reflexivity.
  - rewrite scan_offset. reflexivity.
Qed.

Lemma scan_sorted (target_mean : xreal) (threshold : Q) (data : list Q)
  (s_pos s_neg : xreal) :
  StronglySorted lt
    (CUSUM.scan target_mean threshold data 0 s_pos s_neg []).
Proof.
  revert s_pos s_neg.
  induction data as [| x data IH]; intros s_pos s_neg; [constructor |].
  assert (Hmap : forall l, StronglySorted lt l -> StronglySorted lt (map S l)).
  { induction 1 as [| a l Hl IHl Ha]; cbn [map]; constructor; [exact IHl |].
    apply Forall_forall. intros b Hb.
    apply list_elem_of_In, in_map_iff in Hb as (c & <- & Hc).
    rewrite Forall_forall in Ha. apply list_elem_of_In in Hc.
    specialize (Ha c Hc). lia. }
  rewrite scan_cons. destruct (_ || _).
  - constructor; [apply Hmap, IH |].
    apply Forall_forall. intros b Hb.
    apply list_elem_of_In, in_map_iff in Hb as (c & <- & _). lia.
  - apply Hmap, IH.
Qed.

(** X10.  The loop of [CUSUM.detect_drift] records positions of the
    sequence it scans, in increasing order and each at most once; the
    number of recorded positions is at most the length of the
    sequence. *)
Theorem CUSUM_loop_records_increasing_positions (target_mean : xreal)
  (threshold : Q) (data : list Q) :
  let drift_indices :=
    CUSUM.scan target_mean threshold data 0 (Fin 0) (Fin 0) [] in
  StronglySorted lt drift_indices
  /\ Forall (fun j => (j < length data)%nat) drift_indices
  /\ NoDup drift_indices
  /\ (length drift_indices <= length data)%nat.
Proof.
  intros drift_indices.
  assert (Hsorted : StronglySorted lt drift_indices) by apply scan_sorted.
  assert (Hrange : Forall (fun j => (j < length data)%nat) drift_indices).
  { apply Forall_forall. intros j Hj.
    apply scan_indices in Hj as [Hj | Hj]; [inversion Hj | lia]. }
  assert (Hnodup : NoDup drift_indices).
  { clear Hrange. induction Hsorted as [| a l _ IH Ha]; constructor;
      [| exact IH].
    intros Hin. rewrite Forall_forall in Ha. specialize (Ha a Hin). lia. }
  repeat split; try assumption.
  assert (Hsub : drift_indices ⊆ seq 0 (length data)).
  { intros j Hj. rewrite Forall_forall in Hrange. specialize (Hrange j Hj).
    apply list_elem_of_In, in_seq. lia. }
  pose proof (submseteq_length _ _
                (NoDup_submseteq _ _ Hnodup (fun j Hj => Hsub j Hj))) as Hlen.
  now rewrite length_seq in Hlen.
Qed.

(** X11.  A recorded position resets both accumulators: when the last
    position of a first stretch of the sequence is recorded, the positions
    recorded in the rest are those the loop records on the rest alone,
    shifted by the length of the first stretch.  What was accumulated
    before a crossing has no effect after it. *)
Theorem CUSUM_loop_restarts_after_crossing (target_mean : xreal)
  (threshold : Q) (data1 data2 : list Q) (s_pos s_neg : xreal) :
  (length data1 - 1)%nat
    ∈ CUSUM.scan target_mean threshold data1 0 s_pos s_neg [] ->
  CUSUM.scan target_mean threshold (data1 ++ data2) 0 s_pos s_neg []
  = CUSUM.scan target_mean threshold data1 0 s_pos s_neg []
    ++ map (fun j => (length data1 + j)%nat)
         (CUSUM.scan target_mean threshold data2 0 (Fin 0) (Fin 0) []).
Proof.
  revert s_pos s_neg.
  induction data1 as [| x data1 IH]; intros s_pos s_neg Hlast;
    [inversion Hlast |].
  cbn [app]. rewrite !scan_cons. rewrite scan_cons in Hlast.
  cbn [length] in *. rewrite Nat.sub_succ, Nat.sub_0_r in Hlast.
  assert (Hshift : forall l,
            map S (map (fun j => (length data1 + j)%nat) l)
            = map (fun j => (S (length data1) + j)%nat) l).
  { intros l. rewrite map_map. reflexivity. }
  assert (Hin : forall l, length data1 ∈ map S l ->
                          data1 <> [] /\ (length data1 - 1)%nat ∈ l).
  { intros l Hl. apply list_elem_of_In, in_map_iff in Hl as (j & Hj & Hjl).
    split; [intros ->; discriminate |].
    replace (length data1 - 1)%nat with j by lia.
    now apply list_elem_of_In. }
  destruct data1 as [| y data1'] eqn:Edata.
  - (* the stretch is the single element x *)
    destruct (_ || _); cbn [app map length] in *.
    + reflexivity.
    + inversion Hlast.
  - rewrite <- Edata in *.
    destruct (_ || _).
    + apply elem_of_cons in Hlast as [Hz | Hlast];
        [rewrite Edata in Hz; discriminate |].
      destruct (Hin _ Hlast) as [_ Hlast'].
      rewrite (IH _ _ Hlast'), map_app, Hshift. reflexivity.
    + destruct (Hin _ Hlast) as [_ Hlast'].
      rewrite (IH _ _ Hlast'), map_app, Hshift. reflexivity.
Qed.

(** On the single value 5, with the target 0 and the default threshold,
    the position 0 is recorded. *)
Lemma scan_single_shift :
  CUSUM.scan (Pandas.mean [0; 0]%Q) (1 # 10) [5]%Q 0 (Fin 0) (Fin 0) []
  = [0%nat].
Proof.
  unfold Pandas.mean, of_Q, CUSUM.scan, CUSUM.max0, CUSUM.min0, sub, neg, add,
    ltb, gtb, of_Q, Q2R. simpl.
  repeat match goal with
         | |- context [IZR ?z] =>
             progress (let z' := eval vm_compute in z in
                       change (IZR z) with (IZR z'))
         end.
  repeat match goal with
         | |- context [Rlt_dec ?a ?b] =>
             destruct (Rlt_dec a b); simpl; try lra
         end; reflexivity.
Qed.

Lemma CUSUM_loop_restarts_after_crossing_witness :
  CUSUM.scan (Pandas.mean [0; 0]%Q) (1 # 10) ([5]%Q ++ [0; 5]%Q) 0
    (Fin 0) (Fin 0) []
  = CUSUM.scan (Pandas.mean [0; 0]%Q) (1 # 10) [5]%Q 0 (Fin 0) (Fin 0) []
    ++ map (fun j => (length [5]%Q + j)%nat)
         (CUSUM.scan (Pandas.mean [0; 0]%Q) (1 # 10) [0; 5]%Q 0
            (Fin 0) (Fin 0) []).
Proof.
  apply (CUSUM_loop_restarts_after_crossing (Pandas.mean [0; 0]%Q) (1 # 10)
           [5]%Q [0; 5]%Q (Fin 0) (Fin 0)).
  rewrite scan_single_shift. simpl. apply elem_of_cons. now left.
Defined.

(** The positive accumulator is never below zero. *)
Lemma max0_cases (v : xreal) :
  CUSUM.max0 v = PInf \/ exists r, CUSUM.max0 v = Fin r /\ (0 <= r)%R.
Proof.
  unfold CUSUM.max0. destruct v as [r | | |]; cbn [gtb].
  - destruct (Rlt_dec 0 r); right; eexists; split; try reflexivity; lra.
  - now left.
  - right. exists 0%R. split; [reflexivity | lra].
  - right. exists 0%R. split; [reflexivity | lra].
Qed.

(** X12.  With a negative threshold the loop of CUSUM records every
    position of the sequence, whatever the data and the target: the
    positive accumulator is at least zero, which is already beyond the
    threshold. *)
Theorem CUSUM_loop_negative_threshold (target_mean : xreal) (threshold : Q)
  (data : list Q) (s_pos s_neg : xreal) :
  (threshold < 0)%Q ->
  CUSUM.scan target_mean threshold data 0 s_pos s_neg []
  = seq 0 (length data).
Proof.
  intros Hneg. apply Qlt_Rlt in Hneg. rewrite RMicromega.Q2R_0 in Hneg.
  revert s_pos s_neg.
  induction data as [| x data IH]; intros s_pos s_neg; [reflexivity |].
  rewrite scan_cons, (IH (Fin 0) (Fin 0)). cbn [length seq].
  rewrite <- seq_shift.
  destruct (max0_cases (add s_pos (sub (of_Q x) target_mean)))
    as [-> | (r & -> & Hr)]; unfold of_Q; cbn [gtb orb]; [reflexivity |].
  destruct (Rlt_dec (Q2R threshold) r); [reflexivity | lra].
Qed.

Lemma CUSUM_loop_negative_threshold_witness :
  CUSUM.scan (Pandas.mean [0; 0]%Q) (- (1 # 10)) [0; 0; 0]%Q 0 (Fin 0) (Fin 0) []
  = seq 0 (length [0; 0; 0]%Q).
Proof.
  apply (CUSUM_loop_negative_threshold (Pandas.mean [0; 0]%Q) (- (1 # 10))
           [0; 0; 0]%Q (Fin 0) (Fin 0)).
  reflexivity.
Defined.

(** ** The orchestrator: the log of a run *)

Lemma drift_monitoring_loop `{SciPy} (w : World) (config : list Config.table) :
  drift_monitoring w config initial
  = match for_each (table_body w) config (fst (info Started initial)) with
    | (st, Return _) => info (DriftStatus (drift_status st)) st
    | (st, Raise e) => (st, Raise e)
    end.
Proof.
  unfold drift_monitoring, mbind, M_bind, info, modify, get. simpl.
  now destruct (for_each _ _ _) as [st [[] | e]].
Qed.

(** X13.  [drift_monitoring] logs the drift status once, as the last
    record of a run that completes, and the record carries the report as
    it stands at the end; a run that ends with an exception logs no drift
    status at all. *)
Theorem drift_status_logged_iff_completed `{SciPy} (w : World)
  (config : list Config.table) :
  let out := drift_monitoring w config initial in
  (snd out = Return tt ->
   exists records,
     log (fst out) = records ++ [DriftStatus (drift_status (fst out))]
     /\ existsb is_drift_status records = false)
  /\ (forall e, snd out = Raise e -> report_emitted (fst out) = false).
Proof.
  intros out. unfold out. rewrite drift_monitoring_loop.
  pose proof (for_each_invariant (fun st => report_emitted st = false)
                (table_body w) config
                (fun x st => table_body_log w x st)
                (fst (info Started initial)) eq_refl) as Hlog.
  destruct (for_each (table_body w) config (fst (info Started initial)))
    as [st [[] | e]]; cbn [fst snd] in *.
  - split; [| discriminate]. intros _. exists (log st).
    split; [reflexivity | exact Hlog].
  - split; [discriminate |]. intros e' _. exact Hlog.
Qed.

(** ** The orchestrator: what the report of a completed run covers *)

(** The column loop of a table, when it completes, has added the names of
    its columns to the entry of the table and changed nothing else. *)
Lemma columns_loop_report `{SciPy} (table : Config.table)
  (h cur : Pandas.DataFrame) (cols : list Config.column) (st : run)
  (entry : gmap string (bool * statistic)) :
  drift_status st !! Config.current_table table = Some entry ->
  snd (for_each (column_body table h cur) cols st) = Return tt ->
  exists entry',
    drift_status (fst (for_each (column_body table h cur) cols st))
    = <[Config.current_table table := entry']> (drift_status st)
    /\ forall c, is_Some (entry' !! c)
                 <-> is_Some (entry !! c) \/ c ∈ map Config.name cols.
Proof.
  revert st entry. induction cols as [| column cols IH]; intros st entry Hentry.
  - intros _. exists entry. split.
    + symmetry. now apply insert_id.
    + intros c. cbn [map]. rewrite elem_of_nil. tauto.
  - rewrite for_each_cons.
    destruct (column_body_cases table h cur column st)
      as [[_ [e He]] | (det & d & x & entry1 & _ & _ & Hentry1 & Hds & Hret)].
    + destruct (column_body table h cur column st) as [st1 [[] | e1]];
        simpl in *; discriminate.
    + rewrite Hentry in Hentry1. injection Hentry1 as <-.
      destruct (column_body table h cur column st) as [st1 r].
      cbn [fst snd] in Hds, Hret. subst r. intros Hrest.
      destruct (IH st1 (<[Config.name column := (d, Float (sanitized x))]> entry))
        as (entry' & Hfinal & Hdom); [| exact Hrest |].
      { rewrite Hds. apply lookup_insert_eq. }
      exists entry'. split.
      * rewrite Hfinal, Hds. apply insert_insert_eq.
      * intros c. rewrite Hdom, lookup_insert_is_Some. cbn [map].
        rewrite elem_of_cons.
        destruct (decide (Config.name column = c)); intuition congruence.
Qed.

Lemma table_body_report `{SciPy} (w : World) (table : Config.table) (st : run) :
  snd (table_body w table st) = Return tt ->
  exists entry,
    drift_status (fst (table_body w table st))
    = <[Config.current_table table := entry]> (drift_status st)
    /\ forall c, is_Some (entry !! c)
                 <-> c ∈ map Config.name (Config.columns table).
Proof.
  unfold table_body, mbind, M_bind, modify, info, read_csv, call, sample.
  simpl.
  destruct (files w (Config.current_table table)) as [c | e]; simpl;
    [| discriminate].
  match goal with
  | |- context [Pandas.drop ?l ?df] => destruct (Pandas.drop l df) as [current | e]
  end; simpl; [| discriminate].
  intros Hloop.
  match type of Hloop with
  | context [for_each (column_body _ ?h _) _ ?s] =>
      destruct (columns_loop_report table h current (Config.columns table) s ∅)
        as (entry & Hfinal & Hdom); [apply lookup_insert_eq | exact Hloop |]
  end.
  exists entry. split.
  - rewrite Hfinal. cbn [drift_status]. apply insert_insert_eq.
  - intros col. rewrite Hdom, lookup_empty. split; [| now right].
    intros [[? Hnone] | Hin]; [discriminate | exact Hin].
Qed.

(** A pass of the table loop changes the entry of its own table only. *)
Lemma table_body_other `{SciPy} (w : World) (table : Config.table) (st : run)
  (t : string) :
  t <> Config.current_table table ->
  drift_status (fst (table_body w table st)) !! t = drift_status st !! t.
Proof.
  intros Hne.
  assert (Hst1 : (<[Config.current_table table := ∅]> (drift_status st)) !! t
                 = drift_status st !! t) by now apply lookup_insert_ne.
  unfold table_body, mbind, M_bind, modify, info, read_csv, call, sample.
  simpl.
  destruct (files w (Config.current_table table)) as [c | e]; simpl;
    [| exact Hst1].
  match goal with
  | |- context [Pandas.drop ?l ?df] => destruct (Pandas.drop l df) as [current | e]
  end; simpl; [| exact Hst1].
  apply (for_each_invariant
           (fun st' => drift_status st' !! t = drift_status st !! t));
    [| exact Hst1].
  intros column st' Hst'.
  match goal with
  | |- context [column_body _ ?h _ _ _] =>
      destruct (column_body_cases table h current column st')
        as [[E _] | (det & d & x & entry & _ & _ & _ & E & _)]; rewrite E;
        [exact Hst' |]
  end.
  etrans; [| exact Hst']. apply lookup_insert_ne. congruence.
Qed.

Lemma tables_loop_other `{SciPy} (w : World) (config : list Config.table)
  (st : run) (t : string) :
  t ∉ map Config.current_table config ->
  drift_status (fst (for_each (table_body w) config st)) !! t
  = drift_status st !! t.
Proof.
  revert st. induction config as [| table config IH]; intros st Hout;
    [reflexivity |].
  cbn [map] in Hout. apply not_elem_of_cons in Hout as [Hne Hout].
  rewrite for_each_cons.
  pose proof (table_body_other w table st t Hne) as Htable.
  destruct (table_body w table st) as [st1 [[] | e]]; cbn [fst] in *;
    [| exact Htable].
  now rewrite (IH st1 Hout).
Qed.

Lemma tables_loop_tables `{SciPy} (w : World) (config : list Config.table)
  (st : run) (t : string) :
  snd (for_each (table_body w) config st) = Return tt ->
  is_Some (drift_status (fst (for_each (table_body w) config st)) !! t)
  <-> is_Some (drift_status st !! t) \/ t ∈ map Config.current_table config.
Proof.
  revert st. induction config as [| table config IH]; intros st.
  - intros _. cbn [map for_each]. rewrite elem_of_nil. simpl. tauto.
  - rewrite for_each_cons.
    pose proof (table_body_report w table st) as Htable.
    destruct (table_body w table st) as [st1 [[] | e]]; cbn [fst snd] in *;
      [| discriminate].
    destruct (Htable eq_refl) as (entry & Hds & _).
    intros Hrest. rewrite (IH st1 Hrest), Hds.
    assert (Hins : is_Some ((<[Config.current_table table := entry]>
                               (drift_status st) : report) !! t)
                   <-> Config.current_table table = t
                       \/ Config.current_table table <> t
                          /\ is_Some (drift_status st !! t))
      by apply lookup_insert_is_Some.
    rewrite Hins. cbn [map]. rewrite elem_of_cons.
    destruct (decide (Config.current_table table = t)); intuition congruence.
Qed.

(** X14.  The report of a run that completes has an entry for every
    configured table and for nothing else; the entry of a table holds
    exactly the configured columns of its last occurrence in the
    configuration (a table that is listed twice is reported as its second
    listing: the entry is reset whenever a table is started). *)
Theorem report_covers_configuration `{SciPy} (w : World)
  (config : list Config.table) :
  snd (drift_monitoring w config initial) = Return tt ->
  let ds := drift_status (fst (drift_monitoring w config initial)) in
  (forall t, is_Some (ds !! t) <-> t ∈ map Config.current_table config)
  /\ (forall before table after,
        config = before ++ table :: after ->
        Config.current_table table ∉ map Config.current_table after ->
        exists entry,
          ds !! Config.current_table table = Some entry
          /\ forall c, is_Some (entry !! c)
                       <-> c ∈ map Config.name (Config.columns table)).
Proof.
  rewrite drift_monitoring_loop.
  destruct (for_each (table_body w) config (fst (info Started initial)))
    as [st r] eqn:Eloop.
  destruct r as [[] | e]; [| discriminate]. intros _. cbn [fst info modify].
  cbn [drift_status]. split.
  - intros t.
    pose proof (tables_loop_tables w config (fst (info Started initial)) t)
      as Hdom.
    rewrite Eloop in Hdom. cbn [fst snd] in Hdom. rewrite (Hdom eq_refl).
    split; [intros [[? Hnone] | Hin]; [discriminate | exact Hin] | now right].
  - intros before table after -> Hlast.
    rewrite for_each_app in Eloop.
    destruct (for_each (table_body w) before (fst (info Started initial)))
      as [st1 [[] | e1]]; [| discriminate].
    rewrite for_each_cons in Eloop.
    pose proof (table_body_report w table st1) as Htable.
    destruct (table_body w table st1) as [st2 [[] | e2]]; [| discriminate].
    destruct (Htable eq_refl) as (entry & Hds & Hdom).
    exists entry. split; [| exact Hdom].
    pose proof (tables_loop_other w after st2 _ Hlast) as Hafter.
    rewrite Eloop in Hafter. cbn [fst] in Hafter, Hds.
    rewrite Hafter, Hds. apply lookup_insert_eq.
Qed.

Lemma report_covers_configuration_witness :
  let ds :=
    drift_status (fst (drift_monitoring (H := example_scipy) example_world
                         [orders_table] initial)) in
  (forall t, is_Some (ds !! t) <-> t ∈ map Config.current_table [orders_table])
  /\ (forall before table after,
        [orders_table] = before ++ table :: after ->
        Config.current_table table ∉ map Config.current_table after ->
        exists entry,
          ds !! Config.current_table table = Some entry
          /\ forall c, is_Some (entry !! c)
                       <-> c ∈ map Config.name (Config.columns table)).
Proof.
  apply (report_covers_configuration (H := example_scipy) example_world
           [orders_table]).
  reflexivity.
Defined.

(** ** The orchestrator: what a run needs to complete *)

(** A loop that completes has completed every pass. *)
Lemma for_each_returns {A : Type} (body : A -> M unit) (l : list A) (st : run) :
  snd (for_each body l st) = Return tt ->
  Forall (fun x => exists st', snd (body x st') = Return tt) l.
Proof.
  revert st. induction l as [| x l IH]; intros st; [constructor |].
  rewrite for_each_cons.
  destruct (body x st) as [st1 [[] | e]] eqn:E; [| discriminate].
  intros Hrest. constructor; [| now apply (IH st1)].
  exists st. now rewrite E.
Qed.

Lemma column_body_returns `{SciPy} (table : Config.table)
  (h cur : Pandas.DataFrame) (column : Config.column) (st : run) :
  snd (column_body table h cur column st) = Return tt ->
  exists det d s,
    get_drift_detector (Config.method column) h cur = Return det
    /\ detect_drift det (Config.name column) = Return (d, s).
Proof.
  unfold column_body, mbind, M_bind, tables_append, info, modify, call,
    status_update, lists_append. simpl.
  destruct (get_drift_detector (Config.method column) h cur) as [det | e];
    simpl; [| discriminate].
  destruct (detect_drift det (Config.name column)) as [[d s] | e] eqn:Edet;
    simpl; [| discriminate].
  intros _. now exists det, d, s.
Qed.

(** The instance the dispatcher returns, by the method asked for. *)
Lemma get_drift_detector_returns (detector_name : string)
  (h r : Pandas.DataFrame) (det : detector) :
  get_drift_detector detector_name h r = Return det ->
  (detector_name, det)
  ∈ [ ("z_test", IsZTest (ZTest.new h r));
      ("psi_calculator", IsPSICalculator (PSICalculator.new h r));
      ("chi_squared_test", IsChiSquaredTest (ChiSquaredTest.new h r));
      ("cramers_v_test", IsCramersVTest (CramersVTest.new h r));
      ("ks_test", IsKSTest (KSTest.new h r));
      ("cusum", IsCUSUM (CUSUM.new h r));
      ("kl_divergence", IsKLDivergence (KLDivergence.new h r)) ].
Proof.
  unfold get_drift_detector.
  destruct (detectors !! detector_name) as [f |] eqn:E; [| discriminate].
  intros Hdet. injection Hdet as <-.
  apply elem_of_list_to_map_2 in E.
  repeat (apply elem_of_cons in E as [E | E];
          [injection E as -> ->; set_solver |]).
  inversion E.
Qed.

Lemma RangeIndex_NoDup (n : nat) : NoDup (Pandas.RangeIndex n).
Proof.
  unfold Pandas.RangeIndex. apply NoDup_fmap_2; [| apply NoDup_seq].
  intros i j. apply Nat2Z.inj.
Qed.

(** A frame read from a file has a unique index. *)
Lemma from_csv_index (c : Pandas.csv) :
  NoDup (Pandas.index (Pandas.from_csv c)).
Proof.
  unfold Pandas.index, Pandas.from_csv. cbn [Pandas.rows].
  rewrite fst_zip; [apply RangeIndex_NoDup |].
  unfold Pandas.RangeIndex. rewrite length_fmap, length_seq. lia.
Qed.

(** On the two slices of a split, the categorical detectors raise for
    every column name. *)
Lemma categorical_raise_on_split `{SciPy} (sampler : nat -> nat -> list nat)
  (initial_table cur : Pandas.DataFrame) (column_name : string) :
  let n := length (Pandas.rows initial_table) in
  let size := Z.to_nat (Pandas.py_round ((8 # 10) * inject_Z (Z.of_nat n))) in
  let h := Pandas.sample sampler (8 # 10) initial_table in
  NoDup (Pandas.index initial_table) ->
  NoDup (sampler n size) ->
  Pandas.drop (Pandas.index h) initial_table = Return cur ->
  Py.raises (detect_drift (IsChiSquaredTest (ChiSquaredTest.new h cur))
               column_name)
  /\ Py.raises (detect_drift (IsCramersVTest (CramersVTest.new h cur))
                  column_name).
Proof.
  intros n size h Hindex Hnodup Hdrop.
  destruct (decide (column_name ∈ Pandas.columns initial_table))
    as [Hcol | Hcol].
  2:{ split; eexists; apply detect_drift_key_error; exact Hcol. }
  destruct (split_partition (sampler n size) initial_table Hindex Hnodup)
    as (cur' & Hdrop' & Hcols & _ & Hdisjoint).
  fold n size in Hdrop', Hdisjoint.
  change (Pandas.take (sampler n size) initial_table)
    with h in Hdrop', Hdisjoint.
  rewrite Hdrop in Hdrop'. injection Hdrop' as <-.
  destruct (getitem_present h column_name Hcol) as [hist_column Hh].
  destruct (getitem_present cur column_name) as [recent_column Hr];
    [now rewrite Hcols |].
  assert (Htable : Pandas.crosstab hist_column recent_column = []).
  { apply crosstab_disjoint.
    rewrite (getitem_labels _ _ _ Hh), (getitem_labels _ _ _ Hr).
    exact Hdisjoint. }
  split; eexists; cbn [detect_drift];
    unfold ChiSquaredTest.detect_drift, CramersVTest.detect_drift, mbind,
      result_bind;
    cbn [ChiSquaredTest.new ChiSquaredTest.historical_data
         ChiSquaredTest.recent_data CramersVTest.new
         CramersVTest.historical_data CramersVTest.recent_data];
    rewrite Hh; cbn [Py.bind]; rewrite Hr; cbn [Py.bind]; rewrite Htable;
    reflexivity.
Qed.

Lemma table_body_returns `{SciPy} (w : World) (table : Config.table) (st : run) :
  snd (table_body w table st) = Return tt ->
  exists c cur,
    files w (Config.current_table table) = Return c
    /\ Pandas.drop
         (Pandas.index
            (Pandas.sample (choice w (draws st)) (8 # 10) (Pandas.from_csv c)))
         (Pandas.from_csv c) = Return cur
    /\ Forall (fun column =>
                 exists st',
                   snd (column_body table
                          (Pandas.sample (choice w (draws st)) (8 # 10)
                             (Pandas.from_csv c)) cur column st') = Return tt)
         (Config.columns table).
Proof.
  unfold table_body, mbind, M_bind, modify, info, read_csv, call, sample.
  simpl.
  destruct (files w (Config.current_table table)) as [c | e]; simpl;
    [| discriminate].
  match goal with
  | |- context [Pandas.drop ?l ?df] =>
      destruct (Pandas.drop l df) as [current | e] eqn:Edrop
  end; simpl; [| discriminate].
  intros Hloop. exists c, current.
  split; [reflexivity |]. split; [exact Edrop |].
  exact (for_each_returns _ _ _ Hloop).
Qed.

(** X15.  With a random source that draws distinct positions, a run of
    [drift_monitoring] completes only if every configured table can be
    loaded, every configured column is in the header of its file, and
    every configured method is one of z_test, psi_calculator, ks_test and
    kl_divergence: a column configured with cusum, chi_squared_test or
    cramers_v_test makes the run end with an exception. *)
Theorem completed_run_methods `{SciPy} (w : World)
  (config : list Config.table) :
  (forall k population size, NoDup (choice w k population size)) ->
  snd (drift_monitoring w config initial) = Return tt ->
  Forall (fun table =>
            exists c,
              files w (Config.current_table table) = Return c
              /\ Forall (fun column =>
                           Config.method column ∈ returning_methods
                           /\ Config.name column ∈ Pandas.header c)
                   (Config.columns table))
    config.
Proof.
  intros Hdraw. rewrite drift_monitoring_loop.
  destruct (for_each (table_body w) config (fst (info Started initial)))
    as [st r] eqn:Eloop.
  destruct r as [[] | e]; [| discriminate]. intros _.
  pose proof (for_each_returns (table_body w) config
                (fst (info Started initial))) as Htables.
  rewrite Eloop in Htables. specialize (Htables eq_refl).
  apply (Forall_impl _ _ _ Htables). intros table [st1 Htable].
  destruct (table_body_returns w table st1 Htable) as (c & cur & Hc & Hdrop & Hcols).
  exists c. split; [exact Hc |].
  apply (Forall_impl _ _ _ Hcols). intros column [st2 Hcolumn].
  destruct (column_body_returns _ _ _ _ _ Hcolumn) as (det & d & s & Hdet & Hs).
  assert (Hpresent : Pandas.columns (historical_of det) = Pandas.header c ->
                     Config.name column ∈ Pandas.header c).
  { intros Hcolumns.
    destruct (decide (Config.name column ∈ Pandas.header c)) as [Hin | Hout];
      [exact Hin | exfalso].
    rewrite <- Hcolumns in Hout.
    rewrite (detect_drift_key_error det _ Hout) in Hs. discriminate. }
  destruct (categorical_raise_on_split (choice w (draws st1))
              (Pandas.from_csv c) cur (Config.name column)
              (from_csv_index c) (Hdraw _ _ _) Hdrop) as [[e1 Hchi] [e2 Hcramer]].
  apply get_drift_detector_returns in Hdet.
  unfold returning_methods.
  repeat (apply elem_of_cons in Hdet as [Hdet | Hdet];
          [injection Hdet as -> -> |]); try (inversion Hdet; fail).
  - split; [set_solver | now apply Hpresent].
  - split; [set_solver | now apply Hpresent].
  - rewrite Hchi in Hs. discriminate.
  - rewrite Hcramer in Hs. discriminate.
  - split; [set_solver | now apply Hpresent].
  - cbn [detect_drift] in Hs.
    destruct (CUSUM_detect_drift_raises
                (CUSUM.new
                   (Pandas.sample (choice w (draws st1)) (8 # 10)
                      (Pandas.from_csv c)) cur) (Config.name column))
      as [e3 He3].
    rewrite He3 in Hs. discriminate.
  - split; [set_solver | now apply Hpresent].
Qed.

Lemma completed_run_methods_witness :
  Forall (fun table =>
            exists c,
              files example_world (Config.current_table table) = Return c
              /\ Forall (fun column =>
                           Config.method column ∈ returning_methods
                           /\ Config.name column ∈ Pandas.header c)
                   (Config.columns table))
    [orders_table].
Proof.
  apply (completed_run_methods (H := example_scipy) example_world
           [orders_table]).
  - intros k population size. apply NoDup_seq.
  - reflexivity.
Defined.

(** ** The orchestrator: a configuration on which a run completes *)

Lemma numbers_returns (l : list Pandas.cell) :
  Forall (fun c => exists q, c = Pandas.Num q) l ->
  Py.returns (Pandas.numbers l).
Proof.
  induction 1 as [| c l [q ->] _ [qs IH]]; [now eexists |].
  cbn [Pandas.numbers]. unfold mbind, result_bind. rewrite IH.
  now eexists.
Qed.

(** A numeric column is read as an array of numbers. *)
Lemma numeric_column_array (df : Pandas.DataFrame) (column_name : string) :
  numeric_column df column_name ->
  exists s qs,
    Pandas.getitem df column_name = Return s /\ as_array s = Return qs.
Proof.
  intros [Hcol Hnum].
  destruct (getitem_present df column_name Hcol) as [s Hs].
  assert (Hvalues : Forall (fun c => exists q, c = Pandas.Num q)
                      (Pandas.values s)).
  { unfold Pandas.getitem in Hs. destruct (decide _); [| discriminate].
    injection Hs as <-. unfold Pandas.values.
    rewrite <- list_fmap_compose. apply Forall_fmap.
    apply (Forall_impl _ _ _ Hnum). intros r Hr. exact Hr. }
  destruct (numbers_returns _ Hvalues) as [qs Hqs].
  now exists s, qs.
Qed.

(** A column that is numeric in a frame is numeric in every frame made
    of rows of it. *)
Lemma numeric_column_rows (df df' : Pandas.DataFrame) (column_name : string) :
  Pandas.columns df' = Pandas.columns df ->
  (forall r, r ∈ Pandas.rows df' -> r ∈ Pandas.rows df) ->
  numeric_column df column_name -> numeric_column df' column_name.
Proof.
  intros Hcols Hrows [Hcol Hnum]. split; [now rewrite Hcols |].
  apply Forall_forall. intros r Hr. rewrite Forall_forall in Hnum.
  apply Hnum, Hrows, Hr.
Qed.

Lemma drop_rows (labels : list Z) (df cur : Pandas.DataFrame) :
  Pandas.drop labels df = Return cur ->
  Pandas.columns cur = Pandas.columns df
  /\ forall r, r ∈ Pandas.rows cur -> r ∈ Pandas.rows df.
Proof.
  unfold Pandas.drop. destruct (decide _); [| discriminate].
  intros E. injection E as <-. split; [reflexivity |].
  intros r Hr. cbn [Pandas.rows] in Hr.
  now apply list_elem_of_filter in Hr as [_ Hr].
Qed.

(** The labels of a sample are labels of the table: [drop] finds them. *)
Lemma drop_sample_returns (locs : list nat) (df : Pandas.DataFrame) :
  Py.returns (Pandas.drop (Pandas.index (Pandas.take locs df)) df).
Proof.
  unfold Pandas.drop.
  destruct (decide _) as [_ | Hnot]; [now eexists | exfalso].
  apply Hnot. apply Forall_forall. intros l Hl.
  unfold Pandas.index in *. apply list_elem_of_fmap in Hl as (x & -> & Hx).
  apply list_elem_of_fmap. exists x. split; [reflexivity |].
  now apply take_elem_of in Hx.
Qed.

(** The two binning detectors return on numeric columns. *)
Lemma binned_detectors_return `{SciPy} (method : string)
  (h cur : Pandas.DataFrame) (column_name : string) :
  method ∈ binned_methods ->
  numeric_column h column_name -> numeric_column cur column_name ->
  exists det d x,
    get_drift_detector method h cur = Return det
    /\ detect_drift det column_name = Return (d, Float x).
Proof.
  intros Hmethod Hh Hcur.
  destruct (numeric_column_array h column_name Hh) as (hs & hist & Hhs & Hhist).
  destruct (numeric_column_array cur column_name Hcur)
    as (rs & recent & Hrs & Hrecent).
  unfold binned_methods in Hmethod.
  apply elem_of_cons in Hmethod as [-> | Hmethod];
    [| apply list_elem_of_singleton in Hmethod as ->].
  - exists (IsPSICalculator (PSICalculator.new h cur)). eexists _, _.
    split; [reflexivity |]. cbn [detect_drift].
    rewrite (PSI_detect_drift_counts (PSICalculator.new h cur) column_name
               hs rs hist recent Hhs Hhist Hrs Hrecent);
      [reflexivity | simpl; lia].
  - exists (IsKLDivergence (KLDivergence.new h cur)). eexists _, _.
    split; [reflexivity |]. cbn [detect_drift].
    rewrite (KL_detect_drift_counts (KLDivergence.new h cur) column_name
               hs rs hist recent Hhs Hhist Hrs Hrecent);
      [reflexivity | simpl; lia].
Qed.

Lemma column_body_completes `{SciPy} (table : Config.table)
  (h cur : Pandas.DataFrame) (column : Config.column) (st : run) :
  (exists det d x,
     get_drift_detector (Config.method column) h cur = Return det
     /\ detect_drift det (Config.name column) = Return (d, Float x)) ->
  is_Some (drift_status st !! Config.current_table table) ->
  snd (column_body table h cur column st) = Return tt
  /\ is_Some (drift_status (fst (column_body table h cur column st))
              !! Config.current_table table).
Proof.
  intros (det & d & x & Hdet & Hs) [entry Hentry].
  unfold column_body, mbind, M_bind, tables_append, info, modify, call,
    status_update, lists_append. simpl.
  rewrite Hdet. simpl. rewrite Hs. simpl. rewrite Hentry. simpl.
  split; [reflexivity |]. eexists. apply lookup_insert_eq.
Qed.

(** A loop completes when every pass completes and keeps the invariant
    that lets the next one complete. *)
Lemma for_each_completes {A : Type} (I : run -> Prop) (body : A -> M unit)
  (l : list A) :
  Forall (fun x => forall st, I st ->
            snd (body x st) = Return tt /\ I (fst (body x st))) l ->
  forall st, I st ->
    snd (for_each body l st) = Return tt /\ I (fst (for_each body l st)).
Proof.
  induction 1 as [| x l Hx _ IH]; intros st Hst; [now split |].
  rewrite for_each_cons. destruct (Hx st Hst) as [Hret Hinv].
  destruct (body x st) as [st1 r]. cbn [fst snd] in *. subst r.
  now apply IH.
Qed.

Lemma table_body_completes `{SciPy} (w : World) (table : Config.table)
  (c : Pandas.csv) (st : run) :
  files w (Config.current_table table) = Return c ->
  Forall (fun column =>
            Config.method column ∈ binned_methods
            /\ numeric_column (Pandas.from_csv c) (Config.name column))
    (Config.columns table) ->
  snd (table_body w table st) = Return tt.
Proof.
  intros Hc Hcols.
  unfold table_body, mbind, M_bind, modify, info, read_csv, call, sample.
  simpl. rewrite Hc. simpl.
  unfold Pandas.sample at 1.
  destruct (drop_sample_returns
              (choice w (draws st) (length (Pandas.rows (Pandas.from_csv c)))
                 (Z.to_nat (Pandas.py_round
                    ((8 # 10) * inject_Z (Z.of_nat
                       (length (Pandas.rows (Pandas.from_csv c))))))))
              (Pandas.from_csv c)) as [cur Hdrop].
  rewrite Hdrop. simpl.
  destruct (drop_rows _ _ _ Hdrop) as [Hcur_cols Hcur_rows].
  match goal with
  | |- snd (for_each ?body ?l ?s) = _ =>
      apply (for_each_completes
               (fun st' => is_Some (drift_status st'
                                      !! Config.current_table table))
               body l)
  end.
  - apply (Forall_impl _ _ _ Hcols). intros column [Hmethod Hnum] st' Hst'.
    apply column_body_completes; [| exact Hst'].
    apply binned_detectors_return; [exact Hmethod | |].
    + apply (numeric_column_rows (Pandas.from_csv c)); [reflexivity | | exact Hnum].
      apply take_elem_of.
    + now apply (numeric_column_rows (Pandas.from_csv c)).
  - cbn [drift_status]. eexists. apply lookup_insert_eq.
Qed.

(** X16.  A configuration that asks for psi_calculator or kl_divergence
    only, on columns that are in the header of their file and hold
    numbers only, is processed to the end: every table is split, every
    detector returns, and [drift_monitoring] returns, whatever rows the
    random source draws and however few rows a file has. *)
Theorem binned_numeric_run_completes `{SciPy} (w : World)
  (config : list Config.table) :
  Forall (fun table =>
            exists c,
              files w (Config.current_table table) = Return c
              /\ Forall (fun column =>
                           Config.method column ∈ binned_methods
                           /\ numeric_column (Pandas.from_csv c)
                                (Config.name column))
                   (Config.columns table))
    config ->
  snd (drift_monitoring w config initial) = Return tt.
Proof.
  intros Hconfig. rewrite drift_monitoring_loop.
  destruct (for_each_completes (fun _ => True) (table_body w) config)
    with (st := fst (info Started initial)) as [Hret _]; [| exact I |].
  - apply (Forall_impl _ _ _ Hconfig). intros table (c & Hc & Hcols) st _.
    split; [| exact I]. now apply (table_body_completes w table c).
  - destruct (for_each (table_body w) config (fst (info Started initial)))
      as [st r]. cbn [snd] in Hret. now subst r.
Qed.

Lemma binned_numeric_run_completes_witness :
  snd (drift_monitoring (H := example_scipy) example_world
         [orders_psi_table] initial) = Return tt.
Proof.
  apply (binned_numeric_run_completes (H := example_scipy) example_world
           [orders_psi_table]).
  constructor; [| constructor].
  exists orders_csv. split; [reflexivity |].
  constructor; [| constructor].
  split; [| split].
  - apply (bool_decide_unpack _). vm_compute. exact I.
  - apply (bool_decide_unpack _). vm_compute. exact I.
  - repeat (constructor; [eexists; vm_compute; reflexivity |]). constructor.
Defined.

(** ** The order of the rows *)

Lemma amin_in (x : Q) (t : list Q) : Numpy.amin x t ∈ x :: t.
Proof.
  unfold Numpy.amin. revert x. induction t as [| y t IH]; intros x; simpl.
  - apply elem_of_cons. now left.
  - specialize (IH (Qmin x y)). apply elem_of_cons in IH as [E | IH].
    + rewrite E. unfold Qmin, GenericMinMax.gmin.
      destruct (x ?= y)%Q; set_solver.
    + set_solver.
Qed.

Lemma amax_in (x : Q) (t : list Q) : Numpy.amax x t ∈ x :: t.
Proof.
  unfold Numpy.amax. revert x. induction t as [| y t IH]; intros x; simpl.
  - apply elem_of_cons. now left.
  - specialize (IH (Qmax x y)). apply elem_of_cons in IH as [E | IH].
    + rewrite E. unfold Qmax, GenericMinMax.gmax.
      destruct (x ?= y)%Q; set_solver.
    + set_solver.
Qed.

Lemma amin_bound (x : Q) (t : list Q) (y : Q) :
  y ∈ x :: t -> (Numpy.amin x t <= y)%Q.
Proof.
  intros Hy. apply elem_of_cons in Hy as [-> | Hy];
    [apply amin_le | now apply amin_lower].
Qed.

Lemma amax_bound (x : Q) (t : list Q) (y : Q) :
  y ∈ x :: t -> (y <= Numpy.amax x t)%Q.
Proof.
  intros Hy. apply elem_of_cons in Hy as [-> | Hy];
    [apply amax_ge | now apply amax_upper].
Qed.

(** The range of the bins of a sample, up to the representation of its
    two ends, does not depend on the order of the sample. *)
Lemma outer_edges_Permutation (a a' : list Q) :
  a ≡ₚ a' ->
  (fst (Numpy.outer_edges a) == fst (Numpy.outer_edges a')
   /\ snd (Numpy.outer_edges a) == snd (Numpy.outer_edges a'))%Q.
Proof.
  intros Hperm.
  destruct a as [| x t], a' as [| x' t'].
  - split; reflexivity.
  - apply Permutation_nil_l in Hperm. discriminate.
  - symmetry in Hperm. apply Permutation_nil_l in Hperm. discriminate.
  - assert (Hmin : (Numpy.amin x t == Numpy.amin x' t')%Q).
    { apply Qle_antisym; apply amin_bound.
      - rewrite Hperm. apply amin_in.
      - rewrite <- Hperm. apply amin_in. }
    assert (Hmax : (Numpy.amax x t == Numpy.amax x' t')%Q).
    { apply Qle_antisym; apply amax_bound.
      - rewrite <- Hperm. apply amax_in.
      - rewrite Hperm. apply amax_in. }
    cbn [Numpy.outer_edges].
    destruct (Qeq_bool (Numpy.amin x t) (Numpy.amax x t)) eqn:E,
      (Qeq_bool (Numpy.amin x' t') (Numpy.amax x' t')) eqn:E'; cbn [fst snd].
    + split; [now rewrite Hmin | now rewrite Hmax].
    + apply Qeq_bool_eq in E. apply Qeq_bool_neq in E'.
      exfalso. apply E'. now rewrite <- Hmin, <- Hmax.
    + apply Qeq_bool_neq in E. apply Qeq_bool_eq in E'.
      exfalso. apply E. now rewrite Hmin, Hmax.
    + now split.
Qed.

Lemma Qle_bool_proper (a a' b b' : Q) :
  (a == a')%Q -> (b == b')%Q -> Qle_bool a b = Qle_bool a' b'.
Proof.
  intros Ha Hb.
  destruct (Qle_bool a b) eqn:E, (Qle_bool a' b') eqn:E'; try reflexivity.
  - apply Qle_bool_iff in E. rewrite Ha, Hb in E. apply Qle_bool_iff in E.
    congruence.
  - apply Qle_bool_iff in E'. rewrite <- Ha, <- Hb in E'.
    apply Qle_bool_iff in E'. congruence.
Qed.

Lemma in_bin_proper (lo lo' hi hi' : Q) (B i : nat) (x : Q) :
  (lo == lo')%Q -> (hi == hi')%Q ->
  in_bin lo hi B i x = in_bin lo' hi' B i x.
Proof.
  intros Hlo Hhi.
  assert (Hedge : forall k, (bin_edge lo hi B k == bin_edge lo' hi' B k)%Q).
  { intros k. unfold bin_edge. now rewrite Hlo, Hhi. }
  unfold in_bin, Numpy.Qltb.
  rewrite (Qle_bool_proper _ _ x x (Hedge i) (Qeq_refl x)).
  rewrite (Qle_bool_proper x x _ _ (Qeq_refl x) Hhi).
  rewrite (Qle_bool_proper _ _ x x (Hedge (S i)) (Qeq_refl x)).
  reflexivity.
Qed.

Lemma count_Permutation (p : Q -> bool) (a a' : list Q) :
  a ≡ₚ a' -> Numpy.count p a = Numpy.count p a'.
Proof.
  intros Hperm. unfold Numpy.count. f_equal.
  induction Hperm as [| x a a' _ IH | x y a | a a' a'' _ IH _ IH'];
    cbn [List.filter].
  - reflexivity.
  - destruct (p x); cbn [length]; lia.
  - destruct (p x), (p y); reflexivity.
  - lia.
Qed.

(** The counts of a sample do not depend on its order. *)
Lemma equal_width_counts_Permutation (lo lo' hi hi' : Q) (B : nat)
  (a a' : list Q) :
  (lo == lo')%Q -> (hi == hi')%Q -> a ≡ₚ a' ->
  equal_width_counts lo hi B a = equal_width_counts lo' hi' B a'.
Proof.
  intros Hlo Hhi Hperm. unfold equal_width_counts. apply map_ext. intros i.
  rewrite (count_Permutation _ a a' Hperm). unfold Numpy.count.
  f_equal. f_equal. apply filter_ext. intros x.
  now apply in_bin_proper.
Qed.

(** X17.  The results of PSICalculator and of KLDivergence do not
    depend on the order of the rows: two historical columns that hold the
    same values in a different order, and two recent columns likewise,
    give the same decision and the same statistic.  (The historical slice
    comes in the order the random source drew it.) *)
Theorem binned_detectors_ignore_row_order
  (h h' r r' : Pandas.DataFrame) (column_name : string)
  (hist_column hist_column' recent_column recent_column' : Pandas.Series)
  (hist hist' recent recent' : list Q) (bins : Z) (epsilon threshold : Q) :
  Pandas.getitem h column_name = Return hist_column ->
  as_array hist_column = Return hist ->
  Pandas.getitem h' column_name = Return hist_column' ->
  as_array hist_column' = Return hist' ->
  Pandas.getitem r column_name = Return recent_column ->
  as_array recent_column = Return recent ->
  Pandas.getitem r' column_name = Return recent_column' ->
  as_array recent_column' = Return recent' ->
  1 <= bins ->
  hist ≡ₚ hist' -> recent ≡ₚ recent' ->
  PSICalculator.detect_drift
    {| PSICalculator.historical_data := h; PSICalculator.recent_data := r;
       PSICalculator.bins := bins; PSICalculator.epsilon := epsilon;
       PSICalculator.threshold := threshold |} column_name
  = PSICalculator.detect_drift
      {| PSICalculator.historical_data := h'; PSICalculator.recent_data := r';
         PSICalculator.bins := bins; PSICalculator.epsilon := epsilon;
         PSICalculator.threshold := threshold |} column_name
  /\ KLDivergence.detect_drift
       {| KLDivergence.historical_data := h; KLDivergence.recent_data := r;
          KLDivergence.num_bins := bins;
          KLDivergence.threshold := threshold |} column_name
     = KLDivergence.detect_drift
         {| KLDivergence.historical_data := h'; KLDivergence.recent_data := r';
            KLDivergence.num_bins := bins;
            KLDivergence.threshold := threshold |} column_name.
Proof.
  intros Hhc Hh Hhc' Hh' Hrc Hr Hrc' Hr' Hbins Hhist Hrecent.
  destruct (outer_edges_Permutation hist hist' Hhist) as [Hlo Hhi].
  pose proof (equal_width_counts_Permutation _ _ _ _ (Z.to_nat bins)
                hist hist' Hlo Hhi Hhist) as Hcounts.
  pose proof (equal_width_counts_Permutation _ _ _ _ (Z.to_nat bins)
                recent recent' Hlo Hhi Hrecent) as Hcounts'.
  split.
  - rewrite (PSI_detect_drift_counts
               {| PSICalculator.historical_data := h;
                  PSICalculator.recent_data := r; PSICalculator.bins := bins;
                  PSICalculator.epsilon := epsilon;
                  PSICalculator.threshold := threshold |}
               column_name _ _ _ _ Hhc Hh Hrc Hr Hbins).
    rewrite (PSI_detect_drift_counts
               {| PSICalculator.historical_data := h';
                  PSICalculator.recent_data := r'; PSICalculator.bins := bins;
                  PSICalculator.epsilon := epsilon;
                  PSICalculator.threshold := threshold |}
               column_name _ _ _ _ Hhc' Hh' Hrc' Hr' Hbins).
    cbn [PSICalculator.bins PSICalculator.epsilon PSICalculator.threshold].
    now rewrite Hcounts, Hcounts'.
  - rewrite (KL_detect_drift_counts
               {| KLDivergence.historical_data := h;
                  KLDivergence.recent_data := r; KLDivergence.num_bins := bins;
                  KLDivergence.threshold := threshold |}
               column_name _ _ _ _ Hhc Hh Hrc Hr Hbins).
    rewrite (KL_detect_drift_counts
               {| KLDivergence.historical_data := h';
                  KLDivergence.recent_data := r'; KLDivergence.num_bins := bins;
                  KLDivergence.threshold := threshold |}
               column_name _ _ _ _ Hhc' Hh' Hrc' Hr' Hbins).
    cbn [KLDivergence.num_bins KLDivergence.threshold].
    now rewrite Hcounts, Hcounts'.
Qed.

Lemma binned_detectors_ignore_row_order_witness :
  PSICalculator.detect_drift
    {| PSICalculator.historical_data := frame_of "amount" [(0, 1%Q); (1, 2%Q)];
       PSICalculator.recent_data := amount_recent;
       PSICalculator.bins := 10; PSICalculator.epsilon := 1 # 100000;
       PSICalculator.threshold := 1 # 10 |} "amount"
  = PSICalculator.detect_drift
      {| PSICalculator.historical_data :=
           frame_of "amount" [(1, 2%Q); (0, 1%Q)];
         PSICalculator.recent_data := amount_recent;
         PSICalculator.bins := 10; PSICalculator.epsilon := 1 # 100000;
         PSICalculator.threshold := 1 # 10 |} "amount"
  /\ KLDivergence.detect_drift
       {| KLDivergence.historical_data :=
            frame_of "amount" [(0, 1%Q); (1, 2%Q)];
          KLDivergence.recent_data := amount_recent;
          KLDivergence.num_bins := 10;
          KLDivergence.threshold := 1 # 10 |} "amount"
     = KLDivergence.detect_drift
         {| KLDivergence.historical_data :=
              frame_of "amount" [(1, 2%Q); (0, 1%Q)];
            KLDivergence.recent_data := amount_recent;
            KLDivergence.num_bins := 10;
            KLDivergence.threshold := 1 # 10 |} "amount".
Proof.
  refine (binned_detectors_ignore_row_order
            (frame_of "amount" [(0, 1%Q); (1, 2%Q)])
            (frame_of "amount" [(1, 2%Q); (0, 1%Q)])
            amount_recent amount_recent "amount"
            [(0, Pandas.Num 1); (1, Pandas.Num 2)]
            [(1, Pandas.Num 2); (0, Pandas.Num 1)]
            [(2, Pandas.Num 3)] [(2, Pandas.Num 3)]
            [1; 2]%Q [2; 1]%Q [3]%Q [3]%Q 10 (1 # 100000) (1 # 10)
            _ _ _ _ _ _ _ _ _ _ _).
  - reflexivity.
  - reflexivity.
  - reflexivity.
  - reflexivity.
  - reflexivity.
  - reflexivity.
  - reflexivity.
  - reflexivity.
  - lia.
  - apply perm_swap.
  - reflexivity.
Defined.

(** ** The logging set-up *)

Lemma handlers_lookup_unknown (handler_name : string) :
  handler_name ∉ ["console"; "file"] ->
  Logging.handlers !! handler_name = None.
Proof.
  intros Hout. unfold Logging.handlers.
  apply not_elem_of_list_to_map_1. simpl. exact Hout.
Qed.

Lemma console_arguments_target (config : Toml.value) (s : Loguru.sink) :
  Logging.console_arguments config = Return s ->
  Loguru.sink_target s = Loguru.Stdout.
Proof.
  unfold Logging.console_arguments, mbind, result_bind.
  repeat (next_call; try discriminate).
  intros Hs. injection Hs as <-. reflexivity.
Qed.

Lemma file_arguments_target (config : Toml.value) (s : Loguru.sink) :
  Logging.file_arguments config = Return s ->
  exists path, Loguru.sink_target s = Loguru.File path.
Proof.
  unfold Logging.file_arguments, mbind, result_bind.
  repeat (next_call; try discriminate).
  intros Hs. injection Hs as <-. now eexists.
Qed.

(** [setup] adds one handler, of its own kind, or none: when it raises,
    the logger is as it was. *)
Lemma setup_cases `{LoguruChecks} (h : Logging.handler)
  (handlers : list Loguru.sink) :
  (exists e, Logging.setup h handlers = (handlers, Raise e))
  \/ (exists s,
        Logging.setup h handlers = (handlers ++ [s], Return tt)
        /\ sink_handler s
           = match h with
             | Logging.ConsoleHandler _ => "console"
             | Logging.FileHandler _ => "file"
             end).
Proof.
  unfold Logging.setup, Logging.add, sink_handler.
  destruct h as [config | config].
  - destruct (Logging.console_arguments config) as [s | e] eqn:Eargs;
      [| left; now eexists].
    destruct (add_checks s) as [[] | e]; [| left; now eexists].
    right. exists s. split; [reflexivity |].
    now rewrite (console_arguments_target config s Eargs).
  - destruct (Logging.file_arguments config) as [s | e] eqn:Eargs;
      [| left; now eexists].
    destruct (add_checks s) as [[] | e]; [| left; now eexists].
    right. exists s. split; [reflexivity |].
    destruct (file_arguments_target config s Eargs) as [path ->].
    reflexivity.
Qed.

Lemma get_handler_value_cases (logger_name config : Toml.value)
  (h : Logging.handler) :
  Logging.get_handler_value logger_name config = Return h ->
  (logger_name = Toml.Str "console" /\ h = Logging.ConsoleHandler config)
  \/ (logger_name = Toml.Str "file" /\ h = Logging.FileHandler config).
Proof.
  destruct logger_name as [name | l | t]; cbn [Logging.get_handler_value];
    [| discriminate | discriminate].
  unfold Logging.get_handler.
  destruct (Logging.handlers !! name) as [f |] eqn:E; [| discriminate].
  intros Hh. injection Hh as <-.
  apply elem_of_list_to_map_2 in E.
  apply elem_of_cons in E as [E | E]; [injection E as -> ->; now left |].
  apply elem_of_cons in E as [E | E]; [injection E as -> ->; now right |].
  inversion E.
Qed.

(** The loop over the selected loggers, when it completes, has added one
    handler per selected logger, in the order of the selection. *)
Lemma setup_handlers_returns `{LoguruChecks} (config : Toml.value)
  (selected_loggers : list Toml.value) (handlers handlers' : list Loguru.sink) :
  Logging.setup_handlers config selected_loggers handlers
    = (handlers', Return tt) ->
  exists added,
    handlers' = handlers ++ added
    /\ map (fun s => Toml.Str (sink_handler s)) added = selected_loggers.
Proof.
  revert handlers.
  induction selected_loggers as [| logger_name rest IH]; intros handlers.
  - cbn [Logging.setup_handlers]. intros E. injection E as <-.
    exists []. split; [now rewrite app_nil_r | reflexivity].
  - cbn [Logging.setup_handlers].
    destruct (Logging.get_handler_value logger_name config) as [h | e] eqn:Eh;
      [| discriminate].
    destruct (setup_cases h handlers) as [[e ->] | (s & -> & Hs)];
      [discriminate |].
    intros Hrest. destruct (IH _ Hrest) as (added & -> & Hadded).
    exists (s :: added). split; [now rewrite <- app_assoc |].
    cbn [map]. rewrite Hadded, Hs. f_equal.
    destruct (get_handler_value_cases _ _ _ Eh) as [[-> ->] | [-> ->]];
      reflexivity.
Qed.

(** X18.  A call of [setup_logging] that returns leaves the logger with
    exactly one handler per selected logger, in the order of the
    selection, the console handlers writing to the standard output and
    the file handlers to a file; the handlers the logger held before the
    call are gone, so setting the logging up again does not duplicate
    them. *)
Theorem setup_logging_installs_selected_handlers `{LoguruChecks}
  (load : result Toml.value) (handlers handlers' : list Loguru.sink) :
  Logging.setup_logging load handlers = (handlers', Return tt) ->
  exists config selection selected_loggers,
    load = Return config
    /\ Toml.getitem config "loggers_selection" = Return selection
    /\ Toml.getitem selection "loggers" = Return selected_loggers
    /\ map (fun s => Toml.Str (sink_handler s)) handlers'
       = Toml.iterate selected_loggers
    /\ Logging.setup_logging load handlers' = (handlers', Return tt).
Proof.
  unfold Logging.setup_logging, Logging.remove, mbind, result_bind.
  destruct load as [config | e]; [| discriminate].
  destruct (Toml.getitem config "loggers_selection") as [selection | e]
    eqn:Eselection; cbn [Py.bind]; [| discriminate].
  destruct (Toml.getitem selection "loggers") as [selected_loggers | e]
    eqn:Eloggers; [| discriminate].
  intros Hloop. exists config, selection, selected_loggers.
  destruct (setup_handlers_returns _ _ _ _ Hloop) as (added & -> & Hadded).
  split; [reflexivity |]. split; [exact Eselection |].
  split; [exact Eloggers |]. split; [exact Hadded | exact Hloop].
Qed.

Lemma setup_logging_installs_selected_handlers_witness :
  exists config selection selected_loggers,
    Return console_config = Return config
    /\ Toml.getitem config "loggers_selection" = Return selection
    /\ Toml.getitem selection "loggers" = Return selected_loggers
    /\ map (fun s => Toml.Str (sink_handler s))
         [ {| Loguru.sink_target := Loguru.Stdout;
              Loguru.format := Toml.Str "{message}";
              Loguru.level := Toml.Str "INFO";
              Loguru.rotation := None;
              Loguru.retention := None |} ]
       = Toml.iterate selected_loggers
    /\ Logging.setup_logging (H := example_loguru) (Return console_config)
         [ {| Loguru.sink_target := Loguru.Stdout;
              Loguru.format := Toml.Str "{message}";
              Loguru.level := Toml.Str "INFO";
              Loguru.rotation := None;
              Loguru.retention := None |} ]
       = ([ {| Loguru.sink_target := Loguru.Stdout;
               Loguru.format := Toml.Str "{message}";
               Loguru.level := Toml.Str "INFO";
               Loguru.rotation := None;
               Loguru.retention := None |} ], Return tt).
Proof.
  apply (setup_logging_installs_selected_handlers (H := example_loguru)
           (Return console_config) []).
  reflexivity.
Defined.

Lemma setup_handlers_app `{LoguruChecks} (config : Toml.value)
  (l1 l2 : list Toml.value) (handlers : list Loguru.sink) :
  Logging.setup_handlers config (l1 ++ l2) handlers
  = match Logging.setup_handlers config l1 handlers with
    | (handlers', Return _) => Logging.setup_handlers config l2 handlers'
    | (handlers', Raise e) => (handlers', Raise e)
    end.
Proof.
  revert handlers. induction l1 as [| x l1 IH]; intros handlers;
    [reflexivity |].
  cbn [app Logging.setup_handlers].
  destruct (Logging.get_handler_value x config) as [h | e]; [| reflexivity].
  destruct (Logging.setup h handlers) as [handlers' [[] | e]];
    [apply IH | reflexivity].
Qed.

(** X19.  When the selection names a logger that is neither "console"
    nor "file", [setup_logging] raises the ValueError of [get_handler],
    which names it.  By then the handlers the logger held before the call
    have been removed and the loggers selected before the unknown one
    have been set up: the logger is left with those alone, and the
    loggers selected after the unknown one are not set up. *)
Theorem setup_logging_unknown_handler `{LoguruChecks}
  (config selection selected_loggers : Toml.value)
  (before rest : list Toml.value) (handler_name : string)
  (handlers handlers1 : list Loguru.sink) :
  Toml.getitem config "loggers_selection" = Return selection ->
  Toml.getitem selection "loggers" = Return selected_loggers ->
  Toml.iterate selected_loggers = before ++ Toml.Str handler_name :: rest ->
  handler_name ∉ ["console"; "file"] ->
  Logging.setup_handlers config before [] = (handlers1, Return tt) ->
  Logging.get_handler handler_name config
  = Raise (ValueError ("Handler does not exist: " +:+ handler_name))
  /\ Logging.setup_logging (Return config) handlers
     = (handlers1,
        Raise (ValueError ("Handler does not exist: " +:+ handler_name))).
Proof.
  intros Hselection Hloggers Hiterate Hunknown Hbefore.
  assert (Hget : Logging.get_handler handler_name config
                 = Raise (ValueError
                            ("Handler does not exist: " +:+ handler_name))).
  { unfold Logging.get_handler.
    now rewrite (handlers_lookup_unknown handler_name Hunknown). }
  split; [exact Hget |].
  unfold Logging.setup_logging, Logging.remove, mbind, result_bind.
  rewrite Hselection. cbn [Py.bind]. rewrite Hloggers, Hiterate.
  rewrite setup_handlers_app, Hbefore.
  cbn [Logging.setup_handlers Logging.get_handler_value].
  now rewrite Hget.
Qed.

Lemma setup_logging_unknown_handler_witness :
  Logging.get_handler "consol" misspelt_config
  = Raise (ValueError ("Handler does not exist: " +:+ "consol"))
  /\ Logging.setup_logging (H := example_loguru) (Return misspelt_config) []
     = ([ {| Loguru.sink_target := Loguru.Stdout;
             Loguru.format := Toml.Str "{message}";
             Loguru.level := Toml.Str "INFO";
             Loguru.rotation := None;
             Loguru.retention := None |} ],
        Raise (ValueError ("Handler does not exist: " +:+ "consol"))).
Proof.
  refine (setup_logging_unknown_handler (H := example_loguru)
            misspelt_config
            (Toml.Table
               [("loggers",
                 Toml.Array [Toml.Str "console"; Toml.Str "consol"])])
            (Toml.Array [Toml.Str "console"; Toml.Str "consol"])
            [Toml.Str "console"] [] "consol" [] _ _ _ _ _ _).
  - reflexivity.
  - reflexivity.
  - reflexivity.
  - apply (bool_decide_unpack _). vm_compute. exact I.
  - reflexivity.
Defined.

(** ** The checks of a schema *)

(** What the loop of [from_config] adds to the fields, and what it leaves
    in the cell [check_expr]: every check it makes reads that cell, and
    the cell holds the expression of the last check. *)
Lemma fields_loop_returns `{Pandera} (frame : nat)
  (items : list (string * Schema.field_config)) (cells cells' : Schema.store)
  (fields fields' : list (string * Schema.Column)) :
  (frame < length cells)%nat ->
  Schema.fields_loop frame items cells fields = (cells', Return fields') ->
  exists added,
    fields' = fields ++ added
    /\ Forall2 (fun item field =>
                  fst field = fst item
                  /\ Schema.column_checks (snd field)
                     = match Schema.checks (snd item) with
                       | Some check_expr =>
                           [ {| Schema.fn := frame;
                                Schema.error :=
                                  "Check failed: " +:+ check_expr;
                                Schema.element_wise := true |} ]
                       | None => []
                       end)
         items added
    /\ mjoin (cells' !! frame)
       = match last (Schema.configured_checks items) with
         | Some check_expr => Some check_expr
         | None => mjoin (cells !! frame)
         end.
Proof.
  revert cells fields.
  induction items as [| [field_name field] items IH]; intros cells fields Hframe.
  - cbn [Schema.fields_loop]. intros E. injection E as <- <-.
    exists []. split; [now rewrite app_nil_r |]. split; [constructor |].
    reflexivity.
  - cbn [Schema.fields_loop].
    destruct (Schema.pandera_type_of field) as [pandera_type | e];
      [| discriminate].
    unfold Schema.configured_checks. cbn [omap list_omap snd].
    fold (Schema.configured_checks items).
    destruct (Schema.checks field) as [check_expr |] eqn:Echecks.
    + intros Hloop.
      assert (Hframe' : (frame < length (<[frame := Some check_expr]> cells))%nat)
        by now rewrite length_insert.
      destruct (IH _ _ Hframe' Hloop) as (added & -> & Hadded & Hcell).
      eexists (_ :: added). split; [now rewrite <- app_assoc |].
      split.
      * constructor; [| exact Hadded]. cbn [fst snd Schema.column_checks].
        now rewrite Echecks.
      * rewrite Hcell, list_lookup_insert_eq by exact Hframe.
        cbn [mjoin option_join].
        destruct (Schema.configured_checks items) as [| e l] eqn:Erest;
          [reflexivity |].
        change (last (check_expr :: e :: l)) with (last (e :: l)).
        destruct (last (e :: l)) eqn:El; [reflexivity |].
        apply last_None in El. discriminate.
    + intros Hloop.
      destruct (IH _ _ Hframe Hloop) as (added & -> & Hadded & Hcell).
      eexists (_ :: added). split; [now rewrite <- app_assoc |].
      split.
      * constructor; [| exact Hadded]. cbn [fst snd Schema.column_checks].
        now rewrite Echecks.
      * exact Hcell.
Qed.

(** X20.  The lambda of every check that [from_config] makes reads the
    variable [check_expr] of the call when it is called, and the loop
    assigns that variable once per field with a check: in the schema
    [from_config] returns, every check evaluates the expression of the
    last field that configures one, whatever its own field configures,
    while its error message quotes the expression of its own field. *)
Theorem from_config_checks_share_expression `{Pandera}
  (config : Schema.schemas) (schema_name : string)
  (cells cells' : list (option string)) (schema : Schema.DataFrameSchema) :
  Schema.from_config config schema_name cells = (cells', Return schema) ->
  exists schema_config,
    Schema.assoc schema_name config = Some schema_config
    /\ map fst (Schema.fields schema) = map fst schema_config
    /\ forall field_name column check,
         (field_name, column) ∈ Schema.fields schema ->
         check ∈ Schema.column_checks column ->
         Schema.evaluated cells' check
         = last (Schema.configured_checks schema_config)
         /\ exists field check_expr,
              (field_name, field) ∈ schema_config
              /\ Schema.checks field = Some check_expr
              /\ Schema.error check = "Check failed: " +:+ check_expr.
Proof.
  unfold Schema.from_config.
  destruct (Schema.assoc schema_name config) as [schema_config |];
    [| discriminate].
  destruct (Schema.fields_loop _ _ _ _) as [cells1 [fields |]] eqn:Eloop;
    [| discriminate].
  intros E. injection E as -> <-. cbn [Schema.fields].
  apply fields_loop_returns in Eloop as (added & -> & Hadded & Hcell);
    [| rewrite length_app; simpl; lia].
  rewrite lookup_app_r, Nat.sub_diag in Hcell by lia.
  cbn [lookup list_lookup mjoin option_join] in Hcell.
  exists schema_config. split; [reflexivity |]. cbn [app]. split.
  - clear Hcell. induction Hadded as [| item field items added [Hname _] _ IH];
      [reflexivity |].
    cbn [map]. now rewrite Hname, IH.
  - intros field_name column check Hfield Hcheck.
    apply list_elem_of_lookup_1 in Hfield as [i Hi].
    destruct (Forall2_lookup_r _ _ _ _ _ Hadded Hi)
      as ([name field] & Hitem & Hname & Hchecks).
    cbn [fst snd] in Hname, Hchecks. subst name.
    rewrite Hchecks in Hcheck.
    destruct (Schema.checks field) as [check_expr |] eqn:Echecks;
      [| inversion Hcheck].
    apply list_elem_of_singleton in Hcheck as ->. split.
    + unfold Schema.evaluated. cbn [Schema.fn]. rewrite Hcell.
      now destruct (last (Schema.configured_checks schema_config)).
    + exists field, check_expr. split; [| now split].
      now apply list_elem_of_lookup_2 in Hitem.
Qed.

Lemma from_config_checks_share_expression_witness :
  exists schema_config,
    Schema.assoc "pays" payments_schemas = Some schema_config
    /\ map fst (Schema.fields payments_schema) = map fst schema_config
    /\ forall field_name column check,
         (field_name, column) ∈ Schema.fields payments_schema ->
         check ∈ Schema.column_checks column ->
         Schema.evaluated [Some "x < 100000"] check
         = last (Schema.configured_checks schema_config)
         /\ exists field check_expr,
              (field_name, field) ∈ schema_config
              /\ Schema.checks field = Some check_expr
              /\ Schema.error check = "Check failed: " +:+ check_expr.
Proof.
  apply (from_config_checks_share_expression (H := example_pandera)
           payments_schemas "pays" [] [Some "x < 100000"] payments_schema).
  reflexivity.
Defined.

(** ** The pipeline: a source that cannot be read *)

Lemma setitem_getitem (source : string) (data : Pandas.DataFrame)
  (d : list (string * Pandas.DataFrame)) (k : string) :
  Pipeline.getitem (Pipeline.setitem source data d) k
  = if decide (k = source) then Return data else Pipeline.getitem d k.
Proof.
  induction d as [| [k' v] d IH]; cbn [Pipeline.setitem Pipeline.getitem].
  - destruct (decide (source = k)), (decide (k = source)); congruence.
  - destruct (decide (k' = source)) as [-> | Hne];
      cbn [Pipeline.getitem].
    + destruct (decide (source = k)), (decide (k = source)); congruence.
    + destruct (decide (k' = k)) as [-> | Hne'].
      * destruct (decide (k = source)); congruence.
      * exact IH.
Qed.

(** X21.  [main] goes on when a source cannot be read, but it needs all
    three to merge them: if the reader of one of the sources raises,
    [main] ends with an exception and the drift monitoring is never
    started.  When the files of the sources that were read can be written,
    the exception is the KeyError of the lookup of a missing source in
    [dataframes]. *)
Theorem main_needs_every_source `{Pipeline.Stages} `{SciPy} (w : World)
  (config : list Config.table) (source : string) :
  source ∈ Pipeline.data_sources ->
  ~ Pipeline.loaded source ->
  let out := Pipeline.main w config in
  Py.raises (snd out)
  /\ Pipeline.monitoring (fst out) = None
  /\ ((forall df output_path index, Pipeline.to_csv df output_path index = Return tt) ->
      exists missing,
        missing ∈ Pipeline.data_sources /\ ~ Pipeline.loaded missing
        /\ snd out = Raise (KeyError missing)).
Proof.
  intros Hsource Hfailed.
  assert (Hsome : ~ (Pipeline.loaded "pays" /\ Pipeline.loaded "prints"
                     /\ Pipeline.loaded "taps")).
  { intros (Hpays & Hprints & Htaps). apply Hfailed.
    unfold Pipeline.data_sources in Hsource.
    repeat (apply elem_of_cons in Hsource as [-> | Hsource]; [assumption |]).
    inversion Hsource. }
  clear source Hsource Hfailed.
  assert (Hin : forall k, k ∈ ["pays"; "prints"; "taps"] ->
                          k ∈ Pipeline.data_sources) by (intros k Hk; exact Hk).
  unfold Pipeline.loaded in *.
  unfold Pipeline.main, Pipeline.data_sources, Pipeline.load_source.
  cbn [fold_left].
  destruct (Pipeline.reader_factory "pays" ≫= Pipeline.read_data) as [pays | e1] eqn:Epays;
    destruct (Pipeline.reader_factory "prints" ≫= Pipeline.read_data) as [prints | e2] eqn:Eprints;
    destruct (Pipeline.reader_factory "taps" ≫= Pipeline.read_data) as [taps | e3] eqn:Etaps;
    try (exfalso; apply Hsome; repeat split; eexists; reflexivity);
    clear Hsome; simpl;
    repeat match goal with
           | |- context [Pipeline.to_csv ?df ?p ?i] =>
               let E := fresh "E" in
               destruct (Pipeline.to_csv df p i) as [[] | ?] eqn:E; simpl
           end;
    (split; [eexists; reflexivity |]); (split; [reflexivity |]);
    intros Hcsv;
    repeat match goal with
           | E : Pipeline.to_csv ?df ?p ?i = Raise _ |- _ =>
               rewrite Hcsv in E; discriminate E
           end;
    first [ exists "prints"; split; [set_solver |];
            split; [intros [? ?]; congruence | reflexivity]
          | exists "taps"; split; [set_solver |];
            split; [intros [? ?]; congruence | reflexivity]
          | exists "pays"; split; [set_solver |];
            split; [intros [? ?]; congruence | reflexivity] ].
Qed.

Lemma main_needs_every_source_witness :
  let out :=
    @Pipeline.main stages_without_pays example_scipy example_world
      [orders_table] in
  Py.raises (snd out)
  /\ Pipeline.monitoring (fst out) = None
  /\ ((forall df output_path index,
         @Pipeline.to_csv stages_without_pays df output_path index = Return tt) ->
      exists missing,
        missing ∈ Pipeline.data_sources
        /\ ~ @Pipeline.loaded stages_without_pays missing
        /\ snd out = Raise (KeyError missing)).
Proof.
  apply (@main_needs_every_source stages_without_pays example_scipy
           example_world [orders_table] "pays").
  - apply (bool_decide_unpack _). vm_compute. exact I.
  - intros [data Hdata]. discriminate Hdata.
Defined.

(** ** The cleansing steps *)

Lemma boolean_index_filter (data : Pandas.DataFrame)
  (p : Z * gmap string Pandas.cell -> bool) :
  DataCleansing.boolean_index data (map p (Pandas.rows data))
  = {| Pandas.columns := Pandas.columns data;
       Pandas.rows := List.filter p (Pandas.rows data) |}.
Proof.
  unfold DataCleansing.boolean_index. f_equal.
  induction (Pandas.rows data) as [| r rows IH]; [reflexivity |].
  cbn [map zip zip_with List.filter]. rewrite filter_cons. cbn [snd].
  destruct (p r).
  - rewrite decide_True by reflexivity. rewrite fmap_cons. cbn [fst].
    f_equal. exact IH.
  - rewrite decide_False by discriminate. exact IH.
Qed.

Lemma ge_zero_returns (column : string)
  (rows : list (Z * gmap string Pandas.cell)) (mask : list bool) :
  DataCleansing.ge_zero
    (Pandas.values ((fun r => (fst r, snd r !!! column)) <$> rows))
  = Return mask ->
  mask = map (nonnegative_at column) rows
  /\ Forall (fun r => exists q, snd r !!! column = Pandas.Num q) rows.
Proof.
  revert mask. induction rows as [| r rows IH]; intros mask.
  - cbn. intros E. injection E as <-. split; [reflexivity | constructor].
  - unfold Pandas.values. rewrite !fmap_cons. cbn [fst snd DataCleansing.ge_zero].
    match goal with
    | |- context [match ?c with Pandas.Num _ => _ | Pandas.Str _ => _ end] =>
        destruct c as [q | s] eqn:Ecell; [| discriminate]
    end.
    unfold mbind, result_bind.
    fold (Pandas.values ((fun r => (fst r, snd r !!! column)) <$> rows)).
    destruct (DataCleansing.ge_zero _) as [mask' | e]; cbn [Py.bind];
      [| discriminate].
    intros E. injection E as <-. destruct (IH mask' eq_refl) as [-> Hnum].
    split.
    + cbn [map]. f_equal. unfold nonnegative_at. now rewrite Ecell.
    + constructor; [now exists q | exact Hnum].
Qed.

Lemma filter_idempotent {A : Type} (p : A -> bool) (l : list A) :
  List.filter p (List.filter p l) = List.filter p l.
Proof.
  induction l as [| x l IH]; [reflexivity |]. cbn [List.filter].
  destruct (p x) eqn:Ex; [| exact IH]. cbn [List.filter].
  now rewrite Ex, IH.
Qed.

Lemma ge_zero_numeric (column : string)
  (rows : list (Z * gmap string Pandas.cell)) :
  Forall (fun r => exists q, snd r !!! column = Pandas.Num q) rows ->
  DataCleansing.ge_zero
    (Pandas.values ((fun r => (fst r, snd r !!! column)) <$> rows))
  = Return (map (nonnegative_at column) rows).
Proof.
  induction 1 as [| r rows [q Hq] _ IH]; [reflexivity |].
  unfold Pandas.values in *. rewrite !fmap_cons.
  cbn [fst snd DataCleansing.ge_zero map]. rewrite Hq.
  unfold mbind, result_bind. rewrite IH. cbn [Py.bind].
  unfold nonnegative_at at 2. now rewrite Hq.
Qed.

Lemma remove_negatives_numeric (data : Pandas.DataFrame) (column : string) :
  column ∈ Pandas.columns data ->
  Forall (fun r => exists q, snd r !!! column = Pandas.Num q)
    (Pandas.rows data) ->
  DataCleansing.remove_negatives data column
  = Return {| Pandas.columns := Pandas.columns data;
              Pandas.rows :=
                List.filter (nonnegative_at column) (Pandas.rows data) |}.
Proof.
  intros Hcol Hnum.
  unfold DataCleansing.remove_negatives, Pandas.getitem, mbind, result_bind.
  rewrite decide_True by exact Hcol. cbn [Py.bind].
  rewrite (ge_zero_numeric column _ Hnum). cbn [Py.bind].
  now rewrite boolean_index_filter.
Qed.

(** X22.  When [remove_negatives] returns, the column exists and holds
    numbers only, and the result is the frame of the rows whose value in
    the column is at least zero, with their labels and in their order;
    zeros are kept, and cleaning the result again changes nothing. *)
Theorem remove_negatives_keeps_nonnegative_rows (data : Pandas.DataFrame)
  (column : string) (cleaned : Pandas.DataFrame) :
  DataCleansing.remove_negatives data column = Return cleaned ->
  column ∈ Pandas.columns data
  /\ Forall (fun r => exists q, snd r !!! column = Pandas.Num q)
       (Pandas.rows data)
  /\ Pandas.columns cleaned = Pandas.columns data
  /\ Pandas.rows cleaned
     = List.filter (nonnegative_at column) (Pandas.rows data)
  /\ Forall (fun r => exists q,
               snd r !!! column = Pandas.Num q /\ (0 <= q)%Q)
       (Pandas.rows cleaned)
  /\ DataCleansing.remove_negatives cleaned column = Return cleaned.
Proof.
  intros Hclean.
  assert (Hcol : column ∈ Pandas.columns data).
  { revert Hclean.
    unfold DataCleansing.remove_negatives, Pandas.getitem, mbind, result_bind.
    destruct (decide _); [trivial | discriminate]. }
  assert (Hnum : Forall (fun r => exists q, snd r !!! column = Pandas.Num q)
                   (Pandas.rows data)).
  { revert Hclean.
    unfold DataCleansing.remove_negatives, Pandas.getitem, mbind, result_bind.
    rewrite decide_True by exact Hcol. cbn [Py.bind].
    destruct (DataCleansing.ge_zero _) as [mask | e] eqn:Emask;
      [| discriminate].
    intros _. now destruct (ge_zero_returns _ _ _ Emask). }
  rewrite (remove_negatives_numeric data column Hcol Hnum) in Hclean.
  injection Hclean as <-. cbn [Pandas.columns Pandas.rows].
  assert (Hkept : Forall (fun r => exists q,
                            snd r !!! column = Pandas.Num q /\ (0 <= q)%Q)
                    (List.filter (nonnegative_at column) (Pandas.rows data))).
  { apply Forall_forall. intros r Hr.
    apply list_elem_of_In, filter_In in Hr as [_ Hr].
    unfold nonnegative_at in Hr.
    destruct (snd r !!! column) as [q | s]; [| discriminate].
    exists q. split; [reflexivity | now apply Qle_bool_iff]. }
  repeat split; try assumption.
  rewrite remove_negatives_numeric; cbn [Pandas.columns Pandas.rows].
  - now rewrite filter_idempotent.
  - exact Hcol.
  - apply (Forall_impl _ _ _ Hkept). intros r (q & Hq & _). now exists q.
Qed.

Lemma remove_negatives_keeps_nonnegative_rows_witness :
  "amount" ∈ Pandas.columns (frame_of "amount" [(0, (-1)%Q); (1, 0%Q)])
  /\ Forall (fun r => exists q, snd r !!! "amount" = Pandas.Num q)
       (Pandas.rows (frame_of "amount" [(0, (-1)%Q); (1, 0%Q)]))
  /\ Pandas.columns (frame_of "amount" [(1, 0%Q)])
     = Pandas.columns (frame_of "amount" [(0, (-1)%Q); (1, 0%Q)])
  /\ Pandas.rows (frame_of "amount" [(1, 0%Q)])
     = List.filter (nonnegative_at "amount")
         (Pandas.rows (frame_of "amount" [(0, (-1)%Q); (1, 0%Q)]))
  /\ Forall (fun r => exists q,
               snd r !!! "amount" = Pandas.Num q /\ (0 <= q)%Q)
       (Pandas.rows (frame_of "amount" [(1, 0%Q)]))
  /\ DataCleansing.remove_negatives (frame_of "amount" [(1, 0%Q)]) "amount"
     = Return (frame_of "amount" [(1, 0%Q)]).
Proof.
  apply (remove_negatives_keeps_nonnegative_rows
           (frame_of "amount" [(0, (-1)%Q); (1, 0%Q)]) "amount"
           (frame_of "amount" [(1, 0%Q)])).
  reflexivity.
Defined.

(** X23.  The standard deviation of fewer than two values is NaN, and
    so is every z-score computed from it: [remove_outliers] on a frame of
    a single row returns a frame without rows, whatever the value and the
    threshold. *)
Theorem remove_outliers_single_row (data : Pandas.DataFrame)
  (column : string) (threshold : Q) (s : Pandas.Series) (xs : list Q) :
  Pandas.getitem data column = Return s ->
  as_array s = Return xs ->
  (length xs <= 1)%nat ->
  DataCleansing.remove_outliers data column threshold
  = Return {| Pandas.columns := Pandas.columns data; Pandas.rows := [] |}.
Proof.
  intros Hs Hxs Hlen.
  pose proof (column_length data column s xs Hs Hxs) as Hrows.
  unfold Pandas.len in Hrows. apply Nat2Z.inj in Hrows.
  unfold DataCleansing.remove_outliers, mbind, result_bind.
  rewrite Hs. cbn [Py.bind]. rewrite Hxs. cbn [Py.bind].
  unfold DataCleansing.boolean_index. do 2 f_equal.
  destruct xs as [| x [| y xs]]; [| | simpl in Hlen; lia].
  - destruct (Pandas.rows data); [reflexivity | discriminate].
  - destruct (Pandas.rows data) as [| r [| r' rows]]; try discriminate.
    cbn [Pandas.std Pandas.mean map zip zip_with].
    replace (ltb (Float64.abs (div (sub (of_Q x)
                                      (of_Q (Pandas.Qsum [x]
                                             / inject_Z (Z.of_nat (length [x])))))
                                 NaN)) (of_Q threshold)) with false;
      [reflexivity |].
    unfold sub, of_Q, neg, add, div, Float64.abs, ltb, gtb.
    now destruct (of_Q threshold).
Qed.

Lemma remove_outliers_single_row_witness :
  DataCleansing.remove_outliers shift_recent "amount" 3
  = Return {| Pandas.columns := Pandas.columns shift_recent;
              Pandas.rows := [] |}.
Proof.
  refine (remove_outliers_single_row shift_recent "amount" 3
            [(2, Pandas.Num 5)] [5]%Q _ _ _).
  - reflexivity.
  - reflexivity.
  - simpl. lia.
Defined.

Lemma cell_eqb_refl (c : Pandas.cell) : Pandas.cell_eqb c c = true.
Proof.
  destruct c as [q | s]; cbn [Pandas.cell_eqb].
  - apply Qeq_bool_iff. reflexivity.
  - apply String.eqb_refl.
Qed.

Lemma row_eqb_refl (columns : list string) (r : gmap string Pandas.cell) :
  DataCleansing.row_eqb columns r r = true.
Proof.
  unfold DataCleansing.row_eqb. apply forallb_forall. intros c _.
  apply cell_eqb_refl.
Qed.

Lemma first_occurrences_sublist (columns : list string)
  (kept : list (gmap string Pandas.cell))
  (rows : list (Z * gmap string Pandas.cell)) :
  sublist (DataCleansing.first_occurrences columns kept rows) rows.
Proof.
  revert kept. induction rows as [| r rows IH]; intros kept;
    cbn [DataCleansing.first_occurrences]; [constructor |].
  destruct (existsb _ kept); [apply sublist_cons, IH | apply sublist_skip, IH].
Qed.

(** A row that is kept equals no row kept before it. *)
Lemma first_occurrences_new (columns : list string)
  (kept : list (gmap string Pandas.cell))
  (rows : list (Z * gmap string Pandas.cell)) (r : Z * gmap string Pandas.cell) :
  r ∈ DataCleansing.first_occurrences columns kept rows ->
  existsb (DataCleansing.row_eqb columns (snd r)) kept = false.
Proof.
  revert kept. induction rows as [| r0 rows IH]; intros kept;
    cbn [DataCleansing.first_occurrences]; [intros Hr; inversion Hr |].
  destruct (existsb _ kept) eqn:E0; [apply IH |].
  intros Hr. apply elem_of_cons in Hr as [-> | Hr]; [exact E0 |].
  apply IH in Hr. cbn [existsb] in Hr.
  now apply orb_false_elim in Hr as [_ Hr].
Qed.

Lemma first_occurrences_distinct (columns : list string)
  (kept : list (gmap string Pandas.cell))
  (rows : list (Z * gmap string Pandas.cell)) (i j : nat)
  (ri rj : Z * gmap string Pandas.cell) :
  (i < j)%nat ->
  DataCleansing.first_occurrences columns kept rows !! i = Some ri ->
  DataCleansing.first_occurrences columns kept rows !! j = Some rj ->
  DataCleansing.row_eqb columns (snd rj) (snd ri) = false.
Proof.
  revert kept i j. induction rows as [| r0 rows IH]; intros kept i j Hij;
    cbn [DataCleansing.first_occurrences]; [intros Hi; discriminate Hi |].
  destruct (existsb _ kept) eqn:E0; [now apply IH |].
  destruct i as [| i], j as [| j]; try lia; cbn [lookup list_lookup].
  - intros Hi Hj. injection Hi as <-.
    apply list_elem_of_lookup_2, first_occurrences_new in Hj.
    cbn [existsb] in Hj. now apply orb_false_elim in Hj as [Hj _].
  - apply IH. lia.
Qed.

(** Every row equals a row that is kept, or a row kept before. *)
Lemma first_occurrences_cover (columns : list string)
  (kept : list (gmap string Pandas.cell))
  (rows : list (Z * gmap string Pandas.cell)) (r : Z * gmap string Pandas.cell) :
  r ∈ rows ->
  existsb (DataCleansing.row_eqb columns (snd r)) kept = true
  \/ exists r', r' ∈ DataCleansing.first_occurrences columns kept rows
                /\ DataCleansing.row_eqb columns (snd r) (snd r') = true.
Proof.
  revert kept. induction rows as [| r0 rows IH]; intros kept Hr;
    [inversion Hr |].
  cbn [DataCleansing.first_occurrences].
  destruct (existsb (DataCleansing.row_eqb columns (snd r0)) kept) eqn:E0.
  - apply elem_of_cons in Hr as [-> | Hr]; [now left |].
    exact (IH kept Hr).
  - apply elem_of_cons in Hr as [-> | Hr].
    + right. exists r0. split; [apply elem_of_cons; now left |].
      apply row_eqb_refl.
    + destruct (IH (snd r0 :: kept) Hr) as [Hkept | (r' & Hr' & Heq)].
      * cbn [existsb] in Hkept. apply orb_true_iff in Hkept as [Heq | Hkept];
          [| now left].
        right. exists r0. split; [apply elem_of_cons; now left | exact Heq].
      * right. exists r'. split; [apply elem_of_cons; now right | exact Heq].
Qed.

Lemma first_occurrences_idempotent (columns : list string)
  (kept : list (gmap string Pandas.cell))
  (rows : list (Z * gmap string Pandas.cell)) :
  DataCleansing.first_occurrences columns kept
    (DataCleansing.first_occurrences columns kept rows)
  = DataCleansing.first_occurrences columns kept rows.
Proof.
  revert kept. induction rows as [| r0 rows IH]; intros kept; [reflexivity |].
  cbn [DataCleansing.first_occurrences].
  destruct (existsb _ kept) eqn:E0; [apply IH |].
  cbn [DataCleansing.first_occurrences]. rewrite E0. f_equal. apply IH.
Qed.

(** X24.  [remove_duplicates] keeps, of the rows that hold the same
    values in every column, the first one: the rows it returns are rows of
    the frame, with their labels and in their order; every row of the
    frame equals a returned row; no two returned rows are equal (when the
    frame has a column); and removing the duplicates of the result changes
    nothing. *)
Theorem remove_duplicates_keeps_first_occurrences (data : Pandas.DataFrame) :
  let cleaned := DataCleansing.remove_duplicates data in
  let columns := Pandas.columns data in
  Pandas.columns cleaned = columns
  /\ sublist (Pandas.rows cleaned) (Pandas.rows data)
  /\ (forall r, r ∈ Pandas.rows data ->
        exists r', r' ∈ Pandas.rows cleaned
                   /\ DataCleansing.row_eqb columns (snd r) (snd r') = true)
  /\ (columns <> [] ->
      forall i j ri rj,
        (i < j)%nat ->
        Pandas.rows cleaned !! i = Some ri ->
        Pandas.rows cleaned !! j = Some rj ->
        DataCleansing.row_eqb columns (snd rj) (snd ri) = false)
  /\ DataCleansing.remove_duplicates cleaned = cleaned.
Proof.
  intros cleaned columns. unfold cleaned, DataCleansing.remove_duplicates.
  fold columns. destruct columns as [| c cs] eqn:Ecolumns.
  - fold columns. rewrite Ecolumns.
    split; [reflexivity |]. split; [reflexivity |].
    split; [intros r Hr; exists r; now split |].
    split; [intros Hne; contradiction | reflexivity].
  - cbn [Pandas.columns Pandas.rows].
    split; [reflexivity |]. split; [apply first_occurrences_sublist |].
    split; [| split].
    + intros r Hr.
      destruct (first_occurrences_cover (c :: cs) [] _ r Hr)
        as [Hkept | Hcover]; [discriminate | exact Hcover].
    + intros _ i j ri rj. apply first_occurrences_distinct.
    + now rewrite first_occurrences_idempotent.
Qed.

(** ** The Population Stability Index without smoothing *)



Lemma signed_inf_not_finite (s : comparison) : ~ is_finite (signed_inf s).
Proof. destruct s; intros [r E]; discriminate E. Qed.









(** ** ZTest treats its two samples alike *)

Lemma add_comm (x y : xreal) : add x y = add y x.
Proof.
  destruct x as [a | | |], y as [b | | |]; cbn [add]; try reflexivity.
  f_equal. apply Rplus_comm.
Qed.

Lemma abs_signed_inf_opp (x : R) :
  Float64.abs (signed_inf (Rsign x)) = Float64.abs (signed_inf (Rsign (- x))).
Proof.
  pose proof (Rsign_spec x) as Hx. pose proof (Rsign_spec (- x)) as Hx'.
  destruct (Rsign x), (Rsign (- x)); try reflexivity; exfalso; lra.
Qed.

(** The absolute value of the z-score does not depend on which of the two
    means is subtracted from the other. *)
Lemma abs_div_sub (a b p : xreal) :
  Float64.abs (div (sub a b) p) = Float64.abs (div (sub b a) p).
Proof.
  destruct a as [a | | |], b as [b | | |]; cbn [sub neg add];
    try reflexivity;
    destruct p as [q | | |]; cbn [div]; try reflexivity;
    try (destruct (Rsign q); reflexivity).
  replace (b + - a)%R with (- (a + - b))%R by lra.
  destruct (Rsign q).
  - apply abs_signed_inf_opp.
  - cbn [Float64.abs]. f_equal.
    replace (- (a + - b) / q)%R with (- ((a + - b) / q))%R
      by (unfold Rdiv; lra).
    now rewrite Rabs_Ropp.
  - cbn [Float64.abs]. f_equal.
    replace (- (a + - b) / q)%R with (- ((a + - b) / q))%R
      by (unfold Rdiv; lra).
    now rewrite Rabs_Ropp.
Qed.

(** X26.  ZTest gives the same result when the historical and the
    recent data are exchanged: the pooled standard deviation is symmetric
    in the two samples, and the decision and the p-value depend on the
    absolute value of the z-score only. *)
Theorem ZTest_symmetric `{SciPy} (h r : Pandas.DataFrame) (alpha : Q)
  (column_name : string) (hist_column recent_column : Pandas.Series)
  (hist recent : list Q) :
  Pandas.getitem h column_name = Return hist_column ->
  as_array hist_column = Return hist ->
  Pandas.getitem r column_name = Return recent_column ->
  as_array recent_column = Return recent ->
  ZTest.detect_drift
    {| ZTest.historical_data := h; ZTest.recent_data := r;
       ZTest.alpha := alpha |} column_name
  = ZTest.detect_drift
      {| ZTest.historical_data := r; ZTest.recent_data := h;
         ZTest.alpha := alpha |} column_name.
Proof.
  intros Hhc Hh Hrc Hr.
  rewrite (ZTest_detect_drift_columns
             {| ZTest.historical_data := h; ZTest.recent_data := r;
                ZTest.alpha := alpha |} column_name _ _ _ _ Hhc Hh Hrc Hr).
  rewrite (ZTest_detect_drift_columns
             {| ZTest.historical_data := r; ZTest.recent_data := h;
                ZTest.alpha := alpha |} column_name _ _ _ _ Hrc Hr Hhc Hh).
  unfold ZTest.variance_over, mbind, result_bind. cbn [ZTest.alpha].
  destruct (Z.of_nat (length hist) =? 0), (Z.of_nat (length recent) =? 0);
    cbn [Py.bind]; try reflexivity.
  rewrite (add_comm (div (mul (Pandas.std recent) (Pandas.std recent)) _)).
  now rewrite (abs_div_sub (Pandas.mean recent) (Pandas.mean hist)).
Qed.

Lemma ZTest_symmetric_witness :
  ZTest.detect_drift (H := example_scipy)
    {| ZTest.historical_data := amount_historical;
       ZTest.recent_data := amount_recent; ZTest.alpha := 5 # 100 |} "amount"
  = ZTest.detect_drift (H := example_scipy)
      {| ZTest.historical_data := amount_recent;
         ZTest.recent_data := amount_historical;
         ZTest.alpha := 5 # 100 |} "amount".
Proof.
  refine (ZTest_symmetric (H := example_scipy) amount_historical
            amount_recent (5 # 100) "amount"
            [(0, Pandas.Num 1); (1, Pandas.Num 2)] [(2, Pandas.Num 3)]
            [1; 2]%Q [3]%Q _ _ _ _); reflexivity.
Defined.

(** ** ZTest on the slices of a small table *)

(** The sizes of the two slices of a table of at most seven rows. *)
Lemma small_sample_sizes (n : nat) :
  (n <= 7)%nat ->
  let size := Z.to_nat (Pandas.py_round ((8 # 10) * inject_Z (Z.of_nat n))) in
  ((n <= 2)%nat -> size = n)
  /\ ((3 <= n)%nat -> (2 <= size)%nat /\ (n - size = 1)%nat).
Proof.
  intros Hn.
  do 8 (destruct n as [| n]; [vm_compute; split; intros; lia |]).
  lia.
Qed.

(** X27.  On the two slices the orchestrator makes of a table (a sample
    of four fifths of the rows, and the rest), ZTest cannot detect
    anything when the table has fewer than eight rows: with at most two
    rows the recent slice is empty and [detect_drift] raises
    ZeroDivisionError, and with three to seven rows the recent slice has a
    single row and [detect_drift] reports no drift, whatever the values
    are. *)
Theorem ZTest_needs_eight_rows `{SciPy} (sampler : nat -> nat -> list nat)
  (initial_table : Pandas.DataFrame) (column_name : string) :
  let n := length (Pandas.rows initial_table) in
  let size := Z.to_nat (Pandas.py_round ((8 # 10) * inject_Z (Z.of_nat n))) in
  NoDup (Pandas.index initial_table) ->
  without_replacement n size (sampler n size) ->
  numeric_column initial_table column_name ->
  let historical_data := Pandas.sample sampler (8 # 10) initial_table in
  exists current_data,
    Pandas.drop (Pandas.index historical_data) initial_table
      = Return current_data
    /\ ((n <= 2)%nat ->
        ZTest.detect_drift (ZTest.new historical_data current_data) column_name
        = Raise (ZeroDivisionError "float division by zero"))
    /\ ((3 <= n <= 7)%nat ->
        exists p_value,
          ZTest.detect_drift (ZTest.new historical_data current_data)
            column_name
          = Return (false, p_value)).
Proof.
  intros n size Hindex (Hnodup & Hbelow & Hsize) Hnum historical_data.
  destruct (split_partition (sampler n size) initial_table Hindex Hnodup)
    as (current_data & Hdrop & Hcols & Hperm & _).
  fold n size in Hdrop, Hperm.
  change (Pandas.take (sampler n size) initial_table)
    with historical_data in Hdrop, Hperm.
  exists current_data. split; [exact Hdrop |].
  assert (Hlen_h : length (Pandas.rows historical_data) = size).
  { unfold historical_data, Pandas.sample. fold n size.
    now rewrite (take_length _ _ Hbelow). }
  assert (Hlen_c : length (Pandas.rows current_data) = (n - size)%nat).
  { apply Permutation_length in Hperm. rewrite length_app in Hperm.
    fold n in Hperm. lia. }
  assert (Hnum_h : numeric_column historical_data column_name).
  { apply (numeric_column_rows initial_table); [reflexivity | | exact Hnum].
    apply take_elem_of. }
  assert (Hnum_c : numeric_column current_data column_name).
  { destruct (drop_rows _ _ _ Hdrop) as [Hc Hr].
    now apply (numeric_column_rows initial_table). }
  destruct (numeric_column_array _ _ Hnum_h) as (hs & hist & Hhs & Hhist).
  destruct (numeric_column_array _ _ Hnum_c) as (rs & recent & Hrs & Hrecent).
  pose proof (column_length _ _ _ _ Hhs Hhist) as Hh.
  pose proof (column_length _ _ _ _ Hrs Hrecent) as Hr.
  unfold Pandas.len in Hh, Hr. apply Nat2Z.inj in Hh, Hr.
  rewrite Hlen_h in Hh. rewrite Hlen_c in Hr.
  rewrite (ZTest_detect_drift_columns
             (ZTest.new historical_data current_data) column_name
             hs rs hist recent Hhs Hhist Hrs Hrecent).
  split.
  - intros Hn. destruct (small_sample_sizes n ltac:(lia)) as [Hsmall _].
    fold size in Hsmall. specialize (Hsmall Hn).
    assert (Hrecent0 : length recent = 0%nat) by lia.
    unfold ZTest.variance_over, mbind, result_bind. rewrite Hrecent0.
    cbn [Z.of_nat Z.eqb Py.bind].
    now destruct (Z.of_nat (length hist) =? 0).
  - intros Hn. destruct (small_sample_sizes n ltac:(lia)) as [_ Hlarge].
    fold size in Hlarge. destruct (Hlarge ltac:(lia)) as [Hsize2 Hrest].
    apply ZTest_nan_variance.
    + intros ->. simpl in Hh. lia.
    + intros ->. simpl in Hr. lia.
    + right. lia.
Qed.

Lemma ZTest_needs_eight_rows_witness :
  let initial_table := Pandas.from_csv orders_csv in
  let n := length (Pandas.rows initial_table) in
  let historical_data :=
    Pandas.sample (choice example_world 0) (8 # 10) initial_table in
  exists current_data,
    Pandas.drop (Pandas.index historical_data) initial_table
      = Return current_data
    /\ ((n <= 2)%nat ->
        ZTest.detect_drift (H := example_scipy)
          (ZTest.new historical_data current_data) "amount"
        = Raise (ZeroDivisionError "float division by zero"))
    /\ ((3 <= n <= 7)%nat ->
        exists p_value,
          ZTest.detect_drift (H := example_scipy)
            (ZTest.new historical_data current_data) "amount"
          = Return (false, p_value)).
Proof.
  refine (ZTest_needs_eight_rows (H := example_scipy)
            (choice example_world 0) (Pandas.from_csv orders_csv) "amount"
            _ _ _).
  - apply (bool_decide_unpack _). vm_compute. exact I.
  - repeat split.
    + apply (bool_decide_unpack _). vm_compute. exact I.
    + apply (bool_decide_unpack _). vm_compute. exact I.
  - split.
    + apply (bool_decide_unpack _). vm_compute. exact I.
    + repeat (constructor; [eexists; vm_compute; reflexivity |]). constructor.
Defined.
